(** * AutoGuardRails: policy engine, IAM executor, approval webhook, TTL cleanup

    A shallow embedding of [src/guardrails] and the properties of its
    specification.  The Python code is translated function by function:
    exceptions are values of [Exn], every function that touches the clock,
    the uuid source, the audit table or a boto3 / Slack client is a
    computation in the state-and-exception monad [M], and the boto3 IAM/STS
    clients and the Slack notifier are an interface ([Boto]) the program is
    parametric in. *)

From Stdlib Require Import ZArith List String Ascii Bool Lia Floats DecimalString.
From stdpp Require Import base option list gmap strings.

Set Warnings "-register-all,-automation,-inexact-float".

Local Open Scope string_scope.
Local Open Scope list_scope.
Local Open Scope Z_scope.

(* ===================================================================== *)
(** * Python runtime: strings, exceptions, JSON-like values               *)
(* ===================================================================== *)

Module Py.

(** A Python [str] is a [string] whose characters are the code points
    (below 256) of the text. *)

Definition str_eqb (a b : string) : bool := String.eqb a b.

(** [x in l] for a list of strings. *)
Definition str_in (x : string) (l : list string) : bool :=
  existsb (str_eqb x) l.

(** [s.startswith(p)] *)
Fixpoint startswith (p s : string) : bool :=
  match p, s with
  | EmptyString, _ => true
  | String a p', String b s' => Ascii.eqb a b && startswith p' s'
  | String _ _, EmptyString => false
  end.

(** [p in s] for strings (substring test). *)
Fixpoint contains (p s : string) : bool :=
  startswith p s ||
  match s with
  | EmptyString => false
  | String _ s' => contains p s'
  end.

(** [s.endswith(c)] for a one-character suffix. *)
Fixpoint endswith_char (c : ascii) (s : string) : bool :=
  match s with
  | EmptyString => false
  | String a EmptyString => Ascii.eqb a c
  | String _ s' => endswith_char c s'
  end.

(** [s[:-1]] *)
Fixpoint drop_last (s : string) : string :=
  match s with
  | EmptyString => EmptyString
  | String _ EmptyString => EmptyString
  | String a s' => String a (drop_last s')
  end.

(** [s.split(c)] for a one-character separator: always at least one part. *)
Fixpoint split (c : ascii) (s : string) : list string :=
  match s with
  | EmptyString => [EmptyString]
  | String a s' =>
      if Ascii.eqb a c then EmptyString :: split c s'
      else match split c s' with
           | [] => [String a EmptyString]
           | hd :: tl => String a hd :: tl
           end
  end.

(** [s.split(c, 1)] for a string that contains [c]: the text before the
    first [c] and the text after it; [None] when [c] does not occur. *)
Fixpoint split_once (c : ascii) (s : string) : option (string * string) :=
  match s with
  | EmptyString => None
  | String a s' =>
      if Ascii.eqb a c then Some (EmptyString, s')
      else match split_once c s' with
           | Some (l, r) => Some (String a l, r)
           | None => None
           end
  end.

(** [sep.join(l)] *)
Fixpoint join (sep : string) (l : list string) : string :=
  match l with
  | [] => EmptyString
  | [x] => x
  | x :: tl => x +:+ sep +:+ join sep tl
  end.

(** [s.replace("Z", "+00:00")]: every occurrence is replaced. *)
Fixpoint replace_Z (s : string) : string :=
  match s with
  | EmptyString => EmptyString
  | String a s' =>
      if Ascii.eqb a "Z"%char then "+00:00" +:+ replace_Z s'
      else String a (replace_Z s')
  end.

Definition code (c : ascii) : Z := Z.of_N (N_of_ascii c).
Definition chr (z : Z) : ascii := ascii_of_N (Z.to_N z).

(** [s.encode()]: UTF-8 bytes of the code points of [s]. *)
Fixpoint encode (s : string) : list Z :=
  match s with
  | EmptyString => []
  | String a s' =>
      let c := code a in
      if c <? 128 then c :: encode s'
      else Z.lor 192 (Z.shiftr c 6) :: Z.lor 128 (Z.land c 63) :: encode s'
  end.

Definition is_digit (a : ascii) : bool := (48 <=? code a) && (code a <=? 57).

(** Whitespace, as [int()] and [str.strip()] see it. *)
Definition is_space (a : ascii) : bool :=
  let c := code a in
  ((9 <=? c) && (c <=? 13)) || ((28 <=? c) && (c <=? 32))
  || (c =? 133) || (c =? 160).

Fixpoint lstrip (s : string) : string :=
  match s with
  | String a s' => if is_space a then lstrip s' else s
  | EmptyString => EmptyString
  end.

Fixpoint rstrip (s : string) : string :=
  match s with
  | EmptyString => EmptyString
  | String a s' =>
      match rstrip s' with
      | EmptyString => if is_space a then EmptyString else String a EmptyString
      | r => String a r
      end
  end.

(** The digits of an integer literal: underscores may separate digits. *)
Fixpoint int_digits (s : string) (acc : Z) (after_digit : bool) : option Z :=
  match s with
  | EmptyString => if after_digit then Some acc else None
  | String a s' =>
      if is_digit a then int_digits s' (acc * 10 + (code a - 48)) true
      else if Ascii.eqb a "_"%char && after_digit then int_digits s' acc false
      else None
  end.

Definition hex_digit (z : Z) : ascii :=
  if z <? 10 then chr (48 + z) else chr (87 + z).

(** Exceptions, by class.  [ValidationError] is pydantic's (a subclass of
    [ValueError]); [ClientError] is botocore's and carries
    [response["Error"]["Code"]]. *)
Inductive Exn :=
| ValueError (msg : string)
| ValidationError (msg : string)
| TypeError (msg : string)
| AttributeError (msg : string)
| KeyError (msg : string)
| ClientError (code msg : string)
| OtherError (msg : string).

(** [str(e)] *)
Definition exn_str (e : Exn) : string :=
  match e with
  | ValueError m | ValidationError m | TypeError m | AttributeError m
  | KeyError m | OtherError m => m
  | ClientError c m => "An error occurred (" +:+ c +:+ "): " +:+ m
  end.

Definition is_ClientError (e : Exn) : bool :=
  match e with ClientError _ _ => true | _ => false end.

(** [except (ValueError, AttributeError)] *)
Definition is_ValueError_or_AttributeError (e : Exn) : bool :=
  match e with
  | ValueError _ | ValidationError _ | AttributeError _ => true
  | _ => false
  end.

Definition Result (A : Type) : Type := Exn + A.

(** [int(s)] for a string. *)
Definition int (s : string) : Result Z :=
  let body := rstrip (lstrip s) in
  let r := match body with
           | String sign s' =>
               if Ascii.eqb sign "-"%char then option_map Z.opp (int_digits s' 0 false)
               else if Ascii.eqb sign "+"%char then int_digits s' 0 false
               else int_digits body 0 false
           | EmptyString => None
           end in
  match r with
  | Some z => inr z
  | None => inl (ValueError ("invalid literal for int() with base 10: " +:+ s))
  end.

(** Values of type [Any] as they occur in [details] and [diff]:
    what JSON (and a DynamoDB item) can hold.  A dict keeps its
    insertion order. *)
Inductive Value :=
| VNone
| VBool (b : bool)
| VInt (z : Z)
| VStr (s : string)
| VList (l : list Value)
| VDict (d : list (string * Value)).

Definition Dict : Type := list (string * Value).

(** [d.get(k)] *)
Fixpoint dict_get (k : string) (d : Dict) : option Value :=
  match d with
  | [] => None
  | (k', v) :: tl => if str_eqb k k' then Some v else dict_get k tl
  end.

(** [d[k] = v] *)
Fixpoint dict_set (k : string) (v : Value) (d : Dict) : Dict :=
  match d with
  | [] => [(k, v)]
  | (k', v') :: tl =>
      if str_eqb k k' then (k', v) :: tl else (k', v') :: dict_set k v tl
  end.

(** Truth value of an object in a condition. *)
Definition truthy (v : Value) : bool :=
  match v with
  | VNone => false
  | VBool b => b
  | VInt z => negb (z =? 0)
  | VStr s => negb (str_eqb s EmptyString)
  | VList l => match l with [] => false | _ => true end
  | VDict d => match d with [] => false | _ => true end
  end.

Definition opt_truthy (o : option Value) : bool :=
  match o with Some v => truthy v | None => false end.

Definition str_list (l : list string) : Value := VList (map VStr l).

(** [x not in l] where [x] is any value and [l] a list of strings:
    only a string can be equal to a string. *)
Definition value_in_strs (o : option Value) (l : list string) : bool :=
  match o with
  | Some (VStr s) => str_in s l
  | _ => false
  end.

End Py.
Export Py.

(* ===================================================================== *)
(** * hashlib.sha256, hmac, json.dumps                                    *)
(* ===================================================================== *)

Module Hashlib.

Definition w32 (x : Z) : Z := x mod 4294967296.
Definition add32 (x y : Z) : Z := w32 (x + y).
Definition rotr (n x : Z) : Z :=
  Z.lor (Z.shiftr x n) (w32 (Z.shiftl x (32 - n))).
Definition Ch (x y z : Z) : Z :=
  Z.lxor (Z.land x y) (Z.land (Z.lxor x 4294967295) z).
Definition Maj (x y z : Z) : Z :=
  Z.lxor (Z.lxor (Z.land x y) (Z.land x z)) (Z.land y z).
Definition Sigma0 (x : Z) : Z := Z.lxor (Z.lxor (rotr 2 x) (rotr 13 x)) (rotr 22 x).
Definition Sigma1 (x : Z) : Z := Z.lxor (Z.lxor (rotr 6 x) (rotr 11 x)) (rotr 25 x).
Definition sigma0 (x : Z) : Z := Z.lxor (Z.lxor (rotr 7 x) (rotr 18 x)) (Z.shiftr x 3).
Definition sigma1 (x : Z) : Z := Z.lxor (Z.lxor (rotr 17 x) (rotr 19 x)) (Z.shiftr x 10).

Definition K : list Z :=
  [1116352408; 1899447441; 3049323471; 3921009573; 961987163; 1508970993;
   2453635748; 2870763221; 3624381080; 310598401; 607225278; 1426881987;
   1925078388; 2162078206; 2614888103; 3248222580; 3835390401; 4022224774;
   264347078; 604807628; 770255983; 1249150122; 1555081692; 1996064986;
   2554220882; 2821834349; 2952996808; 3210313671; 3336571891; 3584528711;
   113926993; 338241895; 666307205; 773529912; 1294757372; 1396182291;
   1695183700; 1986661051; 2177026350; 2456956037; 2730485921; 2820302411;
   3259730800; 3345764771; 3516065817; 3600352804; 4094571909; 275423344;
   430227734; 506948616; 659060556; 883997877; 958139571; 1322822218;
   1537002063; 1747873779; 1955562222; 2024104815; 2227730452; 2361852424;
   2428436474; 2756734187; 3204031479; 3329325298].

Definition H0 : list Z :=
  [1779033703; 3144134277; 1013904242; 2773480762;
   1359893119; 2600822924; 528734635; 1541459225].

(** Big-endian bytes of the low [8 * n] bits of [x]. *)
Fixpoint be_bytes (n : nat) (x : Z) : list Z :=
  match n with
  | O => []
  | S n' => be_bytes n' (Z.shiftr x 8) ++ [Z.land x 255]
  end.

Definition pad (msg : list Z) : list Z :=
  let len := Z.of_nat (length msg) in
  let zeros := Z.to_nat ((55 - len) mod 64) in
  msg ++ [128] ++ repeat 0 zeros ++ be_bytes 8 (8 * len).

Fixpoint words (fuel : nat) (bs : list Z) : list Z :=
  match fuel, bs with
  | S f, a :: b :: c :: d :: tl =>
      (((a * 256 + b) * 256 + c) * 256 + d) :: words f tl
  | _, _ => []
  end.

Definition nthZ (n : nat) (l : list Z) : Z := nth n l 0.

(** The message schedule: [w] holds W_0 .. W_{t-1}; [n] words are added. *)
Fixpoint schedule (n : nat) (w : list Z) : list Z :=
  match n with
  | O => w
  | S n' =>
      let t := length w in
      let x := add32 (add32 (sigma1 (nthZ (t - 2) w)) (nthZ (t - 7) w))
                     (add32 (sigma0 (nthZ (t - 15) w)) (nthZ (t - 16) w)) in
      schedule n' (w ++ [x])
  end.

Definition Regs : Type := (Z * Z * Z * Z * Z * Z * Z * Z)%type.

Definition round (r : Regs) (kw : Z * Z) : Regs :=
  let '(a, b, c, d, e, f, g, h) := r in
  let '(k, w) := kw in
  let t1 := add32 (add32 (add32 h (Sigma1 e)) (add32 (Ch e f g) k)) w in
  let t2 := add32 (Sigma0 a) (Maj a b c) in
  (add32 t1 t2, a, b, c, add32 d t1, e, f, g).

Definition compress (r : Regs) (block : list Z) : Regs :=
  let w := schedule 48 (words 16 block) in
  let '(a, b, c, d, e, f, g, h) := fold_left round (combine K w) r in
  let '(a0, b0, c0, d0, e0, f0, g0, h0) := r in
  (add32 a0 a, add32 b0 b, add32 c0 c, add32 d0 d,
   add32 e0 e, add32 f0 f, add32 g0 g, add32 h0 h).

Fixpoint blocks (fuel : nat) (bs : list Z) (r : Regs) : Regs :=
  match fuel with
  | O => r
  | S f =>
      match bs with
      | [] => r
      | _ => blocks f (skipn 64 bs) (compress r (firstn 64 bs))
      end
  end.

(** [hashlib.sha256(msg).digest()] *)
Definition sha256 (msg : list Z) : list Z :=
  let p := pad msg in
  let '(a, b, c, d, e, f, g, h) :=
    blocks (length p) p
      (1779033703, 3144134277, 1013904242, 2773480762,
       1359893119, 2600822924, 528734635, 1541459225) in
  flat_map (be_bytes 4) [a; b; c; d; e; f; g; h].

Fixpoint hex (bs : list Z) : string :=
  match bs with
  | [] => EmptyString
  | b :: tl => String (hex_digit (Z.shiftr b 4)) (String (hex_digit (Z.land b 15)) (hex tl))
  end.

(** [hashlib.sha256(msg).hexdigest()] *)
Definition sha256_hexdigest (msg : list Z) : string := hex (sha256 msg).

(** [hmac.new(key, msg, hashlib.sha256).hexdigest()] *)
Definition hmac_sha256_hexdigest (key msg : list Z) : string :=
  let k0 := if (64 <? Z.of_nat (length key)) then sha256 key else key in
  let k := k0 ++ repeat 0 (64 - length k0) in
  let ipad := map (Z.lxor 54) k in
  let opad := map (Z.lxor 92) k in
  hex (sha256 (opad ++ sha256 (ipad ++ msg))).

End Hashlib.

Module Json.

Definition u00 (c : Z) : string :=
  String (chr 92) "u00" +:+ String (hex_digit (Z.shiftr c 4)) (String (hex_digit (Z.land c 15)) EmptyString).

Definition dquote : string := String (chr 34) EmptyString.
Definition backslash : string := String (chr 92) EmptyString.

(** The escape of one character under [ensure_ascii=True]. *)
Definition escape_char (a : ascii) : string :=
  let c := code a in
  if c =? 34 then backslash +:+ dquote
  else if c =? 92 then backslash +:+ backslash
  else if c =? 10 then backslash +:+ "n"
  else if c =? 13 then backslash +:+ "r"
  else if c =? 9 then backslash +:+ "t"
  else if c =? 8 then backslash +:+ "b"
  else if c =? 12 then backslash +:+ "f"
  else if (c <? 32) || (126 <? c) then u00 c
  else String a EmptyString.

Fixpoint escape (s : string) : string :=
  match s with
  | EmptyString => EmptyString
  | String a s' => escape_char a +:+ escape s'
  end.

Definition dumps_str (s : string) : string := dquote +:+ escape s +:+ dquote.

(** [json.dumps(l, sort_keys=True)] for a list of strings: [sort_keys]
    orders the keys of dicts and a list holds none, so the elements are
    written in the order of the list. *)
Definition dumps_str_list (l : list string) : string :=
  "[" +:+ join ", " (map dumps_str l) +:+ "]".

End Json.

(* ===================================================================== *)
(** * datetime                                                            *)
(* ===================================================================== *)

Module Datetime.

(** A naive [datetime] is the number of microseconds from
    1970-01-01T00:00:00 to its fields; a [timedelta] is a number of
    microseconds.  ([datetime] stops at the year 9999 and [timedelta] at
    999999999 days; the model has no such bound.) *)
Definition datetime : Type := Z.
Definition timedelta : Type := Z.

Definition timedelta_minutes (m : Z) : timedelta := m * 60 * 1000000.
Definition timedelta_hours (h : Z) : timedelta := h * 3600 * 1000000.

Definition day_micros : Z := 86400 * 1000000.

(** [now.strftime("%a").lower()] (C locale); 1970-01-01 was a Thursday. *)
Definition weekday_abbr (now : datetime) : string :=
  match (now / day_micros + 3) mod 7 with
  | 0 => "mon" | 1 => "tue" | 2 => "wed" | 3 => "thu"
  | 4 => "fri" | 5 => "sat" | _ => "sun"
  end.

(** [now.replace(hour=h, minute=m, second=0, microsecond=0)] *)
Definition replace_hm (now : datetime) (h m : Z) : Result datetime :=
  if negb ((0 <=? h) && (h <=? 23)) then inl (ValueError "hour must be in 0..23")
  else if negb ((0 <=? m) && (m <=? 59)) then inl (ValueError "minute must be in 0..59")
  else inr (now / day_micros * day_micros + (h * 3600 + m * 60) * 1000000).

(** What [datetime.fromisoformat] returns: a naive datetime, or an aware
    one (its UTC instant and its offset). *)
Inductive parsed :=
| Naive (t : datetime)
| Aware (t : datetime) (utcoffset : timedelta).

(** [now - ts] for a naive [now]. *)
Definition sub_naive (now : datetime) (ts : parsed) : Result timedelta :=
  match ts with
  | Naive t => inr (now - t)
  | Aware _ _ =>
      inl (TypeError "can't subtract offset-naive and offset-aware datetimes")
  end.

(** ** A parser for the text [isoformat()] writes

    [YYYY-MM-DD?HH:MM:SS], an optional [.ffffff] (or [.fff]) and an
    optional [+HH:MM] / [-HH:MM]; anything else is a [ValueError].  The
    handlers take the parser as a parameter; this one instantiates it. *)

Fixpoint take_digits (n : nat) (s : string) (acc : Z) : option (Z * string) :=
  match n with
  | O => Some (acc, s)
  | S n' =>
      match s with
      | String a s' =>
          if is_digit a then take_digits n' s' (acc * 10 + (code a - 48)) else None
      | EmptyString => None
      end
  end.

Definition expect (c : ascii) (s : string) : option string :=
  match s with
  | String a s' => if Ascii.eqb a c then Some s' else None
  | EmptyString => None
  end.

Definition skip_any (s : string) : option string :=
  match s with
  | String _ s' => Some s'
  | EmptyString => None
  end.

Definition is_leap (y : Z) : bool :=
  ((y mod 4 =? 0) && negb (y mod 100 =? 0)) || (y mod 400 =? 0).

Definition days_in_month (y m : Z) : Z :=
  if m =? 2 then (if is_leap y then 29 else 28)
  else if (m =? 4) || (m =? 6) || (m =? 9) || (m =? 11) then 30
  else 31.

(** Days from 1970-01-01 to the civil date [y-m-d]. *)
Definition days_from_civil (y m d : Z) : Z :=
  let y' := if m <=? 2 then y - 1 else y in
  let era := y' / 400 in
  let yoe := y' - era * 400 in
  let mp := if 2 <? m then m - 3 else m + 9 in
  let doy := (153 * mp + 2) / 5 + d - 1 in
  let doe := yoe * 365 + yoe / 4 - yoe / 100 + doy in
  era * 146097 + doe - 719468.

Definition parse_fraction (s : string) : option (Z * string) :=
  match expect "."%char s with
  | None => Some (0, s)
  | Some s1 =>
      match take_digits 6 s1 0 with
      | Some r => Some r
      | None =>
          match take_digits 3 s1 0 with
          | Some (ms, s2) => Some (ms * 1000, s2)
          | None => None
          end
      end
  end.

Definition parse_offset (s : string) : option (option timedelta) :=
  match s with
  | EmptyString => Some None
  | String sign s1 =>
      if Ascii.eqb sign "+"%char || Ascii.eqb sign "-"%char then
        '(h, s2) ← take_digits 2 s1 0;
        s3 ← expect ":"%char s2;
        '(m, s4) ← take_digits 2 s3 0;
        match s4 with
        | EmptyString =>
            if (h <? 24) && (m <? 60) then
              let off := (h * 3600 + m * 60) * 1000000 in
              Some (Some (if Ascii.eqb sign "-"%char then - off else off))
            else None
        | _ => None
        end
      else None
  end.

Definition iso_fields (s : string) : option parsed :=
  '(y, s) ← take_digits 4 s 0;
  s ← expect "-"%char s;
  '(mo, s) ← take_digits 2 s 0;
  s ← expect "-"%char s;
  '(d, s) ← take_digits 2 s 0;
  s ← skip_any s;
  '(h, s) ← take_digits 2 s 0;
  s ← expect ":"%char s;
  '(mi, s) ← take_digits 2 s 0;
  s ← expect ":"%char s;
  '(sec, s) ← take_digits 2 s 0;
  '(us, s) ← parse_fraction s;
  off ← parse_offset s;
  if (1 <=? y) && (1 <=? mo) && (mo <=? 12) && (1 <=? d)
     && (d <=? days_in_month y mo) && (h <? 24) && (mi <? 60) && (sec <? 60)
  then
    let t := (days_from_civil y mo d * 86400 + h * 3600 + mi * 60 + sec)
             * 1000000 + us in
    Some (match off with
          | None => Naive t
          | Some o => Aware (t - o) o
          end)
  else None.

(** [str(z)] for an integer. *)
Definition Z_str (z : Z) : string := NilZero.string_of_int (Z.to_int z).

(** A number zero-padded to [width] digits. *)
Definition padded (width : nat) (z : Z) : string :=
  let d := Z_str z in
  string_of_list_ascii (repeat "0"%char (width - String.length d)) +:+ d.

(** The civil date [(y, m, d)] of a number of days from 1970-01-01. *)
Definition civil_from_days (days : Z) : Z * Z * Z :=
  let z := days + 719468 in
  let era := z / 146097 in
  let doe := z - era * 146097 in
  let yoe := (doe - doe / 1460 + doe / 36524 - doe / 146096) / 365 in
  let doy := doe - (365 * yoe + yoe / 4 - yoe / 100) in
  let mp := (5 * doy + 2) / 153 in
  let d := doy - (153 * mp + 2) / 5 + 1 in
  let m := if mp <? 10 then mp + 3 else mp - 9 in
  ((if m <=? 2 then yoe + era * 400 + 1 else yoe + era * 400), m, d).

(** [t.isoformat()] for a naive datetime. *)
Definition isoformat (t : datetime) : string :=
  let '(y, m, d) := civil_from_days (t / day_micros) in
  let r := t mod day_micros in
  let us := r mod 1000000 in
  let secs := r / 1000000 in
  padded 4 y +:+ "-" +:+ padded 2 m +:+ "-" +:+ padded 2 d +:+ "T"
  +:+ padded 2 (secs / 3600) +:+ ":" +:+ padded 2 (secs / 60 mod 60) +:+ ":"
  +:+ padded 2 (secs mod 60)
  +:+ (if us =? 0 then EmptyString else "." +:+ padded 6 us).

Definition iso_parse (s : string) : Result parsed :=
  match iso_fields s with
  | Some p => inr p
  | None => inl (ValueError ("Invalid isoformat string: " +:+ s))
  end.

End Datetime.
Export Datetime.

(* ===================================================================== *)
(** * models.py                                                           *)
(* ===================================================================== *)

Module Models.

(** [CostEvent].  [source] is one of "budgets", "anomaly"; [amount] is a
    Python float (binary64). *)
Record CostEvent := {
  event_id : string;
  source : string;
  account_id : string;
  amount : float;
  time_window : string;
  details : Dict;
}.

(** [TimeWindow]: [start] and [end] match the pattern of two digits, a
    colon, two digits; [days] are lower-case day abbreviations. *)
Record TimeWindow := {
  tw_start : string;
  tw_end : string;
  tw_timezone : string;
  tw_days : list string;
}.

Record PolicyExceptions := {
  exc_accounts : option (list string);
  exc_principals : option (list string);
  exc_time_windows : option (list TimeWindow);
}.

Record PolicyMatch := {
  match_source : list string;
  match_account_ids : list string;
  min_amount_usd : float;
  max_amount_usd : option float;
  match_services : option (list string);
  match_regions : option (list string);
}.

Record Principal := {
  principal_type : string;
  arn : string;
}.

Record PolicyScope := {
  principals : list Principal;
  scope_regions : option (list string);
}.

(** [PolicyAction.type]: [Literal["attach_deny_policy", "notify_only"]]. *)
Inductive ActionType := AttachDenyPolicy | NotifyOnly.

Definition action_type_str (t : ActionType) : string :=
  match t with
  | AttachDenyPolicy => "attach_deny_policy"
  | NotifyOnly => "notify_only"
  end.

Record PolicyAction := {
  action_type : ActionType;
  deny : option (list string);
}.

Definition dangerous_actions : list string :=
  ["s3:DeleteBucket"; "dynamodb:DeleteTable"; "rds:DeleteDBInstance";
   "ec2:TerminateInstances"; "ec2:DeleteVolume"].

(** What the validators of [PolicyAction] accept: no dangerous action in
    [deny], and a non-empty [deny] for [attach_deny_policy]. *)
Definition PolicyAction_valid (a : PolicyAction) : bool :=
  match deny a with
  | None => true
  | Some l => forallb (fun x => negb (str_in x dangerous_actions)) l
  end
  &&
  match action_type a, deny a with
  | AttachDenyPolicy, (None | Some []) => false
  | _, _ => true
  end.

(** The [deny] argument, of type [Optional[list[str]]], from a value. *)
Fixpoint as_strs (l : list Value) : option (list string) :=
  match l with
  | [] => Some []
  | VStr s :: tl =>
      match as_strs tl with Some r => Some (s :: r) | None => None end
  | _ :: _ => None
  end.

(** [PolicyAction(type=t, deny=d)] with a string and a value of any type:
    the construction raises unless the fields have their types and the
    validators pass. *)
Definition PolicyAction_new (t : string) (d : option Value) : Result PolicyAction :=
  match (if str_eqb t "attach_deny_policy" then Some AttachDenyPolicy
         else if str_eqb t "notify_only" then Some NotifyOnly
         else None) with
  | None => inl (ValidationError "type: Input should be 'attach_deny_policy' or 'notify_only'")
  | Some ty =>
      match (match d with
             | None | Some VNone => Some None
             | Some (VList l) =>
                 match as_strs l with Some r => Some (Some r) | None => None end
             | Some _ => None
             end) with
      | None => inl (ValidationError "deny: Input should be a valid list of strings")
      | Some dn =>
          let a := {| action_type := ty; deny := dn |} in
          if PolicyAction_valid a then inr a
          else inl (ValidationError "deny: dangerous action, or deny list required")
      end
  end.

(** [mode]: [Literal["dry_run", "manual", "auto"]]. *)
Inductive Mode := DryRun | Manual | Auto.

Record GuardrailPolicy := {
  policy_id : string;
  description : option string;
  enabled : bool;
  mode : Mode;
  ttl_minutes : Z;
  match_ : PolicyMatch;
  scope : PolicyScope;
  actions : list PolicyAction;
  exceptions : option PolicyExceptions;
}.

Record ActionPlan := {
  matched : bool;
  matched_policy_id : option string;
  plan_mode : option Mode;
  plan_actions : list PolicyAction;
  plan_ttl_minutes : option Z;
  target_principals : list string;
}.

(** [not x] for an optional string: [None] and the empty string. *)
Definition str_falsy (o : option string) : bool :=
  match o with
  | None => true
  | Some s => str_eqb s EmptyString
  end.

(** [ActionPlan.model_post_init]. *)
Definition ActionPlan_valid (p : ActionPlan) : bool :=
  if matched p then
    negb (str_falsy (matched_policy_id p))
    && match plan_mode p with Some _ => true | None => false end
    && match plan_actions p with [] => false | _ => true end
  else true.

Definition ActionPlan_new (p : ActionPlan) : Result ActionPlan :=
  if ActionPlan_valid p then inr p
  else inl (ValidationError "matched plan needs matched_policy_id, mode and actions").

(** [ActionPlan(matched=False)] *)
Definition unmatched_plan : ActionPlan :=
  {| matched := false; matched_policy_id := None; plan_mode := None;
     plan_actions := []; plan_ttl_minutes := None; target_principals := [] |}.

(** [status]:
    [Literal["planned", "approved", "executed", "rolled_back", "failed"]]. *)
Inductive Status := Planned | Approved | Executed | RolledBack | Failed.

Definition status_eqb (a b : Status) : bool :=
  match a, b with
  | Planned, Planned | Approved, Approved | Executed, Executed
  | RolledBack, RolledBack | Failed, Failed => true
  | _, _ => false
  end.

Definition status_str (s : Status) : string :=
  match s with
  | Planned => "planned" | Approved => "approved" | Executed => "executed"
  | RolledBack => "rolled_back" | Failed => "failed"
  end.

Record ActionExecution := {
  execution_id : string;
  exec_policy_id : string;
  exec_event_id : string;
  status : Status;
  executed_at : option datetime;
  executed_by : string;
  action : string;
  target : string;
  diff : Dict;
  ttl_expires_at : option datetime;
  rolled_back_at : option datetime;
}.

(** Assignments to the fields of an execution. *)
Definition set_status (s : Status) (e : ActionExecution) : ActionExecution :=
  {| execution_id := execution_id e; exec_policy_id := exec_policy_id e;
     exec_event_id := exec_event_id e; status := s;
     executed_at := executed_at e; executed_by := executed_by e;
     action := action e; target := target e; diff := diff e;
     ttl_expires_at := ttl_expires_at e; rolled_back_at := rolled_back_at e |}.

Definition set_executed_at (t : option datetime) (e : ActionExecution) : ActionExecution :=
  {| execution_id := execution_id e; exec_policy_id := exec_policy_id e;
     exec_event_id := exec_event_id e; status := status e;
     executed_at := t; executed_by := executed_by e;
     action := action e; target := target e; diff := diff e;
     ttl_expires_at := ttl_expires_at e; rolled_back_at := rolled_back_at e |}.

Definition set_diff (d : Dict) (e : ActionExecution) : ActionExecution :=
  {| execution_id := execution_id e; exec_policy_id := exec_policy_id e;
     exec_event_id := exec_event_id e; status := status e;
     executed_at := executed_at e; executed_by := executed_by e;
     action := action e; target := target e; diff := d;
     ttl_expires_at := ttl_expires_at e; rolled_back_at := rolled_back_at e |}.

Definition set_ttl_expires_at (t : option datetime) (e : ActionExecution) : ActionExecution :=
  {| execution_id := execution_id e; exec_policy_id := exec_policy_id e;
     exec_event_id := exec_event_id e; status := status e;
     executed_at := executed_at e; executed_by := executed_by e;
     action := action e; target := target e; diff := diff e;
     ttl_expires_at := t; rolled_back_at := rolled_back_at e |}.

Definition set_rolled_back_at (t : option datetime) (e : ActionExecution) : ActionExecution :=
  {| execution_id := execution_id e; exec_policy_id := exec_policy_id e;
     exec_event_id := exec_event_id e; status := status e;
     executed_at := executed_at e; executed_by := executed_by e;
     action := action e; target := target e; diff := diff e;
     ttl_expires_at := ttl_expires_at e; rolled_back_at := t |}.

Definition set_execution_id (i : string) (e : ActionExecution) : ActionExecution :=
  {| execution_id := i; exec_policy_id := exec_policy_id e;
     exec_event_id := exec_event_id e; status := status e;
     executed_at := executed_at e; executed_by := executed_by e;
     action := action e; target := target e; diff := diff e;
     ttl_expires_at := ttl_expires_at e; rolled_back_at := rolled_back_at e |}.

End Models.
Export Models.

(* ===================================================================== *)
(** * The world the handlers run in                                       *)
(* ===================================================================== *)

(** The boto3 IAM and STS clients and the Slack notifier, over a state [X]
    of those services.  Each operation returns its result or raises, and
    may change [X].  The arguments are the keyword arguments of the call;
    the result is the part of the response the program reads. *)
Class Boto (X : Type) := {
(** [sts.get_caller_identity()["Account"]] *)
get_caller_identity : X -> Result string * X;
(** [get_policy(PolicyArn)] *)
get_policy : string -> X -> Result unit * X;
(** [create_policy(PolicyName, PolicyDocument, Description)["Policy"]["Arn"]] *)
create_policy : string -> string -> string -> X -> Result string * X;
(** [list_attached_role_policies(RoleName)]: the [PolicyArn]s *)
list_attached_role_policies : string -> X -> Result (list string) * X;
list_attached_user_policies : string -> X -> Result (list string) * X;
(** [attach_role_policy(RoleName, PolicyArn)] *)
attach_role_policy : string -> string -> X -> Result unit * X;
attach_user_policy : string -> string -> X -> Result unit * X;
detach_role_policy : string -> string -> X -> Result unit * X;
detach_user_policy : string -> string -> X -> Result unit * X;
(** [list_entities_for_policy(PolicyArn)]: the lengths of
    [PolicyRoles], [PolicyUsers] and [PolicyGroups] *)
list_entities_for_policy : string -> X -> Result (nat * nat * nat) * X;
delete_policy : string -> X -> Result unit * X;
(** [SlackNotifier] *)
send_execution_confirmation : ActionExecution -> X -> Result bool * X;
send_rollback_confirmation : ActionExecution -> X -> Result bool * X;
send_error_alert : CostEvent -> string -> X -> Result bool * X;
}.

Module Runtime.
Section Runtime.

Context {X : Type}.

(** The state a handler can read or change: the external services, the
    DynamoDB audit table (keyed by [execution_id]; an item and the
    [ActionExecution] it is converted from and to carry the same data, so
    the table holds executions), the faults the table will answer with
    (its [n]-th call raises [w_table_fault n] when that is an exception),
    the clock ([datetime.utcnow()] returns the next reading) and the
    source of [uuid4()]. *)
Record World := {
  w_ext : X;
  w_table : gmap string ActionExecution;
  w_table_fault : nat -> option Exn;
  w_table_calls : nat;
  w_clock : nat -> datetime;
  w_clock_reads : nat;
  w_uuid : nat -> string;
  w_uuid_calls : nat;
}.

Definition set_ext (x : X) (w : World) : World :=
  {| w_ext := x; w_table := w_table w; w_table_fault := w_table_fault w;
     w_table_calls := w_table_calls w; w_clock := w_clock w;
     w_clock_reads := w_clock_reads w; w_uuid := w_uuid w;
     w_uuid_calls := w_uuid_calls w |}.

Definition set_table (t : gmap string ActionExecution) (w : World) : World :=
  {| w_ext := w_ext w; w_table := t; w_table_fault := w_table_fault w;
     w_table_calls := w_table_calls w; w_clock := w_clock w;
     w_clock_reads := w_clock_reads w; w_uuid := w_uuid w;
     w_uuid_calls := w_uuid_calls w |}.

Definition set_table_calls (n : nat) (w : World) : World :=
  {| w_ext := w_ext w; w_table := w_table w; w_table_fault := w_table_fault w;
     w_table_calls := n; w_clock := w_clock w;
     w_clock_reads := w_clock_reads w; w_uuid := w_uuid w;
     w_uuid_calls := w_uuid_calls w |}.

Definition set_clock_reads (n : nat) (w : World) : World :=
  {| w_ext := w_ext w; w_table := w_table w; w_table_fault := w_table_fault w;
     w_table_calls := w_table_calls w; w_clock := w_clock w;
     w_clock_reads := n; w_uuid := w_uuid w;
     w_uuid_calls := w_uuid_calls w |}.

Definition set_uuid_calls (n : nat) (w : World) : World :=
  {| w_ext := w_ext w; w_table := w_table w; w_table_fault := w_table_fault w;
     w_table_calls := w_table_calls w; w_clock := w_clock w;
     w_clock_reads := w_clock_reads w; w_uuid := w_uuid w;
     w_uuid_calls := n |}.

(** Computations: a result or an exception, and the world after. *)
Definition M (A : Type) : Type := World -> Result A * World.

Definition ret {A} (a : A) : M A := fun w => (inr a, w).
Definition raise {A} (e : Exn) : M A := fun w => (inl e, w).
Definition bind {A B} (m : M A) (k : A -> M B) : M B :=
  fun w => match m w with
           | (inr a, w') => k a w'
           | (inl e, w') => (inl e, w')
           end.

(** [try: m  except <classes>: h]: the handler runs in the world the
    exception was raised in. *)
Definition try_except {A} (m : M A) (catches : Exn -> bool) (h : Exn -> M A) : M A :=
  fun w => match m w with
           | (inr a, w') => (inr a, w')
           | (inl e, w') => if catches e then h e w' else (inl e, w')
           end.

(** [except Exception] *)
Definition any_exception (e : Exn) : bool := true.

Definition lift {A} (r : Result A) : M A := fun w => (r, w).

(** A call to one of the external services. *)
Definition call {A} (op : X -> Result A * X) : M A :=
  fun w => let '(r, x) := op (w_ext w) in (r, set_ext x w).

(** [datetime.utcnow()] *)
Definition utcnow : M datetime :=
  fun w => (inr (w_clock w (w_clock_reads w)),
            set_clock_reads (S (w_clock_reads w)) w).

(** [str(uuid4())] *)
Definition uuid4 : M string :=
  fun w => (inr (w_uuid w (w_uuid_calls w)),
            set_uuid_calls (S (w_uuid_calls w)) w).

(** A call to the DynamoDB table. *)
Definition table_call {A}
    (op : gmap string ActionExecution -> A * gmap string ActionExecution) : M A :=
  fun w =>
    let w1 := set_table_calls (S (w_table_calls w)) w in
    match w_table_fault w (w_table_calls w) with
    | Some e => (inl e, w1)
    | None => let '(a, t) := op (w_table w) in (inr a, set_table t w1)
    end.

(** [for x in l: f x], collecting the results. *)
Fixpoint mapM {A B} (f : A -> M B) (l : list A) : M (list B) :=
  match l with
  | [] => ret []
  | x :: tl =>
      bind (f x) (fun y => bind (mapM f tl) (fun ys => ret (y :: ys)))
  end.

End Runtime.
End Runtime.
Export Runtime.

Arguments World : clear implicits.
Arguments M : clear implicits.

Notation "x <- m ;; k" := (bind m (fun x => k))
  (at level 100, m at next level, right associativity).
Notation "m ;;; k" := (bind m (fun _ => k))
  (at level 100, right associativity).

(* ===================================================================== *)
(** * policy_engine.py                                                    *)
(* ===================================================================== *)

Module PolicyEngine.
Section PolicyEngine.

Context {X : Type}.
#[local] Abbreviation M := (M X).

(** [h, m = map(int, s.split(":"))]: a [ValueError] from [int] or from
    the unpacking unless there are two parts and both are integers. *)
Definition parse_hh_mm (s : string) : Result (Z * Z) :=
  match split ":"%char s with
  | [h; m] =>
      match int h with
      | inl e => inl e
      | inr hh =>
          match int m with
          | inl e => inl e
          | inr mm => inr (hh, mm)
          end
      end
  | _ => inl (ValueError "wrong number of values to unpack")
  end.

(** The loop of [_in_exempted_time_window], for the reading [now] of the
    clock. *)
Fixpoint in_windows (now : datetime) (time_windows : list TimeWindow) : Result bool :=
  match time_windows with
  | [] => inr false
  | window :: rest =>
      let current_day := weekday_abbr now in
      if negb (str_in current_day (tw_days window)) then in_windows now rest
      else
        match parse_hh_mm (tw_start window) with
        | inl e => inl e
        | inr (start_hour, start_min) =>
            match parse_hh_mm (tw_end window) with
            | inl e => inl e
            | inr (end_hour, end_min) =>
                match replace_hm now start_hour start_min with
                | inl e => inl e
                | inr start_time =>
                    match replace_hm now end_hour end_min with
                    | inl e => inl e
                    | inr end_time =>
                        if (start_time <=? now) && (now <=? end_time) then inr true
                        else in_windows now rest
                    end
                end
            end
        end
  end.

Definition _in_exempted_time_window (time_windows : list TimeWindow) : M bool :=
  now <- utcnow ;;
  lift (in_windows now time_windows).

(** [principal_arn] is the value found in [event.details]:
    [startswith] is an attribute of strings only. *)
Fixpoint _principal_matches_allowlist (principal_arn : Value) (allowlist : list string)
  : Result bool :=
  match allowlist with
  | [] => inr false
  | pattern :: rest =>
      if endswith_char "*"%char pattern then
        let prefix := drop_last pattern in
        match principal_arn with
        | VStr s =>
            if startswith prefix s then inr true
            else _principal_matches_allowlist principal_arn rest
        | _ => inl (AttributeError "object has no attribute 'startswith'")
        end
      else
        match principal_arn with
        | VStr s =>
            if str_eqb s pattern then inr true
            else _principal_matches_allowlist principal_arn rest
        | _ => _principal_matches_allowlist principal_arn rest
        end
  end.

(** A list that is not [None] and not empty. *)
Definition nonempty {A} (o : option (list A)) : option (list A) :=
  match o with
  | Some (x :: l) => Some (x :: l)
  | _ => None
  end.

Definition _is_exempted (event : CostEvent) (exceptions : PolicyExceptions) : M bool :=
  if match nonempty (exc_accounts exceptions) with
     | Some l => str_in (account_id event) l
     | None => false
     end
  then ret true
  else
    principal_hit <-
      match nonempty (exc_principals exceptions) with
      | Some l =>
          match dict_get "principal_arn" (details event) with
          | Some event_principal =>
              if truthy event_principal
              then lift (_principal_matches_allowlist event_principal l)
              else ret false
          | None => ret false
          end
      | None => ret false
      end ;;
    if principal_hit then ret true
    else
      match nonempty (exc_time_windows exceptions) with
      | Some l =>
          hit <- _in_exempted_time_window l ;;
          if hit then ret true else ret false
      | None => ret false
      end.

(** Steps 1 to 6 of [match_event]: source, account, minimum and maximum
    amount, service, region. *)
Definition conditions_hold (event : CostEvent) (policy : GuardrailPolicy) : bool :=
  let m := match_ policy in
  if negb (str_in (source event) (match_source m)) then false
  else if negb (str_in (account_id event) (match_account_ids m)) then false
  else if PrimFloat.ltb (amount event) (min_amount_usd m) then false
  else if match max_amount_usd m with
          | Some mx => PrimFloat.ltb mx (amount event)
          | None => false
          end then false
  else if match match_services m with
          | Some l => negb (value_in_strs (dict_get "service" (details event)) l)
          | None => false
          end then false
  else if match match_regions m with
          | Some l => negb (value_in_strs (dict_get "region" (details event)) l)
          | None => false
          end then false
  else true.

Definition match_event (event : CostEvent) (policy : GuardrailPolicy) : M bool :=
  if negb (conditions_hold event policy) then ret false
  else
    match exceptions policy with
    | Some exc =>
        exempted <- _is_exempted event exc ;;
        if exempted then ret false else ret true
    | None => ret true
    end.

Definition _build_action_plan (event : CostEvent) (policy : GuardrailPolicy)
  : Result ActionPlan :=
  let target_principals := map arn (principals (scope policy)) in
  ActionPlan_new
    {| matched := true;
       matched_policy_id := Some (policy_id policy);
       plan_mode := Some (mode policy);
       plan_actions := actions policy;
       plan_ttl_minutes := Some (ttl_minutes policy);
       target_principals := target_principals |}.

Fixpoint evaluate (event : CostEvent) (policies : list GuardrailPolicy) : M ActionPlan :=
  match policies with
  | [] => ret unmatched_plan
  | policy :: rest =>
      if negb (enabled policy) then evaluate event rest
      else
        hit <- match_event event policy ;;
        if hit then lift (_build_action_plan event policy)
        else evaluate event rest
  end.

End PolicyEngine.
End PolicyEngine.

(* ===================================================================== *)
(** * executor_iam.py                                                     *)
(* ===================================================================== *)

Module IAMExecutor.

(** [IAMExecutor]: [self.dry_run] ([self.iam_client] is in [Boto]). *)
Record IAMExecutor := { dry_run : bool }.

Section IAMExecutor.

Context {X : Type} `{Boto X}.
#[local] Abbreviation M := (M X).

Variable self : IAMExecutor.

Definition _parse_principal_arn (arn : string) : Result (string * string) :=
  let parts := split ":"%char arn in
  if negb (length parts =? 6)%nat || negb (str_eqb (nth 2 parts EmptyString) "iam")
  then inl (ValueError ("Invalid IAM ARN: " +:+ arn))
  else
    let resource_part := nth 5 parts EmptyString in
    match split_once "/"%char resource_part with
    | None => inl (ValueError ("Invalid IAM resource: " +:+ resource_part))
    | Some (principal_type, principal_name) =>
        if negb (str_in principal_type ["role"; "user"])
        then inl (ValueError ("Unsupported principal type: " +:+ principal_type))
        else inr (principal_type, principal_name)
    end.

Definition _list_attached_policies (principal_type principal_name : string)
  : M (list string) :=
  if str_eqb principal_type "role" then call (list_attached_role_policies principal_name)
  else if str_eqb principal_type "user" then call (list_attached_user_policies principal_name)
  else raise (ValueError ("Unsupported principal type: " +:+ principal_type)).

Definition _get_account_id : M string := call get_caller_identity.

(** [json.dumps(policy_document)] *)
Definition policy_document_json (deny_actions : list string) : string :=
  "{" +:+ Json.dumps_str "Version" +:+ ": " +:+ Json.dumps_str "2012-10-17" +:+ ", "
  +:+ Json.dumps_str "Statement" +:+ ": [{"
  +:+ Json.dumps_str "Sid" +:+ ": " +:+ Json.dumps_str "GuardrailsDenyPolicy" +:+ ", "
  +:+ Json.dumps_str "Effect" +:+ ": " +:+ Json.dumps_str "Deny" +:+ ", "
  +:+ Json.dumps_str "Action" +:+ ": " +:+ Json.dumps_str_list deny_actions +:+ ", "
  +:+ Json.dumps_str "Resource" +:+ ": " +:+ Json.dumps_str "*" +:+ "}]}".

(** [hexdigest()[:8]] *)
Definition first8 (s : string) : string := String.substring 0 8 s.

(** The name of the deny policy: the key it is created or found under. *)
Definition policy_name_of (deny_actions : list string) (policy_id : string) : string :=
  let policy_hash :=
    first8 (Hashlib.sha256_hexdigest (encode (Json.dumps_str_list deny_actions))) in
  "guardrails-deny-" +:+ policy_id +:+ "-" +:+ policy_hash.

Definition is_NoSuchEntity (e : Exn) : bool :=
  match e with
  | ClientError c _ => str_eqb c "NoSuchEntity"
  | _ => false
  end.

Definition _attach_deny_policy (principal_arn : string) (deny_actions : list string)
    (policy_id : string) : M Dict :=
  parsed_arn <- lift (_parse_principal_arn principal_arn) ;;
  let '(principal_type, principal_name) := parsed_arn in
  let policy_name := policy_name_of deny_actions policy_id in
  (* Check if policy already exists (idempotency) *)
  existing_policy_arn <-
    try_except
      (account_id <- _get_account_id ;;
       let candidate_arn := "arn:aws:iam::" +:+ account_id +:+ ":policy/" +:+ policy_name in
       call (get_policy candidate_arn) ;;;
       ret (Some candidate_arn))
      is_ClientError
      (fun e => if negb (is_NoSuchEntity e) then raise e else ret None) ;;
  (* Create policy if it doesn't exist *)
  policy_arn <-
    match existing_policy_arn with
    | Some a => ret a
    | None =>
        call (create_policy policy_name (policy_document_json deny_actions)
                ("AutoGuardRails deny policy for " +:+ policy_id))
    end ;;
  before_policies <- _list_attached_policies principal_type principal_name ;;
  (if str_eqb principal_type "role" then call (attach_role_policy principal_name policy_arn)
   else if str_eqb principal_type "user" then call (attach_user_policy principal_name policy_arn)
   else raise (ValueError ("Unsupported principal type: " +:+ principal_type))) ;;;
  after_policies <- _list_attached_policies principal_type principal_name ;;
  ret [("policy_arn", VStr policy_arn);
       ("policy_name", VStr policy_name);
       ("principal_arn", VStr principal_arn);
       ("principal_type", VStr principal_type);
       ("principal_name", VStr principal_name);
       ("before", str_list before_policies);
       ("after", str_list after_policies);
       ("denied_actions", str_list deny_actions)].

(** [not action.deny] *)
Definition deny_falsy (d : option (list string)) : bool :=
  match d with
  | None | Some [] => true
  | Some _ => false
  end.

Definition _execute_single_action (action : PolicyAction) (principal_arn policy_id
    event_id executed_by : string) (ttl_minutes : option Z) : M ActionExecution :=
  u <- uuid4 ;;
  let execution_id := "exec-" +:+ u in
  let execution :=
    {| execution_id := execution_id; exec_policy_id := policy_id;
       exec_event_id := event_id; status := Planned; executed_at := None;
       executed_by := executed_by; action := action_type_str (action_type action);
       target := principal_arn; diff := [];
       ttl_expires_at := None; rolled_back_at := None |} in
  match action_type action with
  | NotifyOnly =>
      now <- utcnow ;;
      ret (set_diff [("action", VStr "notify_only"); ("no_changes", VBool true)]
             (set_executed_at (Some now) (set_status Executed execution)))
  | AttachDenyPolicy =>
      if deny_falsy (deny action)
      then raise (ValueError "attach_deny_policy requires deny list")
      else
        let deny_actions := default [] (deny action) in
        try_except
          (if dry_run self then
             now <- utcnow ;;
             ret (set_diff [("dry_run", VBool true);
                            ("would_deny", str_list deny_actions);
                            ("target", VStr principal_arn)]
                    (set_executed_at (Some now) (set_status Executed execution)))
           else
             result <- _attach_deny_policy principal_arn deny_actions policy_id ;;
             now <- utcnow ;;
             let execution :=
               set_diff result (set_executed_at (Some now) (set_status Executed execution)) in
             (* Set TTL expiration if configured *)
             match ttl_minutes with
             | Some t =>
                 if negb (t =? 0) && (0 <? t) then
                   now2 <- utcnow ;;
                   ret (set_ttl_expires_at (Some (now2 + timedelta_minutes t)) execution)
                 else ret execution
             | None => ret execution
             end)
          any_exception
          (fun e =>
             ret (set_diff [("error", VStr (exn_str e))] (set_status Failed execution)))
  end.

Definition execute_action_plan (plan : ActionPlan) (event_id executed_by : string)
  : M (list ActionExecution) :=
  if negb (matched plan) then raise (ValueError "Cannot execute unmatched plan")
  else if str_falsy (matched_policy_id plan)
          || match plan_actions plan with [] => true | _ => false end
  then raise (ValueError "Plan must have policy_id and actions")
  else
    per_action <-
      mapM (fun action =>
              mapM (fun principal_arn =>
                      _execute_single_action action principal_arn
                        (default EmptyString (matched_policy_id plan))
                        event_id executed_by (plan_ttl_minutes plan))
                   (target_principals plan))
           (plan_actions plan) ;;
    ret (concat per_action).

(** [x in v] for the string [x] and a value [v]: substring of a string,
    element of a list, key of a dict. *)
Definition str_in_value (x : string) (v : Value) : Result bool :=
  match v with
  | VStr s => inr (contains x s)
  | VList l => inr (existsb (fun y => match y with VStr s => str_eqb x s | _ => false end) l)
  | VDict d => inr (existsb (fun kv => str_eqb x (fst kv)) d)
  | _ => inl (TypeError "argument is not iterable")
  end.

(** A keyword argument of a boto3 call that must be a string. *)
Definition str_param (v : Value) : M string :=
  match v with
  | VStr s => ret s
  | _ => raise (OtherError "Parameter validation failed: invalid type, valid types: str")
  end.

Definition value_is_str (v : Value) (s : string) : bool :=
  match v with
  | VStr x => str_eqb x s
  | _ => false
  end.

Definition _rollback_attach_deny_policy (execution : ActionExecution) : M unit :=
  let diff := diff execution in
  if opt_truthy (dict_get "dry_run" diff) then ret tt
  else
    let policy_arn := dict_get "policy_arn" diff in
    let principal_type := dict_get "principal_type" diff in
    let principal_name := dict_get "principal_name" diff in
    match policy_arn, principal_type, principal_name with
    | Some policy_arn, Some principal_type, Some principal_name =>
        if negb (truthy policy_arn && truthy principal_type && truthy principal_name)
        then raise (ValueError "Execution diff missing required fields for rollback")
        else
          (* Detach policy *)
          (if value_is_str principal_type "role" then
             n <- str_param principal_name ;;
             a <- str_param policy_arn ;;
             call (detach_role_policy n a)
           else if value_is_str principal_type "user" then
             n <- str_param principal_name ;;
             a <- str_param policy_arn ;;
             call (detach_user_policy n a)
           else ret tt) ;;;
          (* Delete policy if it's a guardrails policy (and not attached elsewhere) *)
          is_guardrails <- lift (str_in_value "guardrails-deny-" policy_arn) ;;
          if is_guardrails then
            try_except
              (a <- str_param policy_arn ;;
               response <- call (list_entities_for_policy a) ;;
               let '(roles, users, groups) := response in
               let attached_count := (roles + users + groups)%nat in
               if (attached_count =? 0)%nat then call (delete_policy a) else ret tt)
              is_ClientError
              (fun _ => ret tt)
          else ret tt
    | _, _, _ => raise (ValueError "Execution diff missing required fields for rollback")
    end.

(** The result and the execution object after the call (it is changed in
    place). *)
Definition rollback_execution (execution : ActionExecution) : M (bool * ActionExecution) :=
  if negb (status_eqb (status execution) Executed) then ret (false, execution)
  else if dry_run self then ret (true, execution)
  else
    try_except
      (if str_eqb (action execution) "attach_deny_policy" then
         _rollback_attach_deny_policy execution ;;;
         now <- utcnow ;;
         ret (true, set_rolled_back_at (Some now) (set_status RolledBack execution))
       else if str_eqb (action execution) "notify_only" then
         now <- utcnow ;;
         ret (true, set_rolled_back_at (Some now) (set_status RolledBack execution))
       else ret (false, execution))
      any_exception
      (fun _ => ret (false, execution)).

End IAMExecutor.
End IAMExecutor.
Export IAMExecutor.

(* ===================================================================== *)
(** * audit_store.py                                                      *)
(* ===================================================================== *)

Module AuditStore.
Section AuditStore.

Context {X : Type}.
#[local] Abbreviation M := (M X).

(** [table.put_item(Item=item)] *)
Definition put_item (execution : ActionExecution) : M unit :=
  table_call (fun t => (tt, <[execution_id execution := execution]> t)).

Definition save_execution (execution : ActionExecution) : M bool :=
  try_except (put_item execution ;;; ret true) is_ClientError (fun _ => ret false).

Definition get_execution (execution_id : string) : M (option ActionExecution) :=
  try_except
    (table_call (fun t => (t !! execution_id, t)))
    is_ClientError
    (fun _ => ret None).

Definition update_execution (execution : ActionExecution) : M bool :=
  try_except (put_item execution ;;; ret true) is_ClientError (fun _ => ret false).

(** The filter expression of the scan:
    [attribute_exists(ttl_expires_at) AND ttl_expires_at <= :current_time
     AND #status = :status] with [:status = "executed"].  The table
    compares the ISO texts of the two datetimes, which order as the
    datetimes do. *)
Definition expired_filter (current_time : datetime) (e : ActionExecution) : bool :=
  match ttl_expires_at e with
  | Some t => (t <=? current_time) && status_eqb (status e) Executed
  | None => false
  end.

(** [table.scan(FilterExpression=...)["Items"]], each converted back. *)
Definition scan_expired (current_time : datetime) (t : gmap string ActionExecution)
  : list ActionExecution :=
  List.filter (expired_filter current_time) (map snd (map_to_list t)).

Definition query_expired_executions (current_time : datetime) : M (list ActionExecution) :=
  try_except
    (table_call (fun t => (scan_expired current_time t, t)))
    is_ClientError
    (fun _ => ret []).

End AuditStore.
End AuditStore.
Export AuditStore.

(* ===================================================================== *)
(** * handlers/approval_webhook.py                                        *)
(* ===================================================================== *)

Module ApprovalWebhook.

Record ApprovalWebhookHandler := {
  executor : IAMExecutor;
  approval_secret : string;
  approval_timeout_hours : Z;
}.

Record Response := { statusCode : Z; body : string }.

Section ApprovalWebhook.

Context {X : Type} `{Boto X}.
#[local] Abbreviation M := (M X).

(** [datetime.fromisoformat] *)
Variable fromisoformat : string -> Result parsed.

Variable self : ApprovalWebhookHandler.

Definition _generate_signature (execution_id timestamp : string) : string :=
  let message := execution_id +:+ ":" +:+ timestamp in
  Hashlib.hmac_sha256_hexdigest (encode (approval_secret self)) (encode message).

Fixpoint is_ascii (s : string) : bool :=
  match s with
  | EmptyString => true
  | String a s' => (code a <? 128) && is_ascii s'
  end.

(** [hmac.compare_digest] of two strings: both must be ASCII. *)
Definition compare_digest (a b : string) : Result bool :=
  if is_ascii a && is_ascii b then inr (str_eqb a b)
  else inl (TypeError "comparing strings with non-ASCII characters is not supported").

Definition _verify_signature (execution_id timestamp signature : string) : Result bool :=
  let expected_signature := _generate_signature execution_id timestamp in
  compare_digest expected_signature signature.

Definition _is_expired (timestamp : string) : M bool :=
  try_except
    (ts <- lift (fromisoformat (replace_Z timestamp)) ;;
     now <- utcnow ;;
     age <- lift (sub_naive now ts) ;;
     ret (timedelta_hours (approval_timeout_hours self) <? age))
    is_ValueError_or_AttributeError
    (fun _ => ret true).

(** [v.get(k, default)] for a value that should be a dict. *)
Definition value_get (v : Value) (k : string) (dflt : Value) : Result Value :=
  match v with
  | VDict d => inr (default dflt (dict_get k d))
  | _ => inl (AttributeError "object has no attribute 'get'")
  end.

(** [v[0]] *)
Definition value_first (v : Value) : Result Value :=
  match v with
  | VList (x :: _) => inr x
  | VList [] => inl (OtherError "list index out of range")
  | VStr (String a _) => inr (VStr (String a EmptyString))
  | VStr EmptyString => inl (OtherError "string index out of range")
  | VDict _ => inl (KeyError "0")
  | _ => inl (TypeError "object is not subscriptable")
  end.

(** The deny actions recorded in the diff of a planned execution:
    [would_deny], or else the first statement of [policy_document]. *)
Definition deny_actions_of (diff : Dict) : Result Value :=
  let deny_actions := default VNone (dict_get "would_deny" diff) in
  if negb (truthy deny_actions) then
    let policy_doc := default (VDict []) (dict_get "policy_document" diff) in
    match value_get policy_doc "Statement" (VList []) with
    | inl e => inl e
    | inr statements =>
        if truthy statements then
          match value_first statements with
          | inl e => inl e
          | inr st => value_get st "Action" (VList [])
          end
        else inr deny_actions
    end
  else inr deny_actions.

Definition ok_body (execution_id : string) (st : Status) : string :=
  "{" +:+ Json.dumps_str "message" +:+ ": "
  +:+ Json.dumps_str "Guardrail applied successfully" +:+ ", "
  +:+ Json.dumps_str "execution_id" +:+ ": " +:+ Json.dumps_str execution_id +:+ ", "
  +:+ Json.dumps_str "status" +:+ ": " +:+ Json.dumps_str (status_str st) +:+ "}".

Definition handle_approval (execution_id signature timestamp user : string) : M Response :=
  (* 1. Verify signature *)
  valid <- lift (_verify_signature execution_id timestamp signature) ;;
  if negb valid then ret {| statusCode := 403; body := "Invalid signature" |}
  else
  (* 2. Check expiration *)
  expired <- _is_expired timestamp ;;
  if expired then ret {| statusCode := 410; body := "Approval link expired" |}
  else
  (* 3. Load execution *)
  found <- get_execution execution_id ;;
  match found with
  | None => ret {| statusCode := 404; body := "Execution not found" |}
  | Some execution =>
  (* 4. Check status (idempotency) *)
  if negb (status_eqb (status execution) Planned) then
    ret {| statusCode := 409;
           body := "Already processed (status: " +:+ status_str (status execution) +:+ ")" |}
  else
  (* 5. Execute action *)
  try_except
    (deny_actions <- lift (deny_actions_of (diff execution)) ;;
     if negb (truthy deny_actions) && str_eqb (action execution) "attach_deny_policy"
     then ret {| statusCode := 500; body := "No deny actions found in execution record" |}
     else
       policy_action <- lift (PolicyAction_new (action execution) (Some deny_actions)) ;;
       action_plan <- lift (ActionPlan_new
         {| matched := true;
            matched_policy_id := Some (exec_policy_id execution);
            plan_mode := Some Manual;
            plan_actions := [policy_action];
            plan_ttl_minutes := Some 0;
            target_principals := [target execution] |}) ;;
       executions <- execute_action_plan (executor self) action_plan
                       (exec_event_id execution) ("user:" +:+ user) ;;
       match executions with
       | [] => ret {| statusCode := 500; body := "Execution failed" |}
       | new_execution :: _ =>
           let new_execution := set_execution_id execution_id new_execution in
           update_execution new_execution ;;;
           (* 6. Notify Slack *)
           try_except
             (call (send_execution_confirmation new_execution) ;;; ret tt)
             any_exception
             (fun _ => ret tt) ;;;
           ret {| statusCode := 200;
                  body := ok_body execution_id (status new_execution) |}
       end)
    any_exception
    (fun e =>
       let execution :=
         set_diff [("error", VStr (exn_str e))] (set_status Failed execution) in
       update_execution execution ;;;
       ret {| statusCode := 500; body := "Execution failed: " +:+ exn_str e |})
  end.

End ApprovalWebhook.
End ApprovalWebhook.

(* ===================================================================== *)
(** * handlers/ttl_cleanup.py                                             *)
(* ===================================================================== *)

Module TTLCleanup.

Record TTLCleanupHandler := {
  executor : IAMExecutor;
  batch_size : Z;
}.

(** An entry of [errors]. *)
Record ErrorDetail := {
  err_execution_id : option string;
  err_error : string;
  err_type : string;
}.

(** The dict [cleanup_expired_executions] returns. *)
Record CleanupResult := {
  total_found : Z;
  rolled_back : Z;
  failed : Z;
  skipped : Z;
  errors : list ErrorDetail;
}.

(** [l[:n]] *)
Definition slice_to {A} (n : Z) (l : list A) : list A :=
  if 0 <=? n then firstn (Z.to_nat n) l
  else firstn (length l - Z.to_nat (- n)) l.

Section TTLCleanup.

Context {X : Type} `{Boto X}.
#[local] Abbreviation M := (M X).

Variable self : TTLCleanupHandler.

(** The execution object is changed in place: the handler of an exception
    updates the object as it is when the exception is raised. *)
Definition _rollback_execution (execution : ActionExecution) : M string :=
  (* Idempotency: Only rollback if status is 'executed' *)
  if negb (status_eqb (status execution) Executed) then ret "skipped"
  else
    let on_error (execution : ActionExecution) (e : Exn) : M string :=
      try_except
        (let execution := set_status Failed execution in
         let execution :=
           set_diff (dict_set "rollback_error" (VStr (exn_str e)) (diff execution))
                    execution in
         update_execution execution ;;; ret tt)
        any_exception
        (fun _ => ret tt) ;;;
      ret "failed" in
    r <- try_except
           (r <- rollback_execution (executor self) execution ;; ret (inr r))
           any_exception
           (fun e => ret (inl e)) ;;
    match r with
    | inl e => on_error execution e
    | inr (success, execution) =>
        if success then
          now <- utcnow ;;
          let execution :=
            set_rolled_back_at (Some now) (set_status RolledBack execution) in
          try_except
            (update_execution execution ;;;
             try_except
               (call (send_rollback_confirmation execution) ;;; ret tt)
               any_exception
               (fun _ => ret tt) ;;;
             ret "rolled_back")
            any_exception
            (on_error execution)
        else
          let execution := set_status Failed execution in
          let execution :=
            set_diff (dict_set "rollback_error" (VStr "Rollback returned False")
                        (diff execution)) execution in
          try_except
            (update_execution execution ;;; ret "failed")
            any_exception
            (on_error execution)
    end.

Definition error_line (err : ErrorDetail) : string :=
  String.concat EmptyString
    ["• "; default "unknown" (err_execution_id err); ": "; err_error err].

Definition newline : string := String (chr 10) EmptyString.

Definition _send_failure_alert (failed_count : Z) (errors : list ErrorDetail) : M unit :=
  try_except
    (let error_summary := join newline (map error_line (firstn 5 errors)) in
     let error_summary :=
       if (5 <? length errors)%nat
       then error_summary +:+ newline +:+ "... and "
            +:+ Z_str (Z.of_nat (length errors) - 5) +:+ " more"
       else error_summary in
     let message :=
       "⚠️ TTL Cleanup Failures" +:+ newline +:+ newline
       +:+ "Failed to rollback " +:+ Z_str failed_count +:+ " executions:"
       +:+ newline +:+ newline +:+ error_summary +:+ newline +:+ newline
       +:+ "Check CloudWatch logs for details." in
     t1 <- utcnow ;;
     t2 <- utcnow ;;
     let synthetic_event :=
       {| event_id := "ttl-cleanup-" +:+ Z_str (t1 / 1000000);
          source := "budgets";
          account_id := "000000000000";
          amount := 0.01%float;
          time_window := isoformat t2;
          details := [("type", VStr "ttl_cleanup_error");
                      ("failed_rollbacks", VInt failed_count)] |} in
     call (send_error_alert synthetic_event message) ;;; ret tt)
    any_exception
    (fun _ => ret tt).

(** The counters of the loop: rolled_back, failed, skipped, errors. *)
Definition Counters : Type := (Z * Z * Z * list ErrorDetail)%type.

Fixpoint process (expired_executions : list ActionExecution) (c : Counters) : M Counters :=
  match expired_executions with
  | [] => ret c
  | execution :: rest =>
      let '(rolled_back, failed, skipped, errors) := c in
      c' <- try_except
              (result <- _rollback_execution execution ;;
               if str_eqb result "rolled_back" then ret (rolled_back + 1, failed, skipped, errors)
               else if str_eqb result "skipped" then ret (rolled_back, failed, skipped + 1, errors)
               else if str_eqb result "failed" then ret (rolled_back, failed + 1, skipped, errors)
               else ret c)
              any_exception
              (fun e =>
                 ret (rolled_back, failed + 1, skipped,
                      errors ++ [{| err_execution_id := Some (execution_id execution);
                                    err_error := exn_str e;
                                    err_type := "unexpected_error" |}])) ;;
      process rest c'
  end.

Definition cleanup_expired_executions : M CleanupResult :=
  try_except
    ((* Query expired executions *)
     now <- utcnow ;;
     expired_executions <- query_expired_executions now ;;
     match expired_executions with
     | [] =>
         ret {| total_found := 0; rolled_back := 0; failed := 0; skipped := 0;
                errors := [] |}
     | _ =>
         (* Limit batch size *)
         let expired_executions :=
           if batch_size self <? Z.of_nat (length expired_executions)
           then slice_to (batch_size self) expired_executions
           else expired_executions in
         (* Process each execution *)
         c <- process expired_executions (0, 0, 0, []) ;;
         let '(rolled_back, failed, skipped, errors) := c in
         (* Send alert if failures *)
         (if 0 <? failed then _send_failure_alert failed errors else ret tt) ;;;
         ret {| total_found := Z.of_nat (length expired_executions);
                rolled_back := rolled_back; failed := failed; skipped := skipped;
                errors := errors |}
     end)
    any_exception
    (fun e =>
       ret {| total_found := 0; rolled_back := 0; failed := 0; skipped := 0;
              errors := [{| err_execution_id := None; err_error := exn_str e;
                            err_type := "cleanup_run_failure" |}] |}).

End TTLCleanup.
End TTLCleanup.

(* ===================================================================== *)
(** * An in-memory AWS account (IAM, STS) and Slack, for concrete runs    *)
(* ===================================================================== *)

Module MockAWS.

Record State := {
  account : string;
  roles : list string;
  users : list string;
(** ARNs of the managed policies *)
policies : list string;
(** (role name, policy ARN) *)
role_attachments : list (string * string);
user_attachments : list (string * string);
(** every call made, latest first *)
calls : list string;
}.

Definition log (c : string) (s : State) : State :=
  {| account := account s; roles := roles s; users := users s;
     policies := policies s; role_attachments := role_attachments s;
     user_attachments := user_attachments s; calls := c :: calls s |}.

Definition with_policies (ps : list string) (s : State) : State :=
  {| account := account s; roles := roles s; users := users s;
     policies := ps; role_attachments := role_attachments s;
     user_attachments := user_attachments s; calls := calls s |}.

Definition with_role_attachments (l : list (string * string)) (s : State) : State :=
  {| account := account s; roles := roles s; users := users s;
     policies := policies s; role_attachments := l;
     user_attachments := user_attachments s; calls := calls s |}.

Definition with_user_attachments (l : list (string * string)) (s : State) : State :=
  {| account := account s; roles := roles s; users := users s;
     policies := policies s; role_attachments := role_attachments s;
     user_attachments := l; calls := calls s |}.

Definition pair_eqb (a b : string * string) : bool :=
  str_eqb (fst a) (fst b) && str_eqb (snd a) (snd b).

Definition no_such_entity {A} (what : string) : Result A :=
  inl (ClientError "NoSuchEntity" (what +:+ " cannot be found.")).

Definition attached_to (name : string) (l : list (string * string)) : list string :=
  map snd (List.filter (fun p => str_eqb (fst p) name) l).

Definition entities_of (policy_arn : string) (l : list (string * string)) : list string :=
  map fst (List.filter (fun p => str_eqb (snd p) policy_arn) l).

Definition attach (known : list string) (name policy_arn : string)
    (l : list (string * string)) (s : State) : Result (list (string * string)) :=
  if negb (str_in name known) then no_such_entity name
  else if negb (str_in policy_arn (policies s)) then no_such_entity policy_arn
  else if existsb (pair_eqb (name, policy_arn)) l then inr l
  else inr (l ++ [(name, policy_arn)]).

Definition detach (known : list string) (name policy_arn : string)
    (l : list (string * string)) : Result (list (string * string)) :=
  if negb (str_in name known) then no_such_entity name
  else if negb (existsb (pair_eqb (name, policy_arn)) l) then no_such_entity policy_arn
  else inr (List.filter (fun p => negb (pair_eqb (name, policy_arn) p)) l).

#[global] Instance mock : Boto State := {|
  get_caller_identity s := (inr (account s), log "sts:GetCallerIdentity" s);
  get_policy a s :=
    (if str_in a (policies s) then inr tt else no_such_entity a,
     log "iam:GetPolicy" s);
  create_policy name doc desc s :=
    let a := "arn:aws:iam::" +:+ account s +:+ ":policy/" +:+ name in
    if str_in a (policies s)
    then (inl (ClientError "EntityAlreadyExists" name), log "iam:CreatePolicy" s)
    else (inr a, log "iam:CreatePolicy" (with_policies (policies s ++ [a]) s));
  list_attached_role_policies name s :=
    (if str_in name (roles s) then inr (attached_to name (role_attachments s))
     else no_such_entity name,
     log "iam:ListAttachedRolePolicies" s);
  list_attached_user_policies name s :=
    (if str_in name (users s) then inr (attached_to name (user_attachments s))
     else no_such_entity name,
     log "iam:ListAttachedUserPolicies" s);
  attach_role_policy name a s :=
    match attach (roles s) name a (role_attachments s) s with
    | inr l => (inr tt, log "iam:AttachRolePolicy" (with_role_attachments l s))
    | inl e => (inl e, log "iam:AttachRolePolicy" s)
    end;
  attach_user_policy name a s :=
    match attach (users s) name a (user_attachments s) s with
    | inr l => (inr tt, log "iam:AttachUserPolicy" (with_user_attachments l s))
    | inl e => (inl e, log "iam:AttachUserPolicy" s)
    end;
  detach_role_policy name a s :=
    match detach (roles s) name a (role_attachments s) with
    | inr l => (inr tt, log "iam:DetachRolePolicy" (with_role_attachments l s))
    | inl e => (inl e, log "iam:DetachRolePolicy" s)
    end;
  detach_user_policy name a s :=
    match detach (users s) name a (user_attachments s) with
    | inr l => (inr tt, log "iam:DetachUserPolicy" (with_user_attachments l s))
    | inl e => (inl e, log "iam:DetachUserPolicy" s)
    end;
  list_entities_for_policy a s :=
    (if str_in a (policies s)
     then inr (length (entities_of a (role_attachments s)),
               length (entities_of a (user_attachments s)), 0%nat)
     else no_such_entity a,
     log "iam:ListEntitiesForPolicy" s);
  delete_policy a s :=
    if negb (str_in a (policies s))
    then (no_such_entity a, log "iam:DeletePolicy" s)
    else if existsb (fun p => str_eqb (snd p) a) (role_attachments s ++ user_attachments s)
    then (inl (ClientError "DeleteConflict" a), log "iam:DeletePolicy" s)
    else (inr tt,
          log "iam:DeletePolicy"
            (with_policies (List.filter (fun x => negb (str_eqb x a)) (policies s)) s));
  send_execution_confirmation _ s := (inr true, log "slack:execution_confirmation" s);
  send_rollback_confirmation _ s := (inr true, log "slack:rollback_confirmation" s);
  send_error_alert _ _ s := (inr true, log "slack:error_alert" s);
|}.

(** An account with one role and one user, nothing attached. *)
Definition account0 : State :=
  {| account := "123456789012"; roles := ["ci-deployer"]; users := ["alice"];
     policies := []; role_attachments := []; user_attachments := []; calls := [] |}.

(** A world over the in-memory account: the given table, no table fault,
    a clock that starts at [t0] and advances one microsecond per reading,
    uuids "u0", "u1", ... *)
Definition world (x : State) (table : gmap string ActionExecution) (t0 : datetime)
  : World State :=
  {| w_ext := x; w_table := table; w_table_fault := fun _ => None;
     w_table_calls := 0; w_clock := fun n => Z.of_nat n + t0; w_clock_reads := 0;
     w_uuid := fun n => "u" +:+ Z_str (Z.of_nat n); w_uuid_calls := 0 |}.

End MockAWS.

(* ===================================================================== *)
(** * handlers/approval_webhook.py: the approval link                     *)
(* ===================================================================== *)

Module ApprovalLink.

(** The dict [generate_approval_url] returns. *)
Record ApprovalUrl := { url : string; signature : string; timestamp : string }.

Section ApprovalLink.

Context {X : Type}.

Variable self : ApprovalWebhook.ApprovalWebhookHandler.

Definition generate_approval_url (execution_id base_url : string) : M X ApprovalUrl :=
  now <- utcnow ;;
  let timestamp := isoformat now in
  let signature := ApprovalWebhook._generate_signature self execution_id timestamp in
  let url := base_url +:+ "/approve?id=" +:+ execution_id +:+ "&sig=" +:+ signature
             +:+ "&ts=" +:+ timestamp in
  ret {| url := url; signature := signature; timestamp := timestamp |}.

End ApprovalLink.
End ApprovalLink.

(* ===================================================================== *)
(** * handlers/budgets_event.py: the execution of a plan                  *)
(* ===================================================================== *)

Module BudgetsEvent.

(** The dict [execute_action_plan] returns; a key that is not set is
    [None].  [ttl_expires_at], when the key is set, is a text or [None]. *)
Record Outcome := {
  notification_sent : bool;
  outcome_action : string;
  outcome_execution_id : option string;
  executions_created : option nat;
  outcome_ttl_expires_at : option (option string);
  outcome_error : option string;
}.

Section BudgetsEvent.

Context {X : Type} `{Boto X}.

(** [os.getenv] *)
Variable getenv : string -> option string.

(** [SlackNotifier.send_dry_run_alert(cost_event, action_plan, console_url)]
    and [send_approval_request(cost_event, action_plan, execution_id,
    approve_url=..., reject_url=None)] *)
Variable send_dry_run_alert : CostEvent -> ActionPlan -> string -> X -> Result bool * X.
Variable send_approval_request :
  CostEvent -> ActionPlan -> string -> string -> X -> Result bool * X.

(** [SlackNotifier(webhook_url)] *)
Definition SlackNotifier_new (webhook_url : string) : Result unit :=
  if str_eqb webhook_url EmptyString
     || str_eqb (rstrip (lstrip webhook_url)) EmptyString
  then inl (ValueError "webhook_url cannot be empty")
  else inr tt.

Definition get_cost_management_console_url (account_id : string) : string :=
  "https://console.aws.amazon.com/cost-management/home?region=us-east-1#/cost-explorer".

(** [ApprovalWebhookHandler()]: the secret comes from the environment. *)
Definition ApprovalWebhookHandler_new : Result ApprovalWebhook.ApprovalWebhookHandler :=
  match SlackNotifier_new (default EmptyString (getenv "SLACK_WEBHOOK_URL")) with
  | inl e => inl e
  | inr _ =>
      inr {| ApprovalWebhook.executor := {| dry_run := false |};
             ApprovalWebhook.approval_secret :=
               default "default-secret-CHANGE-ME" (getenv "APPROVAL_SECRET");
             ApprovalWebhook.approval_timeout_hours := 1 |}
  end.

Definition execute_action_plan (cost_event : CostEvent) (action_plan : ActionPlan)
  : M X Outcome :=
  match getenv "SLACK_WEBHOOK_URL" with
  | None => raise (ValueError "SLACK_WEBHOOK_URL environment variable required")
  | Some slack_webhook =>
  if str_eqb slack_webhook EmptyString
  then raise (ValueError "SLACK_WEBHOOK_URL environment variable required")
  else
  lift (SlackNotifier_new slack_webhook) ;;;
  let console_url := get_cost_management_console_url (account_id cost_event) in
  match plan_mode action_plan with
  | Some DryRun =>
      (* Dry-run: Notify only *)
      success <- call (send_dry_run_alert cost_event action_plan console_url) ;;
      ret {| notification_sent := success; outcome_action := "none";
             outcome_execution_id := None; executions_created := None;
             outcome_ttl_expires_at := None; outcome_error := None |}
  | Some Manual =>
      (* Execute action plan in dry-run mode to create executions *)
      executions <- IAMExecutor.execute_action_plan {| dry_run := true |} action_plan
                      (event_id cost_event) "system:budgets_event" ;;
      match executions with
      | [] =>
          ret {| notification_sent := false; outcome_action := "error";
                 outcome_execution_id := None; executions_created := None;
                 outcome_ttl_expires_at := None;
                 outcome_error := Some "Failed to create execution records" |}
      | primary_execution :: _ =>
          (* Save all executions to DynamoDB with status=planned *)
          mapM (fun execution => save_execution (set_status Planned execution))
            executions ;;;
          (* Generate approval URL *)
          let api_base_url :=
            default "https://api.autoguardrails.example.com"
              (getenv "APPROVAL_API_BASE_URL") in
          webhook_handler <- lift ApprovalWebhookHandler_new ;;
          approval_data <- ApprovalLink.generate_approval_url webhook_handler
                             (execution_id primary_execution) api_base_url ;;
          (* Send approval request notification *)
          success <- call (send_approval_request cost_event action_plan
                             (execution_id primary_execution)
                             (ApprovalLink.url approval_data)) ;;
          ret {| notification_sent := success;
                 outcome_action := "approval_requested";
                 outcome_execution_id := Some (execution_id primary_execution);
                 executions_created := Some (length executions);
                 outcome_ttl_expires_at := None; outcome_error := None |}
      end
  | Some Auto =>
      (* Execute action plan immediately *)
      executions <- IAMExecutor.execute_action_plan {| dry_run := false |} action_plan
                      (event_id cost_event) "system:auto" ;;
      match executions with
      | [] =>
          ret {| notification_sent := false; outcome_action := "error";
                 outcome_execution_id := None; executions_created := None;
                 outcome_ttl_expires_at := None;
                 outcome_error := Some "Failed to create executions" |}
      | primary_execution :: _ =>
          (* Save all executions to DynamoDB *)
          mapM save_execution executions ;;;
          (* Send execution confirmation *)
          success <- call (send_execution_confirmation primary_execution) ;;
          ret {| notification_sent := success; outcome_action := "executed";
                 outcome_execution_id := Some (execution_id primary_execution);
                 executions_created := Some (length executions);
                 outcome_ttl_expires_at :=
                   Some (option_map isoformat (ttl_expires_at primary_execution));
                 outcome_error := None |}
      end
  | None => raise (ValueError "Unknown mode: None")
  end
  end.

End BudgetsEvent.
End BudgetsEvent.

(* ===================================================================== *)
(** * Notions the properties are stated with                              *)
(* ===================================================================== *)

Module Spec.
Section Spec.

Context {X : Type}.

(** What a computation leaves unchanged, as a projection of the world. *)
Definition preserves {T A} (proj : World X -> T) (m : M X A) : Prop :=
  forall w, proj (snd (m w)) = proj w.

(** Everything but the external services, the number of clock readings
    and the number of uuids drawn. *)
Definition store_of (w : World X) :=
  (w_table w, w_table_fault w, w_table_calls w, w_clock w, w_uuid w).

(** Everything but the number of clock readings. *)
Definition but_clock_reads (w : World X) :=
  (w_ext w, w_table w, w_table_fault w, w_table_calls w, w_clock w, w_uuid w,
   w_uuid_calls w).

(** The parts of the world no computation changes. *)
Definition env_of (w : World X) := (w_table_fault w, w_clock w, w_uuid w).

(** The computation raises no exception. *)
Definition no_raise {A} (m : M X A) : Prop :=
  forall w, exists a, fst (m w) = inr a.

(** Every value the computation returns satisfies [P]. *)
Definition returns {A} (P : A -> Prop) (m : M X A) : Prop :=
  forall w a, fst (m w) = inr a -> P a.

(** Two worlds whose clocks will give the same readings. *)
Definition same_readings (w1 w2 : World X) : Prop :=
  forall k : nat,
    w_clock w1 (w_clock_reads w1 + k)%nat = w_clock w2 (w_clock_reads w2 + k)%nat.

(** The result of the computation is a function of the readings of the
    clock. *)
Definition clock_determined {A} (m : M X A) : Prop :=
  forall w1 w2, same_readings w1 w2 ->
    fst (m w1) = fst (m w2) /\ same_readings (snd (m w1)) (snd (m w2)).

(** The matcher rejects every enabled policy of the list, one after the
    other, from the world [w]: the world after, or [None] when it accepts
    one or raises. *)
Fixpoint rejects_all (event : CostEvent) (policies : list GuardrailPolicy)
    (w : World X) : option (World X) :=
  match policies with
  | [] => Some w
  | policy :: rest =>
      if negb (enabled policy) then rejects_all event rest w
      else
        match PolicyEngine.match_event event policy w with
        | (inr false, w') => rejects_all event rest w'
        | _ => None
        end
  end.

(** No fault of the audit table is pending. *)
Definition no_table_fault (w : World X) : Prop :=
  forall n, w_table_fault w n = None.




(** No execution of the table expires between the time [t1] and the later
    time [t2]. *)
Definition no_new_expiration (t : gmap string ActionExecution) (t1 t2 : datetime) : Prop :=
  map_Forall (fun _ e => expired_filter t2 e = true -> expired_filter t1 e = true) t.

End Spec.

(** An execution is one of [action] on [principal_arn], executed or failed
    with the error in its diff. *)
Definition outcome_of (action : PolicyAction) (principal_arn : string)
    (e : ActionExecution) : Prop :=
  Models.action e = action_type_str (action_type action)
  /\ target e = principal_arn
  /\ (status e = Executed
      \/ (status e = Failed /\ exists msg, diff e = [("error", VStr msg)])).

(** What [_rollback_execution] answers. *)
Definition outcome_string (r : string) : Prop :=
  r = "rolled_back" \/ r = "skipped" \/ r = "failed".

(** The three counters of the cleanup loop add up to [n]. *)
Definition counted (n : Z) (c : TTLCleanup.Counters) : Prop :=
  let '(rolled_back, failed, skipped, _) := c in rolled_back + failed + skipped = n.

Definition balanced (r : TTLCleanup.CleanupResult) : Prop :=
  TTLCleanup.rolled_back r + TTLCleanup.failed r + TTLCleanup.skipped r
  = TTLCleanup.total_found r.

(** The result of a run that found nothing. *)
Definition nothing_found : TTLCleanup.CleanupResult :=
  {| TTLCleanup.total_found := 0; TTLCleanup.rolled_back := 0;
     TTLCleanup.failed := 0; TTLCleanup.skipped := 0; TTLCleanup.errors := [] |}.

(** The principals of a type the in-memory account knows, and their
    attachments. *)
Definition known (t : string) (s : MockAWS.State) : list string :=
  if str_eqb t "role" then MockAWS.roles s else MockAWS.users s.

Definition attachments (t : string) (s : MockAWS.State) : list (string * string) :=
  if str_eqb t "role" then MockAWS.role_attachments s else MockAWS.user_attachments s.

Definition other_attachments (t : string) (s : MockAWS.State) : list (string * string) :=
  if str_eqb t "role" then MockAWS.user_attachments s else MockAWS.role_attachments s.

(** How many calls of a name the account has received. *)
Definition calls_of (c : string) (s : MockAWS.State) : nat :=
  length (List.filter (str_eqb c) (MockAWS.calls s)).

(** The ARN of the deny policy in the account. *)
Definition deny_policy_arn (s : MockAWS.State) (deny : list string) (pid : string)
  : string :=
  "arn:aws:iam::" +:+ MockAWS.account s +:+ ":policy/" +:+ policy_name_of deny pid.

(** The pairs (action type, target) of a plan, action by action. *)
Definition plan_pairs (plan : ActionPlan) : list (string * string) :=
  flat_map (fun a => map (fun p => (action_type_str (action_type a), p))
                       (target_principals plan))
    (plan_actions plan).

End Spec.
Export Spec.

(* ===================================================================== *)
(** * Concrete events, policies and executions                            *)
(* ===================================================================== *)

Module Fixtures.

Definition ci_role : string := "arn:aws:iam::123456789012:role/ci-deployer".

(** 2025-01-15T10:00:00, a Wednesday. *)
Definition t_10h00 : datetime := 1736935200000000.

Definition event_800 : CostEvent :=
  {| event_id := "evt-800"; source := "budgets"; account_id := "123456789012";
     amount := 800%float; time_window := "2025-01"; details := [] |}.

Definition match_over (min : float) : PolicyMatch :=
  {| match_source := ["budgets"]; match_account_ids := ["123456789012"];
     min_amount_usd := min; max_amount_usd := None;
     match_services := None; match_regions := None |}.

Definition ci_scope : PolicyScope :=
  {| principals := [{| principal_type := "iam_role"; arn := ci_role |}];
     scope_regions := None |}.

(** The manual policy of the scenario: deny [ec2:RunInstances] over 500
    USD, roll back after 180 minutes. *)
Definition manual_policy : GuardrailPolicy :=
  {| policy_id := "ci-ec2-spike"; description := None; enabled := true;
     mode := Manual; ttl_minutes := 180; match_ := match_over 500%float;
     scope := ci_scope;
     actions := [{| action_type := AttachDenyPolicy;
                    deny := Some ["ec2:RunInstances"] |}];
     exceptions := None |}.

Definition notify_policy : GuardrailPolicy :=
  {| policy_id := "notify-100"; description := None; enabled := true;
     mode := DryRun; ttl_minutes := 0; match_ := match_over 100%float;
     scope := ci_scope;
     actions := [{| action_type := NotifyOnly; deny := None |}];
     exceptions := None |}.

Definition disabled_policy : GuardrailPolicy :=
  {| policy_id := "disabled-1"; description := None; enabled := false;
     mode := Auto; ttl_minutes := 60; match_ := match_over 1%float;
     scope := ci_scope;
     actions := [{| action_type := NotifyOnly; deny := None |}];
     exceptions := None |}.

(** A policy over 1000 USD: it does not match [event_800]. *)
Definition high_policy : GuardrailPolicy :=
  {| policy_id := "over-1000"; description := None; enabled := true;
     mode := Auto; ttl_minutes := 60; match_ := match_over 1000%float;
     scope := ci_scope;
     actions := [{| action_type := NotifyOnly; deny := None |}];
     exceptions := None |}.

(** The manual policy with the account of the event on its allowlist. *)
Definition exempting_policy : GuardrailPolicy :=
  {| policy_id := "ci-ec2-spike-exempt"; description := None; enabled := true;
     mode := Manual; ttl_minutes := 180; match_ := match_over 500%float;
     scope := ci_scope;
     actions := [{| action_type := AttachDenyPolicy;
                    deny := Some ["ec2:RunInstances"] |}];
     exceptions := Some {| exc_accounts := Some ["123456789012"];
                           exc_principals := None;
                           exc_time_windows := None |} |}.

(** The manual policy, exempted during office hours on Wednesdays. *)
Definition office_hours_policy : GuardrailPolicy :=
  {| policy_id := "ci-ec2-spike-hours"; description := None; enabled := true;
     mode := Manual; ttl_minutes := 180; match_ := match_over 500%float;
     scope := ci_scope;
     actions := [{| action_type := AttachDenyPolicy;
                    deny := Some ["ec2:RunInstances"] |}];
     exceptions := Some {| exc_accounts := None; exc_principals := None;
                           exc_time_windows :=
                             Some [{| tw_start := "09:00"; tw_end := "17:00";
                                      tw_timezone := "UTC"; tw_days := ["wed"] |}] |} |}.

Definition office_window : TimeWindow :=
  {| tw_start := "09:00"; tw_end := "17:00"; tw_timezone := "UTC";
     tw_days := ["wed"] |}.

(** A window that runs over midnight. *)
Definition night_window : TimeWindow :=
  {| tw_start := "22:00"; tw_end := "06:00"; tw_timezone := "UTC";
     tw_days := ["wed"; "thu"] |}.

Definition empty_table : gmap string ActionExecution := ∅.

Definition w_10h00 : World MockAWS.State :=
  MockAWS.world MockAWS.account0 empty_table t_10h00.

Definition ghost_role : string := "arn:aws:iam::123456789012:role/ghost".

Definition real_executor : IAMExecutor := {| dry_run := false |}.
Definition dry_executor : IAMExecutor := {| dry_run := true |}.

(** A plan with two targets; the first is a role the account does not
    have. *)
Definition two_targets_plan : ActionPlan :=
  {| matched := true; matched_policy_id := Some "ci-ec2-spike";
     plan_mode := Some Auto;
     plan_actions := [{| action_type := AttachDenyPolicy;
                         deny := Some ["ec2:RunInstances"] |}];
     plan_ttl_minutes := Some 180;
     target_principals := [ghost_role; ci_role] |}.

Definition executed_notify : ActionExecution :=
  {| execution_id := "exec-9"; exec_policy_id := "notify-100";
     exec_event_id := "evt-800"; status := Executed;
     executed_at := Some t_10h00; executed_by := "system:auto";
     action := "notify_only"; target := ci_role;
     diff := [("action", VStr "notify_only"); ("no_changes", VBool true)];
     ttl_expires_at := None; rolled_back_at := None |}.

Definition planned_notify : ActionExecution := set_status Planned executed_notify.

Definition alice : string := "arn:aws:iam::123456789012:user/alice".

(** The auto plan of a policy with a TTL of 180 minutes over two targets. *)
Definition auto_plan : ActionPlan :=
  {| matched := true; matched_policy_id := Some "ci-ec2-spike";
     plan_mode := Some Auto;
     plan_actions := [{| action_type := AttachDenyPolicy;
                         deny := Some ["ec2:RunInstances"] |}];
     plan_ttl_minutes := Some 180;
     target_principals := [ci_role; alice] |}.

(** The auto branch of the budgets handler: execute the plan and save
    every execution. *)
Definition run_auto (plan : ActionPlan) (w : World MockAWS.State) : World MockAWS.State :=
  match execute_action_plan real_executor plan "evt-800" "system:auto" w with
  | (inr executions, w1) => snd (mapM save_execution executions w1)
  | (inl _, w1) => w1
  end.

(** The world four hours after the auto plan was executed at 10:00: both
    executions have expired. *)
Definition w_14h00 : World MockAWS.State :=
  let w := run_auto auto_plan w_10h00 in
  MockAWS.world (w_ext w) (w_table w) (t_10h00 + 4 * 3600 * 1000000).

(** The manual branch of the budgets handler: the executor in dry-run
    mode makes the executions, which are saved with status planned. *)
Definition run_manual (plan : ActionPlan) (w : World MockAWS.State) : World MockAWS.State :=
  match execute_action_plan dry_executor plan "evt-800" "system:budgets_event" w with
  | (inr executions, w1) =>
      snd (mapM (fun e => save_execution (set_status Planned e)) executions w1)
  | (inl _, w1) => w1
  end.

(** The plan the engine makes of the manual policy for the event. *)
Definition manual_plan : ActionPlan :=
  match fst (PolicyEngine.evaluate event_800 [manual_policy] w_10h00) with
  | inr plan => plan
  | inl _ => unmatched_plan
  end.

(** The world once the manual plan is recorded, awaiting approval. *)
Definition w_planned : World MockAWS.State := run_manual manual_plan w_10h00.

Definition approval_handler : ApprovalWebhook.ApprovalWebhookHandler :=
  {| ApprovalWebhook.executor := real_executor;
     ApprovalWebhook.approval_secret := "test-secret";
     ApprovalWebhook.approval_timeout_hours := 1 |}.

(** The approval link of the planned execution, issued at 10:00. *)
Definition link_timestamp : string := "2025-01-15T10:00:00".
Definition link_signature : string :=
  ApprovalWebhook._generate_signature approval_handler "exec-u0" link_timestamp.

(** 2025-01-15T11:00:00: one hour after the link was issued. *)
Definition w_11h00 : World MockAWS.State :=
  MockAWS.world MockAWS.account0 empty_table (t_10h00 + 3600 * 1000000).

(** The world at 10:10, when the link is used. *)
Definition w_approval : World MockAWS.State :=
  MockAWS.world (w_ext w_planned) (w_table w_planned) (t_10h00 + 600 * 1000000).

(** The world at 10:20, after the approval was handled. *)
Definition w_approved : World MockAWS.State :=
  let w := snd (ApprovalWebhook.handle_approval iso_parse approval_handler
                  "exec-u0" link_signature link_timestamp "bob" w_approval) in
  MockAWS.world (w_ext w) (w_table w) (t_10h00 + 1200 * 1000000).

(** A planned execution over a role the account does not have. *)
Definition planned_ghost : ActionExecution :=
  {| execution_id := "exec-ghost"; exec_policy_id := "ci-ec2-spike";
     exec_event_id := "evt-800"; status := Planned;
     executed_at := Some t_10h00; executed_by := "system:budgets_event";
     action := "attach_deny_policy"; target := ghost_role;
     diff := [("dry_run", VBool true);
              ("would_deny", str_list ["ec2:RunInstances"]);
              ("target", VStr ghost_role)];
     ttl_expires_at := None; rolled_back_at := None |}.

Definition w_planned_ghost : World MockAWS.State :=
  MockAWS.world MockAWS.account0 (<[ "exec-ghost" := planned_ghost ]> empty_table)
    (t_10h00 + 600 * 1000000).

Definition ghost_signature : string :=
  ApprovalWebhook._generate_signature approval_handler "exec-ghost" link_timestamp.

(** The same world with a table that answers every call with [e]. *)
Definition with_table_fault (e : Exn) (w : World MockAWS.State) : World MockAWS.State :=
  {| w_ext := w_ext w; w_table := w_table w; w_table_fault := fun _ => Some e;
     w_table_calls := w_table_calls w; w_clock := w_clock w;
     w_clock_reads := w_clock_reads w; w_uuid := w_uuid w;
     w_uuid_calls := w_uuid_calls w |}.

Definition throttled : Exn :=
  ClientError "ProvisionedThroughputExceededException" "Rate exceeded".

Definition connection_lost : Exn := OtherError "Could not connect to the endpoint URL".

(** The environment of the budgets handler. *)
Definition env (k : string) : option string :=
  if str_eqb k "SLACK_WEBHOOK_URL"
  then Some "https://hooks.slack.com/services/T0/B0/XXXX"
  else if str_eqb k "APPROVAL_SECRET" then Some "test-secret"
  else None.

Definition slack_dry_run_alert (_ : CostEvent) (_ : ActionPlan) (_ : string)
    (s : MockAWS.State) : Result bool * MockAWS.State :=
  (inr true, MockAWS.log "slack:dry_run_alert" s).

Definition slack_approval_request (_ : CostEvent) (_ : ActionPlan) (_ _ : string)
    (s : MockAWS.State) : Result bool * MockAWS.State :=
  (inr true, MockAWS.log "slack:approval_request" s).

(** The plan over two targets, in manual mode. *)
Definition manual_two_targets_plan : ActionPlan :=
  {| matched := true; matched_policy_id := Some "ci-ec2-spike";
     plan_mode := Some Manual;
     plan_actions := [{| action_type := AttachDenyPolicy;
                         deny := Some ["ec2:RunInstances"] |}];
     plan_ttl_minutes := Some 180;
     target_principals := [ghost_role; ci_role] |}.

Definition cleanup_handler (batch_size : Z) : TTLCleanup.TTLCleanupHandler :=
  {| TTLCleanup.executor := real_executor; TTLCleanup.batch_size := batch_size |}.

End Fixtures.

(* ===================================================================== *)
(** * Properties                                                          *)
(* ===================================================================== *)

Example sha256_abc :
  Hashlib.sha256_hexdigest (encode "abc")
  = "ba7816bf8f01cfea414140de5dae2223b00361a396177a9cb410ff61f20015ad".
Proof. vm_compute. reflexivity. Qed.

(** ** Rules for what computations preserve, raise and return *)

Section Rules.

Context {X : Type}.
Implicit Types w : World X.

Lemma bind_inr {A B} (m : M X A) (k : A -> M X B) w a w' :
  m w = (inr a, w') -> bind m k w = k a w'.
Proof. intros E. unfold bind. now rewrite E. Qed.

Lemma bind_inl {A B} (m : M X A) (k : A -> M X B) w e w' :
  m w = (inl e, w') -> bind m k w = (inl e, w').
Proof. intros E. unfold bind. now rewrite E. Qed.

Section Preserves.

Context {T : Type} (proj : World X -> T).

Lemma preserves_ret {A} (a : A) : preserves proj (ret a).
Proof. intros w. reflexivity. Qed.

Lemma preserves_raise {A} e : preserves proj (@raise X A e).
Proof. intros w. reflexivity. Qed.

Lemma preserves_lift {A} (r : Result A) : preserves proj (lift r).
Proof. intros w. reflexivity. Qed.

Lemma preserves_bind {A B} (m : M X A) (k : A -> M X B) :
  preserves proj m -> (forall a, preserves proj (k a)) -> preserves proj (bind m k).
Proof.
  intros Hm Hk w. unfold bind. specialize (Hm w).
  destruct (m w) as [[e | a] w']; simpl in *; [exact Hm |].
  rewrite Hk. exact Hm.
Qed.

Lemma preserves_try_except {A} (m : M X A) c h :
  preserves proj m -> (forall e, preserves proj (h e)) ->
  preserves proj (try_except m c h).
Proof.
  intros Hm Hh w. unfold try_except. specialize (Hm w).
  destruct (m w) as [[e | a] w']; simpl in *; [| exact Hm].
  destruct (c e); simpl; [rewrite Hh |]; exact Hm.
Qed.

Lemma preserves_mapM {A B} (f : A -> M X B) l :
  (forall x, preserves proj (f x)) -> preserves proj (mapM f l).
Proof.
  intros Hf. induction l as [| x l IH]; simpl.
  - apply preserves_ret.
  - apply preserves_bind; [apply Hf | intros y].
    apply preserves_bind; [apply IH | intros ys; apply preserves_ret].
Qed.

Lemma preserves_call {A} (op : X -> Result A * X) :
  (forall x w, proj (set_ext x w) = proj w) -> preserves proj (call op).
Proof.
  intros Hp w. unfold call. destruct (op (w_ext w)) as [r x]. simpl. apply Hp.
Qed.

Lemma preserves_utcnow :
  (forall n w, proj (set_clock_reads n w) = proj w) -> preserves proj utcnow.
Proof. intros Hp w. apply Hp. Qed.

Lemma preserves_uuid4 :
  (forall n w, proj (set_uuid_calls n w) = proj w) -> preserves proj uuid4.
Proof. intros Hp w. apply Hp. Qed.

End Preserves.

Lemma no_raise_ret {A} (a : A) : no_raise (@ret X A a).
Proof. intros w. now exists a. Qed.

Lemma no_raise_bind {A B} (m : M X A) (k : A -> M X B) :
  no_raise m -> (forall a, no_raise (k a)) -> no_raise (bind m k).
Proof.
  intros Hm Hk w. unfold bind. destruct (Hm w) as [a Ha].
  destruct (m w) as [[e | a'] w']; simpl in Ha; [discriminate |].
  apply Hk.
Qed.

(** [except Exception] with a handler that does not raise. *)
Lemma no_raise_try_except {A} (m : M X A) h :
  (forall e, no_raise (h e)) -> no_raise (try_except m any_exception h).
Proof.
  intros Hh w. unfold try_except.
  destruct (m w) as [[e | a] w']; simpl; [apply Hh | now exists a].
Qed.

Lemma no_raise_utcnow : no_raise (@utcnow X).
Proof. intros w. now eexists. Qed.

Lemma no_raise_uuid4 : no_raise (@uuid4 X).
Proof. intros w. now eexists. Qed.

Lemma no_raise_mapM {A B} (f : A -> M X B) l :
  (forall x, no_raise (f x)) -> no_raise (mapM f l).
Proof.
  intros Hf. induction l as [| x l IH]; simpl.
  - apply no_raise_ret.
  - apply no_raise_bind; [apply Hf | intros y].
    apply no_raise_bind; [apply IH | intros ys; apply no_raise_ret].
Qed.

Lemma no_raise_run {A} (m : M X A) w :
  no_raise m -> exists a w', m w = (inr a, w').
Proof.
  intros Hm. destruct (Hm w) as [a Ha]. exists a, (snd (m w)).
  destruct (m w); simpl in *; now subst.
Qed.

Lemma returns_ret {A} (P : A -> Prop) a : P a -> returns P (@ret X A a).
Proof. intros Ha w b E. simpl in E. now inversion E; subst. Qed.

Lemma returns_raise {A} (P : A -> Prop) e : returns P (@raise X A e).
Proof. intros w b E. discriminate. Qed.

Lemma returns_bind {A B} (P : B -> Prop) (m : M X A) (k : A -> M X B) :
  (forall a, returns P (k a)) -> returns P (bind m k).
Proof.
  intros Hk w b. unfold bind.
  destruct (m w) as [[e | a] w']; simpl; [discriminate | apply Hk].
Qed.

Lemma returns_try_except {A} (P : A -> Prop) (m : M X A) c h :
  returns P m -> (forall e, returns P (h e)) -> returns P (try_except m c h).
Proof.
  intros Hm Hh w b. unfold try_except. specialize (Hm w).
  destruct (m w) as [[e | a] w']; simpl in *; [| apply Hm].
  destruct (c e); simpl; [apply Hh | discriminate].
Qed.

Lemma same_readings_refl w : same_readings w w.
Proof. intros k. reflexivity. Qed.

Lemma clock_determined_ret {A} (a : A) : clock_determined (@ret X A a).
Proof. intros w1 w2 Hs. now split. Qed.

Lemma clock_determined_lift {A} (r : Result A) : clock_determined (@lift X A r).
Proof. intros w1 w2 Hs. now split. Qed.

Lemma clock_determined_bind {A B} (m : M X A) (k : A -> M X B) :
  clock_determined m -> (forall a, clock_determined (k a)) ->
  clock_determined (bind m k).
Proof.
  intros Hm Hk w1 w2 Hs. unfold bind. destruct (Hm w1 w2 Hs) as [Hr Hw].
  destruct (m w1) as [[e1 | a1] w1'], (m w2) as [[e2 | a2] w2'];
    simpl in *; try discriminate.
  - inversion Hr; subst. now split.
  - inversion Hr; subst. now apply Hk.
Qed.

Lemma clock_determined_utcnow : clock_determined (@utcnow X).
Proof.
  intros w1 w2 Hs. split.
  - simpl. f_equal. specialize (Hs 0%nat). now rewrite !Nat.add_0_r in Hs.
  - intros k. simpl. specialize (Hs (S k)).
    now rewrite !Nat.add_succ_r in Hs.
Qed.

End Rules.

(** One step of a proof that a computation preserves a projection. *)
Ltac preserves_step :=
  match goal with
  | |- preserves _ (ret _) => apply preserves_ret
  | |- preserves _ (raise _) => apply preserves_raise
  | |- preserves _ (lift _) => apply preserves_lift
  | |- preserves _ (bind _ _) => apply preserves_bind; [| intros ?]
  | |- preserves _ (try_except _ _ _) => apply preserves_try_except; [| intros ?]
  | |- preserves _ (mapM _ _) => apply preserves_mapM; intros ?
  | |- preserves _ (call _) => apply preserves_call; intros; reflexivity
  | |- preserves _ utcnow => apply preserves_utcnow; intros; reflexivity
  | |- preserves _ uuid4 => apply preserves_uuid4; intros; reflexivity
  | |- preserves _ (if ?b then _ else _) => destruct b
  | |- preserves _ (match ?x with _ => _ end) => destruct x
  end.

(** ** The policy engine *)

Section PolicyEngineFacts.

Context {X : Type}.
Implicit Types w : World X.

Lemma _is_exempted_preserves event exc :
  preserves (@but_clock_reads X) (PolicyEngine._is_exempted event exc).
Proof.
  unfold PolicyEngine._is_exempted, PolicyEngine._in_exempted_time_window.
  repeat preserves_step.
Qed.

Lemma match_event_preserves event policy :
  preserves (@but_clock_reads X) (PolicyEngine.match_event event policy).
Proof.
  unfold PolicyEngine.match_event.
  repeat (first [apply _is_exempted_preserves | preserves_step]).
Qed.

Lemma evaluate_preserves event policies :
  preserves (@but_clock_reads X) (PolicyEngine.evaluate event policies).
Proof.
  induction policies as [| p ps IH]; simpl.
  - apply preserves_ret.
  - repeat (first [apply IH | apply match_event_preserves | preserves_step]).
Qed.

Lemma _is_exempted_clock_determined event exc :
  clock_determined (@PolicyEngine._is_exempted X event exc).
Proof.
  unfold PolicyEngine._is_exempted, PolicyEngine._in_exempted_time_window.
  repeat match goal with
         | |- clock_determined (ret _) => apply clock_determined_ret
         | |- clock_determined (lift _) => apply clock_determined_lift
         | |- clock_determined (bind _ _) => apply clock_determined_bind; [| intros ?]
         | |- clock_determined utcnow => apply clock_determined_utcnow
         | |- clock_determined (if ?b then _ else _) => destruct b
         | |- clock_determined (match ?x with _ => _ end) => destruct x
         end.
Qed.

Lemma match_event_clock_determined event policy :
  clock_determined (@PolicyEngine.match_event X event policy).
Proof.
  unfold PolicyEngine.match_event.
  destruct (negb _); [apply clock_determined_ret |].
  destruct (exceptions policy); [| apply clock_determined_ret].
  apply clock_determined_bind; [apply _is_exempted_clock_determined |].
  intros []; apply clock_determined_ret.
Qed.

Lemma evaluate_clock_determined event policies :
  clock_determined (@PolicyEngine.evaluate X event policies).
Proof.
  induction policies as [| p ps IH]; simpl.
  - apply clock_determined_ret.
  - destruct (negb (enabled p)); [exact IH |].
    apply clock_determined_bind; [apply match_event_clock_determined |].
    intros []; [apply clock_determined_lift | exact IH].
Qed.

(** What a world is, given what [but_clock_reads] keeps of it. *)
Lemma but_clock_reads_eq w w' :
  but_clock_reads w' = but_clock_reads w ->
  w' = set_clock_reads (w_clock_reads w') w.
Proof.
  destruct w, w'. unfold but_clock_reads. simpl. intros E.
  inversion E; subst. reflexivity.
Qed.

End PolicyEngineFacts.

Section PolicyEngineClaims.

Context {X : Type}.
Implicit Types w : World X.

Lemma build_action_plan_ok event policy :
  policy_id policy <> EmptyString -> actions policy <> [] ->
  PolicyEngine._build_action_plan event policy
  = inr {| matched := true;
           matched_policy_id := Some (policy_id policy);
           plan_mode := Some (mode policy);
           plan_actions := actions policy;
           plan_ttl_minutes := Some (ttl_minutes policy);
           target_principals := map arn (principals (scope policy)) |}.
Proof.
  intros Hid Hact. unfold PolicyEngine._build_action_plan, ActionPlan_new, ActionPlan_valid.
  simpl. unfold str_eqb.
  destruct (String.eqb_spec (policy_id policy) EmptyString) as [E | _]; [contradiction |].
  destruct (actions policy); [contradiction | reflexivity].
Qed.

Lemma evaluate_skips_rejected event pre rest w w1 :
  rejects_all event pre w = Some w1 ->
  PolicyEngine.evaluate event (pre ++ rest) w = PolicyEngine.evaluate event rest w1.
Proof.
  revert w. induction pre as [| p pre IH]; intros w Hr; simpl in *.
  - now inversion Hr.
  - destruct (negb (enabled p)); [now apply IH |].
    unfold bind.
    destruct (PolicyEngine.match_event event p w) as [[e | []] w']; try discriminate.
    now apply IH.
Qed.

(** C5. [evaluate] goes through the policies in the order given and skips
    the disabled ones without consulting the matcher; it returns the plan of
    the first enabled policy the matcher accepts (the enabled policies before
    it having been rejected), whatever follows it in the list: the plan has
    the id, mode, actions and ttl_minutes of that policy and the ARNs of its
    scope; when the matcher rejects every enabled policy, the plan is the
    unmatched one.  (The plan is constructed for a policy that has an id and
    an action, as every loaded policy has.) *)
Theorem evaluate_first_match event pre policy post w w1 w2 :
  rejects_all event pre w = Some w1 ->
  enabled policy = true ->
  PolicyEngine.match_event event policy w1 = (inr true, w2) ->
  policy_id policy <> EmptyString ->
  actions policy <> [] ->
  PolicyEngine.evaluate event (pre ++ policy :: post) w
  = (inr {| matched := true;
            matched_policy_id := Some (policy_id policy);
            plan_mode := Some (mode policy);
            plan_actions := actions policy;
            plan_ttl_minutes := Some (ttl_minutes policy);
            target_principals := map arn (principals (scope policy)) |}, w2)
  /\ (exists plan, PolicyEngine.evaluate event pre w = (inr plan, w1)
                   /\ matched plan = false)
  /\ (forall disabled, enabled disabled = false ->
      PolicyEngine.evaluate event (pre ++ disabled :: policy :: post) w
      = PolicyEngine.evaluate event (pre ++ policy :: post) w).
Proof.
  intros Hpre Hen Hm Hid Hact.
  assert (Hhead : forall l, PolicyEngine.evaluate event (policy :: l) w1
                            = (lift (PolicyEngine._build_action_plan event policy)) w2).
  { intros l. simpl. rewrite Hen. simpl. unfold bind. now rewrite Hm. }
  repeat split.
  - rewrite (evaluate_skips_rejected _ _ _ _ _ Hpre), Hhead.
    unfold lift. now rewrite build_action_plan_ok.
  - exists unmatched_plan. split; [| reflexivity].
    rewrite <- (app_nil_r pre) at 1.
    now rewrite (evaluate_skips_rejected _ _ _ _ _ Hpre).
  - intros d Hd.
    rewrite !(evaluate_skips_rejected _ _ _ _ _ Hpre).
    simpl. now rewrite Hd.
Qed.

(** The matcher finds an exempted event not to match, after the same
    readings of the clock. *)
Lemma match_event_exempted event policy exc w w1 :
  exceptions policy = Some exc ->
  PolicyEngine._is_exempted event exc w = (inr true, w1) ->
  exists w', PolicyEngine.match_event event policy w = (inr false, w')
             /\ (PolicyEngine.conditions_hold event policy = true -> w' = w1).
Proof.
  intros Hexc Hex. unfold PolicyEngine.match_event.
  destruct (PolicyEngine.conditions_hold event policy); simpl.
  - rewrite Hexc. unfold bind. rewrite Hex. now exists w1.
  - exists w. split; [reflexivity | discriminate].
Qed.

(** C8. When the exception rules of a policy exempt the event, the matcher
    answers that the policy does not match, even when all the match
    conditions hold, and [evaluate] goes on with the policies that follow:
    its result is the evaluation of the rest of the list, so that another
    policy is selected only when the matcher accepts it. *)
Theorem exempted_is_non_match event policy exc rest w w1 :
  exceptions policy = Some exc ->
  PolicyEngine._is_exempted event exc w = (inr true, w1) ->
  exists w',
    PolicyEngine.match_event event policy w = (inr false, w')
    /\ (PolicyEngine.conditions_hold event policy = true -> w' = w1)
    /\ PolicyEngine.evaluate event (policy :: rest) w
       = PolicyEngine.evaluate event rest (if enabled policy then w' else w).
Proof.
  intros Hexc Hex.
  destruct (match_event_exempted _ _ _ _ _ Hexc Hex) as (w' & Hm & Hw).
  exists w'. repeat split; [exact Hm | exact Hw |].
  simpl. destruct (enabled policy); simpl; [| reflexivity].
  unfold bind. now rewrite Hm.
Qed.

(** C9. [evaluate] has no side effect: it leaves the world as it was but
    for the number of readings taken from the clock; and its result is a
    function of the event, the policies and the readings of the clock: from
    two worlds whose clocks give the same readings it returns the same plan
    (or raises the same exception).  In particular a second call that gets
    the readings of the first returns an identical plan. *)
Theorem evaluate_deterministic event policies w1 w2 :
  same_readings w1 w2 ->
  fst (PolicyEngine.evaluate event policies w1)
  = fst (PolicyEngine.evaluate event policies w2)
  /\ snd (PolicyEngine.evaluate event policies w1)
     = set_clock_reads (w_clock_reads (snd (PolicyEngine.evaluate event policies w1))) w1
  /\ snd (PolicyEngine.evaluate event policies w2)
     = set_clock_reads (w_clock_reads (snd (PolicyEngine.evaluate event policies w2))) w2.
Proof.
  intros Hs. split; [| split].
  - apply (evaluate_clock_determined event policies w1 w2 Hs).
  - apply but_clock_reads_eq, evaluate_preserves.
  - apply but_clock_reads_eq, evaluate_preserves.
Qed.

End PolicyEngineClaims.

(** The clauses of the exception rules: an account on the allowlist, and a
    reading of the clock inside a time window. *)
Lemma _is_exempted_account {X} event exc l (w : World X) :
  PolicyEngine.nonempty (exc_accounts exc) = Some l ->
  str_in (account_id event) l = true ->
  PolicyEngine._is_exempted event exc w = (inr true, w).
Proof.
  intros Hl Hin. unfold PolicyEngine._is_exempted. now rewrite Hl, Hin.
Qed.

Lemma _is_exempted_time_window {X} event exc l (w : World X) :
  PolicyEngine.nonempty (exc_accounts exc) = None ->
  PolicyEngine.nonempty (exc_principals exc) = None ->
  PolicyEngine.nonempty (exc_time_windows exc) = Some l ->
  PolicyEngine.in_windows (w_clock w (w_clock_reads w)) l = inr true ->
  PolicyEngine._is_exempted event exc w
  = (inr true, set_clock_reads (S (w_clock_reads w)) w).
Proof.
  intros Ha Hp Ht Hin. unfold PolicyEngine._is_exempted.
  rewrite Ha, Hp, Ht. unfold bind, ret. simpl.
  unfold PolicyEngine._in_exempted_time_window, bind, utcnow, lift.
  now rewrite Hin.
Qed.

(** Two enabled policies match the event of 800 USD; the plan is that of
    the one that comes first, after a disabled policy and a policy that does
    not match. *)
Lemma evaluate_first_match_witness :
  rejects_all Fixtures.event_800 [Fixtures.disabled_policy; Fixtures.high_policy]
    Fixtures.w_10h00 = Some Fixtures.w_10h00
  /\ enabled Fixtures.notify_policy = true
  /\ PolicyEngine.match_event Fixtures.event_800 Fixtures.notify_policy Fixtures.w_10h00
     = (inr true, Fixtures.w_10h00)
  /\ PolicyEngine.match_event Fixtures.event_800 Fixtures.manual_policy Fixtures.w_10h00
     = (inr true, Fixtures.w_10h00)
  /\ fst (PolicyEngine.evaluate Fixtures.event_800
            [Fixtures.disabled_policy; Fixtures.high_policy;
             Fixtures.notify_policy; Fixtures.manual_policy] Fixtures.w_10h00)
     = inr {| matched := true;
              matched_policy_id := Some "notify-100";
              plan_mode := Some DryRun;
              plan_actions := [{| action_type := NotifyOnly; deny := None |}];
              plan_ttl_minutes := Some 0;
              target_principals := [Fixtures.ci_role] |}.
Proof.
  assert (H1 : rejects_all Fixtures.event_800
                 [Fixtures.disabled_policy; Fixtures.high_policy] Fixtures.w_10h00
               = Some Fixtures.w_10h00) by reflexivity.
  assert (H2 : PolicyEngine.match_event Fixtures.event_800 Fixtures.notify_policy
                 Fixtures.w_10h00 = (inr true, Fixtures.w_10h00)) by reflexivity.
  split; [exact H1 |]. split; [reflexivity |]. split; [exact H2 |].
  split; [reflexivity |].
  pose proof (evaluate_first_match Fixtures.event_800
                [Fixtures.disabled_policy; Fixtures.high_policy]
                Fixtures.notify_policy [Fixtures.manual_policy]
                Fixtures.w_10h00 Fixtures.w_10h00 Fixtures.w_10h00
                H1 eq_refl H2) as H.
  destruct H as [H _]; [discriminate | discriminate |].
  simpl app in H. rewrite H. reflexivity.
Defined.

(** The account of the event is on the allowlist of the first policy: the
    plan is that of the policy that follows. *)
Lemma exempted_is_non_match_witness :
  exceptions Fixtures.exempting_policy
  = Some {| exc_accounts := Some ["123456789012"]; exc_principals := None;
            exc_time_windows := None |}
  /\ PolicyEngine.conditions_hold Fixtures.event_800 Fixtures.exempting_policy = true
  /\ PolicyEngine._is_exempted Fixtures.event_800
       {| exc_accounts := Some ["123456789012"]; exc_principals := None;
          exc_time_windows := None |} Fixtures.w_10h00 = (inr true, Fixtures.w_10h00)
  /\ PolicyEngine.match_event Fixtures.event_800 Fixtures.exempting_policy Fixtures.w_10h00
     = (inr false, Fixtures.w_10h00)
  /\ PolicyEngine.evaluate Fixtures.event_800
       [Fixtures.exempting_policy; Fixtures.notify_policy] Fixtures.w_10h00
     = PolicyEngine.evaluate Fixtures.event_800 [Fixtures.notify_policy] Fixtures.w_10h00.
Proof.
  destruct (exempted_is_non_match Fixtures.event_800 Fixtures.exempting_policy _
              [Fixtures.notify_policy] Fixtures.w_10h00 Fixtures.w_10h00
              eq_refl eq_refl) as (w' & Hm & Hw & He).
  rewrite (Hw eq_refl) in Hm, He.
  split; [reflexivity |]. split; [reflexivity |]. split; [reflexivity |].
  split; [exact Hm | exact He].
Defined.

(** A clock stopped at 10:00: the second call gets the readings of the
    first, and returns the same plan. *)
Lemma evaluate_deterministic_witness :
  let w := MockAWS.world MockAWS.account0 Fixtures.empty_table Fixtures.t_10h00 in
  let frozen := {| w_ext := w_ext w; w_table := w_table w;
                   w_table_fault := w_table_fault w; w_table_calls := 0;
                   w_clock := fun _ => Fixtures.t_10h00; w_clock_reads := 0;
                   w_uuid := w_uuid w; w_uuid_calls := 0 |} in
  let policies := [Fixtures.office_hours_policy; Fixtures.notify_policy] in
  let after := snd (PolicyEngine.evaluate Fixtures.event_800 policies frozen) in
  same_readings frozen after
  /\ fst (PolicyEngine.evaluate Fixtures.event_800 policies frozen)
     = fst (PolicyEngine.evaluate Fixtures.event_800 policies after).
Proof.
  intros w frozen policies after.
  assert (Hs : same_readings frozen after) by (intros k; reflexivity).
  split; [exact Hs |].
  exact (proj1 (evaluate_deterministic Fixtures.event_800 policies frozen after Hs)).
Defined.

(** The clock is an input: the office-hours policy is exempted at 10:00 and
    matches at 18:00. *)
Example evaluate_depends_on_clock :
  fst (PolicyEngine.evaluate Fixtures.event_800 [Fixtures.office_hours_policy]
         (MockAWS.world MockAWS.account0 Fixtures.empty_table Fixtures.t_10h00))
  = inr unmatched_plan
  /\ exists plan,
       fst (PolicyEngine.evaluate Fixtures.event_800 [Fixtures.office_hours_policy]
              (MockAWS.world MockAWS.account0 Fixtures.empty_table
                 (Fixtures.t_10h00 + 8 * 3600 * 1000000)))
       = inr plan /\ matched plan = true.
Proof. split; [reflexivity | eexists; split; reflexivity]. Qed.

(** ** The IAM executor *)

Ltac returns_step :=
  match goal with
  | |- returns _ (raise _) => apply returns_raise
  | |- returns _ (bind _ _) => apply returns_bind; intros ?
  | |- returns _ (try_except _ _ _) => apply returns_try_except; [| intros ?]
  | |- returns _ (if ?b then _ else _) => destruct b
  | |- returns _ (match ?x with _ => _ end) => destruct x
  end.

Section ExecutorFacts.

Context {X : Type} `{Boto X}.
Implicit Types w : World X.

Variable self : IAMExecutor.

Lemma _execute_single_action_returns action principal_arn policy_id event_id
    executed_by ttl :
  returns (outcome_of action principal_arn)
    (_execute_single_action self action principal_arn policy_id event_id
       executed_by ttl).
Proof.
  unfold _execute_single_action, outcome_of.
  repeat (first [returns_step
                | apply returns_ret; simpl; repeat split; eauto; fail]).
Qed.

Lemma deny_falsy_valid action :
  PolicyAction_valid action = true -> action_type action = AttachDenyPolicy ->
  deny_falsy (deny action) = false.
Proof.
  unfold PolicyAction_valid. intros Hv Ht. rewrite Ht in Hv.
  apply andb_prop in Hv as [_ Hv].
  destruct (deny action) as [[| d l] |]; simpl in *; congruence.
Qed.

Lemma _execute_single_action_no_raise action principal_arn policy_id event_id
    executed_by ttl :
  PolicyAction_valid action = true ->
  no_raise (_execute_single_action self action principal_arn policy_id event_id
              executed_by ttl).
Proof.
  intros Hv. unfold _execute_single_action.
  apply no_raise_bind; [apply no_raise_uuid4 | intros u].
  destruct (action_type action) eqn:Ht.
  - rewrite (deny_falsy_valid _ Hv Ht).
    apply no_raise_try_except. intros e. apply no_raise_ret.
  - apply no_raise_bind; [apply no_raise_utcnow | intros now; apply no_raise_ret].
Qed.

(** The result of a loop is as long as the list it goes through, and every
    element is what the body returns for the element at its place. *)
Lemma mapM_returns {A B} (P : A -> B -> Prop) (f : A -> M X B) l :
  (forall x, returns (P x) (f x)) -> returns (Forall2 P l) (mapM f l).
Proof.
  intros Hf. induction l as [| x l IH]; simpl.
  - apply returns_ret. constructor.
  - intros w ys. unfold bind.
    destruct (f x w) as [[e | y] w1] eqn:E1; simpl; [discriminate |].
    destruct (mapM f l w1) as [[e | ys'] w2] eqn:E2; simpl; [discriminate |].
    intros E. inversion E; subst. constructor.
    + apply (Hf x w). now rewrite E1.
    + apply (IH w1). now rewrite E2.
Qed.

Lemma outcomes_pairs action targets l :
  Forall2 (outcome_of action) targets l ->
  map (fun e => (Models.action e, target e)) l
  = map (fun p => (action_type_str (action_type action), p)) targets
  /\ Forall (fun e => status e = Executed
                      \/ (status e = Failed
                          /\ exists msg, diff e = [("error", VStr msg)])) l.
Proof.
  induction 1 as [| p e targets l (Ha & Ht & Hs) _ [IH1 IH2]]; simpl.
  - split; constructor.
  - split; [now rewrite Ha, Ht, IH1 | now constructor].
Qed.

Lemma outcomes_concat (actions : list PolicyAction) targets ls :
  Forall2 (fun a l => Forall2 (outcome_of a) targets l) actions ls ->
  map (fun e => (Models.action e, target e)) (concat ls)
  = flat_map (fun a => map (fun p => (action_type_str (action_type a), p)) targets)
      actions
  /\ Forall (fun e => status e = Executed
                      \/ (status e = Failed
                          /\ exists msg, diff e = [("error", VStr msg)]))
       (concat ls).
Proof.
  induction 1 as [| a l actions ls Ha _ [IH1 IH2]]; simpl.
  - split; constructor.
  - destruct (outcomes_pairs _ _ _ Ha) as [H1 H2].
    rewrite map_app, H1, IH1. split; [reflexivity |].
    apply Forall_app. now split.
Qed.

(** C7. On a matched plan (valid as [ActionPlan] and [PolicyAction]
    construct them) [execute_action_plan] raises nothing and returns one
    execution per pair of an action and a target principal, in the order of
    the plan, whatever the IAM client does: each execution is executed, or
    failed with the error in its diff.  An exception raised while the deny
    policy of one pair is attached is caught there: that pair's execution is
    the failed one, with [str(e)] as its error, and the loop goes on. *)
Theorem execute_action_plan_isolates_failures plan event_id executed_by w :
  matched plan = true ->
  ActionPlan_valid plan = true ->
  Forall (fun a => PolicyAction_valid a = true) (plan_actions plan) ->
  (exists executions w',
     execute_action_plan self plan event_id executed_by w = (inr executions, w')
     /\ map (fun e => (Models.action e, target e)) executions = plan_pairs plan
     /\ Forall (fun e => status e = Executed
                         \/ (status e = Failed
                             /\ exists msg, diff e = [("error", VStr msg)]))
          executions)
  /\ (forall a principal_arn policy_id ttl d ds e w1 w2,
        dry_run self = false ->
        action_type a = AttachDenyPolicy -> deny a = Some (d :: ds) ->
        _attach_deny_policy principal_arn (d :: ds) policy_id
          (set_uuid_calls (S (w_uuid_calls w1)) w1) = (inl e, w2) ->
        exists execution,
          _execute_single_action self a principal_arn policy_id event_id
            executed_by ttl w1 = (inr execution, w2)
          /\ status execution = Failed
          /\ diff execution = [("error", VStr (exn_str e))]
          /\ target execution = principal_arn).
Proof.
  intros Hm Hv Hacts. split.
  - unfold execute_action_plan. rewrite Hm. simpl.
    unfold ActionPlan_valid in Hv. rewrite Hm in Hv.
    apply andb_prop in Hv as [Hv Hne]. apply andb_prop in Hv as [Hid _].
    apply negb_true_iff in Hid. rewrite Hid. simpl.
    destruct (plan_actions plan) as [| a0 acts] eqn:Eacts; [discriminate |].
    rewrite <- Eacts in *. clear Hne.
    set (body := fun action => mapM (fun principal_arn => _ ) (target_principals plan)).
    assert (Hnr : no_raise (mapM body (plan_actions plan))).
    { clear Eacts. induction Hacts as [| a l Ha _ IH]; simpl.
      - apply no_raise_ret.
      - apply no_raise_bind.
        + apply no_raise_mapM. intros p.
          now apply _execute_single_action_no_raise.
        + intros y. apply no_raise_bind; [exact IH | intros; apply no_raise_ret]. }
    destruct (no_raise_run _ w Hnr) as (ls & w' & Els).
    exists (concat ls), w'. unfold bind. rewrite Els. simpl.
    split; [reflexivity |].
    apply outcomes_concat.
    apply (mapM_returns (fun a l => Forall2 (outcome_of a) (target_principals plan) l)
             body (plan_actions plan)) with (w := w); [| now rewrite Els].
    intros a. apply mapM_returns. intros p.
    apply _execute_single_action_returns.
  - intros a p pid ttl d ds e w1 w2 Hdry Ht Hd Hatt.
    unfold _execute_single_action, bind, uuid4, try_except. simpl.
    rewrite Ht, Hd, Hdry. simpl. rewrite Hatt. simpl.
    eexists. split; [reflexivity |]. now repeat split.
Qed.

(** C6 (amended). [rollback_execution] raises nothing.  For an execution
    whose status is not executed it returns false, calls no client and
    leaves the execution and the world untouched.  For an executed one:
    an executor in dry-run mode returns true and leaves the execution (its
    status too) and the world untouched; an executor that is not in dry-run
    mode, when it returns true, has set the status to rolled_back and
    rolled_back_at to the time. *)
Theorem rollback_execution_guard execution w :
  (exists r w', rollback_execution self execution w = (inr r, w'))
  /\ (status execution <> Executed ->
      rollback_execution self execution w = (inr (false, execution), w))
  /\ (status execution = Executed -> dry_run self = true ->
      rollback_execution self execution w = (inr (true, execution), w))
  /\ (status execution = Executed -> dry_run self = false ->
      forall execution' w',
        rollback_execution self execution w = (inr (true, execution'), w') ->
        exists now,
          execution'
          = set_rolled_back_at (Some now) (set_status RolledBack execution)).
Proof.
  split; [| split; [| split]].
  - apply no_raise_run. unfold rollback_execution.
    destruct (negb _); [apply no_raise_ret |].
    destruct (dry_run self); [apply no_raise_ret |].
    apply no_raise_try_except. intros e. apply no_raise_ret.
  - intros Hs. unfold rollback_execution.
    destruct (status execution); simpl; try reflexivity. contradiction.
  - intros Hs Hd. unfold rollback_execution. now rewrite Hs, Hd.
  - intros Hs Hd e' w'. unfold rollback_execution. rewrite Hs, Hd. simpl.
    unfold try_except, bind, ret, utcnow, any_exception.
    destruct (str_eqb (action execution) "attach_deny_policy").
    + destruct (_rollback_attach_deny_policy execution w) as [[e | []] w1]; simpl;
        intros E; inversion E; subst. now eexists.
    + destruct (str_eqb (action execution) "notify_only"); simpl;
        intros E; inversion E; subst. now eexists.
Qed.

End ExecutorFacts.

(** The first target is a role the account does not have: its execution is
    failed, and the second target is executed. *)
Lemma execute_action_plan_isolates_failures_witness :
  matched Fixtures.two_targets_plan = true
  /\ ActionPlan_valid Fixtures.two_targets_plan = true
  /\ Forall (fun a => PolicyAction_valid a = true)
       (plan_actions Fixtures.two_targets_plan)
  /\ (exists executions,
        fst (execute_action_plan Fixtures.real_executor Fixtures.two_targets_plan
               "evt-800" "system:auto" Fixtures.w_10h00) = inr executions
        /\ map (fun e => (Models.action e, target e, status e)) executions
           = [("attach_deny_policy", Fixtures.ghost_role, Failed);
              ("attach_deny_policy", Fixtures.ci_role, Executed)]).
Proof.
  assert (Hacts : Forall (fun a => PolicyAction_valid a = true)
                    (plan_actions Fixtures.two_targets_plan))
    by (repeat constructor).
  split; [reflexivity |]. split; [reflexivity |]. split; [exact Hacts |].
  destruct (execute_action_plan_isolates_failures Fixtures.real_executor
              Fixtures.two_targets_plan "evt-800" "system:auto" Fixtures.w_10h00
              eq_refl eq_refl Hacts) as [(executions & w' & Hrun & _) _].
  exists executions. rewrite Hrun. split; [reflexivity |].
  assert (E : fst (execute_action_plan Fixtures.real_executor Fixtures.two_targets_plan
                     "evt-800" "system:auto" Fixtures.w_10h00) = inr executions)
    by now rewrite Hrun.
  vm_compute in E. inversion E. reflexivity.
Defined.

(** An executor in dry-run mode reports the rollback of an executed
    execution as done and leaves its status executed: it is not so that a
    rollback that returns true has always set the status to rolled_back. *)
Lemma rollback_execution_dry_run_counterexample :
  ~ (forall (self : IAMExecutor) (e e' : ActionExecution)
            (w w' : World MockAWS.State),
       status e = Executed ->
       rollback_execution self e w = (inr (true, e'), w') ->
       status e' = RolledBack).
Proof.
  intros Hclaim.
  specialize (Hclaim Fixtures.dry_executor Fixtures.executed_notify
                Fixtures.executed_notify Fixtures.w_10h00 Fixtures.w_10h00
                eq_refl eq_refl).
  discriminate Hclaim.
Qed.

Lemma rollback_execution_guard_witness :
  (status Fixtures.planned_notify <> Executed
   /\ rollback_execution Fixtures.real_executor Fixtures.planned_notify Fixtures.w_10h00
      = (inr (false, Fixtures.planned_notify), Fixtures.w_10h00))
  /\ (status Fixtures.executed_notify = Executed
      /\ dry_run Fixtures.real_executor = false
      /\ exists execution' w',
           rollback_execution Fixtures.real_executor Fixtures.executed_notify
             Fixtures.w_10h00 = (inr (true, execution'), w')
           /\ status execution' = RolledBack).
Proof.
  assert (Hp : status Fixtures.planned_notify <> Executed) by discriminate.
  split.
  - split; [exact Hp |].
    exact (proj1 (proj2 (rollback_execution_guard Fixtures.real_executor
                           Fixtures.planned_notify Fixtures.w_10h00)) Hp).
  - split; [reflexivity |]. split; [reflexivity |].
    destruct (rollback_execution_guard Fixtures.real_executor Fixtures.executed_notify
                Fixtures.w_10h00) as (_ & _ & _ & Hr).
    eexists _, _. split; [reflexivity |].
    destruct (Hr eq_refl eq_refl _ _ eq_refl) as [now Hnow].
    now rewrite Hnow.
Defined.

(** ** The TTL cleanup *)

Lemma returns_bind_post {X A B} (Q : A -> Prop) (P : B -> Prop)
    (m : M X A) (k : A -> M X B) :
  returns Q m -> (forall a, Q a -> returns P (k a)) -> returns P (bind m k).
Proof.
  intros Hm Hk w b. unfold bind. specialize (Hm w).
  destruct (m w) as [[e | a] w']; simpl in *; [discriminate |].
  apply Hk. now apply Hm.
Qed.

Lemma returns_weaken {X A} (P Q : A -> Prop) (m : M X A) :
  returns P m -> (forall a, P a -> Q a) -> returns Q m.
Proof. intros Hm HPQ w a E. apply HPQ. now apply (Hm w). Qed.

Lemma no_raise_call_caught {X A} (op : X -> Result A * X) :
  no_raise (try_except (call op ;;; ret tt) any_exception (fun _ => ret tt)).
Proof. apply no_raise_try_except. intros e. apply no_raise_ret. Qed.

Section CleanupFacts.

Context {X : Type} `{Boto X}.
Implicit Types w : World X.

Variable self : TTLCleanup.TTLCleanupHandler.

Lemma _rollback_execution_returns execution :
  returns outcome_string (TTLCleanup._rollback_execution self execution).
Proof.
  unfold TTLCleanup._rollback_execution, outcome_string.
  repeat (first [returns_step | apply returns_ret; auto; fail]).
Qed.


Lemma process_returns l c n :
  counted n c ->
  returns (counted (n + Z.of_nat (length l))) (TTLCleanup.process self l c).
Proof.
  revert c n. induction l as [| execution rest IH]; intros [[[rb f] s] errs] n Hc.
  - simpl. apply returns_ret. simpl in *. lia.
  - cbn [TTLCleanup.process].
    apply returns_bind_post with (Q := counted (n + 1)).
    + apply returns_try_except.
      * apply returns_bind_post with (Q := outcome_string).
        -- apply _rollback_execution_returns.
        -- intros r [-> | [-> | ->]]; simpl; apply returns_ret; simpl in *; lia.
      * intros e. apply returns_ret. simpl in *. lia.
    + intros c' Hc'.
      replace (n + Z.of_nat (length (execution :: rest)))
        with (n + 1 + Z.of_nat (length rest)) by (simpl length; lia).
      now apply IH.
Qed.


Lemma slice_to_length {A} (n : Z) (l : list A) :
  0 <= n -> Z.of_nat (length (TTLCleanup.slice_to n l)) <= n.
Proof.
  intros Hn. unfold TTLCleanup.slice_to.
  destruct (Z.leb_spec 0 n); [| lia].
  rewrite length_firstn. lia.
Qed.

Lemma cleanup_no_raise : no_raise (TTLCleanup.cleanup_expired_executions self).
Proof.
  unfold TTLCleanup.cleanup_expired_executions.
  apply no_raise_try_except. intros e. apply no_raise_ret.
Qed.

Lemma cleanup_returns :
  returns (fun r => balanced r
                    /\ (0 <= TTLCleanup.batch_size self ->
                        TTLCleanup.total_found r <= TTLCleanup.batch_size self))
    (TTLCleanup.cleanup_expired_executions self).
Proof.
  unfold TTLCleanup.cleanup_expired_executions.
  apply returns_try_except.
  - apply returns_bind. intros now. apply returns_bind. intros expired.
    destruct expired as [| e0 expired].
    + apply returns_ret. unfold balanced. simpl. split; [reflexivity | auto].
    + set (l := e0 :: expired).
      assert (Hcap : forall capped : list ActionExecution,
                 capped = (if TTLCleanup.batch_size self <? Z.of_nat (length l)
                           then TTLCleanup.slice_to (TTLCleanup.batch_size self) l
                           else l) ->
                 0 <= TTLCleanup.batch_size self ->
                 Z.of_nat (length capped) <= TTLCleanup.batch_size self).
      { intros capped -> Hb.
        destruct (Z.ltb_spec (TTLCleanup.batch_size self) (Z.of_nat (length l))).
        - now apply slice_to_length.
        - lia. }
      specialize (Hcap _ eq_refl). revert Hcap.
      generalize (if TTLCleanup.batch_size self <? Z.of_nat (length l)
                  then TTLCleanup.slice_to (TTLCleanup.batch_size self) l
                  else l).
      intros capped Hcap.
      apply returns_bind_post with (Q := counted (0 + Z.of_nat (length capped))).
      * apply process_returns. reflexivity.
      * intros [[[rb f] s] errs] Hc. apply returns_bind. intros _.
        apply returns_ret. unfold balanced. simpl in *. split; [lia | exact Hcap].
  - intros e. apply returns_ret. unfold balanced. simpl. split; [reflexivity | auto].
Qed.

(** C10. [cleanup_expired_executions] raises nothing, and in its result
    rolled_back + failed + skipped = total_found: every candidate adds one
    to exactly one of the three counters (and a run whose query fails
    reports four zeros).  total_found is the length of the list after the
    cap, so it does not exceed batch_size (a number of executions, not
    negative). *)
Theorem cleanup_counts_add_up w :
  0 <= TTLCleanup.batch_size self ->
  exists r w',
    TTLCleanup.cleanup_expired_executions self w = (inr r, w')
    /\ TTLCleanup.rolled_back r + TTLCleanup.failed r + TTLCleanup.skipped r
       = TTLCleanup.total_found r
    /\ TTLCleanup.total_found r <= TTLCleanup.batch_size self.
Proof.
  intros Hb.
  destruct (no_raise_run _ w cleanup_no_raise) as (r & w' & E).
  exists r, w'. split; [exact E |].
  destruct (cleanup_returns w r) as [Hbal Hcap]; [now rewrite E |].
  split; [exact Hbal | now apply Hcap].
Qed.

End CleanupFacts.

(** ** Two runs of the cleanup *)

Section CleanupTwice.

Context {X : Type} `{Boto X}.
Implicit Types w : World X.

Lemma _rollback_attach_deny_policy_preserves execution :
  preserves (@store_of X) (_rollback_attach_deny_policy execution).
Proof.
  unfold _rollback_attach_deny_policy, str_param.
  repeat preserves_step.
Qed.

Lemma rollback_execution_preserves executor execution :
  preserves (@store_of X) (rollback_execution executor execution).
Proof.
  unfold rollback_execution.
  repeat (first [apply _rollback_attach_deny_policy_preserves | preserves_step]).
Qed.

Lemma rollback_execution_keeps_id executor execution :
  returns (fun r => execution_id (snd r) = execution_id execution)
    (rollback_execution executor execution).
Proof.
  unfold rollback_execution.
  repeat (first [returns_step | apply returns_ret; reflexivity]).
Qed.


(** A write to a table with no fault pending. *)
Lemma update_execution_ok execution w :
  no_table_fault w ->
  update_execution execution w
  = (inr true,
     set_table (<[execution_id execution := execution]> (w_table w))
       (set_table_calls (S (w_table_calls w)) w)).
Proof.
  intros Hnf. unfold update_execution, put_item, try_except, bind, table_call.
  now rewrite Hnf.
Qed.

Lemma store_env w w' : store_of w' = store_of w -> env_of w' = env_of w.
Proof. unfold store_of, env_of. intros E. now inversion E. Qed.

Lemma no_table_fault_env w w' :
  env_of w' = env_of w -> no_table_fault w -> no_table_fault w'.
Proof. unfold env_of, no_table_fault. intros E Hnf n. inversion E as [[E1 E2 E3]]. now rewrite E1. Qed.




Variable self : TTLCleanup.TTLCleanupHandler.








End CleanupTwice.

(** A property of every entry of a concrete table, entry by entry. *)
Ltac table_entries :=
  apply map_Forall_to_list;
  match goal with
  | |- Forall _ (map_to_list ?t) =>
      let l := eval vm_compute in (map_to_list t) in
      change (map_to_list t) with l
  end;
  repeat (constructor; [unfold uncurry; vm_compute; try (intros _); reflexivity |]);
  constructor.

(** Two executions have expired and the batch holds one: the first run
    rolls one back and the second run finds the other, so the second run is
    not always a no-op. *)
Lemma cleanup_twice_batch_counterexample :
  ~ (forall (self : TTLCleanup.TTLCleanupHandler) (w : World MockAWS.State),
       let w1 := snd (TTLCleanup.cleanup_expired_executions self w) in
       no_new_expiration (w_table w) (w_clock w (w_clock_reads w))
         (w_clock w1 (w_clock_reads w1)) ->
       forall r2, fst (TTLCleanup.cleanup_expired_executions self w1) = inr r2 ->
                  TTLCleanup.total_found r2 = 0 /\ TTLCleanup.rolled_back r2 = 0).
Proof.
  intros Hclaim.
  specialize (Hclaim (Fixtures.cleanup_handler 1) Fixtures.w_14h00).
  cbv zeta in Hclaim.
  assert (Hnew : no_new_expiration (w_table Fixtures.w_14h00)
                   (w_clock Fixtures.w_14h00 (w_clock_reads Fixtures.w_14h00))
                   (w_clock (snd (TTLCleanup.cleanup_expired_executions
                                    (Fixtures.cleanup_handler 1) Fixtures.w_14h00))
                      (w_clock_reads
                         (snd (TTLCleanup.cleanup_expired_executions
                                 (Fixtures.cleanup_handler 1) Fixtures.w_14h00))))).
  { table_entries. }
  destruct (Hclaim Hnew
              {| TTLCleanup.total_found := 1; TTLCleanup.rolled_back := 1;
                 TTLCleanup.failed := 0; TTLCleanup.skipped := 0;
                 TTLCleanup.errors := [] |}) as [H0 _].
  - vm_compute. reflexivity.
  - discriminate H0.
Qed.


(** ** The approval webhook *)

Section ApprovalFacts.

Context {X : Type} `{Boto X}.
Implicit Types w : World X.

Variable fromisoformat : string -> Result parsed.
Variable self : ApprovalWebhook.ApprovalWebhookHandler.

(** C2 (amended). [_is_expired] answers true when the age of the timestamp
    is greater than the window, and false when it is at most the window: a
    timestamp whose age is exactly the window is not expired (the link is
    valid while age <= timeout).  A timestamp that does not parse is
    expired. *)
Theorem _is_expired_window timestamp w :
  let now := w_clock w (w_clock_reads w) in
  let window := timedelta_hours (ApprovalWebhook.approval_timeout_hours self) in
  (forall t, fromisoformat (replace_Z timestamp) = inr (Naive t) ->
             now - t <= window ->
             fst (ApprovalWebhook._is_expired fromisoformat self timestamp w) = inr false)
  /\ (forall t, fromisoformat (replace_Z timestamp) = inr (Naive t) ->
                window < now - t ->
                fst (ApprovalWebhook._is_expired fromisoformat self timestamp w) = inr true)
  /\ (forall msg, fromisoformat (replace_Z timestamp) = inl (ValueError msg) ->
                  ApprovalWebhook._is_expired fromisoformat self timestamp w
                  = (inr true, w)).
Proof.
  intros now window. unfold ApprovalWebhook._is_expired, try_except, bind, lift.
  split; [| split].
  - intros t -> Hle. simpl. f_equal. apply Z.ltb_ge. exact Hle.
  - intros t -> Hlt. simpl. f_equal. apply Z.ltb_lt. exact Hlt.
  - intros msg ->. reflexivity.
Qed.

End ApprovalFacts.

(** A link issued at 10:00 and used at 11:00 sharp, with a window of one
    hour: its age is the window, and it is not expired. *)
Lemma _is_expired_boundary_counterexample :
  ~ (forall (self : ApprovalWebhook.ApprovalWebhookHandler) (timestamp : string)
            (w : World MockAWS.State) (t : datetime),
       iso_parse (replace_Z timestamp) = inr (Naive t) ->
       w_clock w (w_clock_reads w) - t
       = timedelta_hours (ApprovalWebhook.approval_timeout_hours self) ->
       fst (ApprovalWebhook._is_expired iso_parse self timestamp w) = inr true).
Proof.
  intros Hclaim.
  specialize (Hclaim Fixtures.approval_handler Fixtures.link_timestamp
                Fixtures.w_11h00 Fixtures.t_10h00 eq_refl eq_refl).
  vm_compute in Hclaim. discriminate Hclaim.
Qed.

Lemma _is_expired_window_witness :
  iso_parse (replace_Z Fixtures.link_timestamp) = inr (Naive Fixtures.t_10h00)
  /\ w_clock Fixtures.w_11h00 (w_clock_reads Fixtures.w_11h00) - Fixtures.t_10h00
     <= timedelta_hours (ApprovalWebhook.approval_timeout_hours Fixtures.approval_handler)
  /\ fst (ApprovalWebhook._is_expired iso_parse Fixtures.approval_handler
            Fixtures.link_timestamp Fixtures.w_11h00) = inr false
  /\ iso_parse (replace_Z "invalid-timestamp")
     = inl (ValueError "Invalid isoformat string: invalid-timestamp")
  /\ ApprovalWebhook._is_expired iso_parse Fixtures.approval_handler
       "invalid-timestamp" Fixtures.w_11h00 = (inr true, Fixtures.w_11h00).
Proof.
  assert (Hle : w_clock Fixtures.w_11h00 (w_clock_reads Fixtures.w_11h00)
                - Fixtures.t_10h00
                <= timedelta_hours
                     (ApprovalWebhook.approval_timeout_hours Fixtures.approval_handler))
    by (vm_compute; discriminate).
  split; [reflexivity |]. split; [exact Hle |]. split.
  - exact (proj1 (_is_expired_window iso_parse Fixtures.approval_handler
                    Fixtures.link_timestamp Fixtures.w_11h00)
             Fixtures.t_10h00 eq_refl Hle).
  - split; [reflexivity |].
    exact (proj2 (proj2 (_is_expired_window iso_parse Fixtures.approval_handler
                           "invalid-timestamp" Fixtures.w_11h00)) _ eq_refl).
Defined.

(** C1. The scenario of the manual policy (ttl_minutes = 180): the event of
    800 USD gives a planned execution with would_deny; a valid approval ten
    minutes later answers 200, and the stored execution is executed with
    its before and after lists, but its ttl_expires_at is not set: the
    approval handler builds its plan with ttl_minutes = 0. *)
Theorem approval_leaves_ttl_unset :
  matched Fixtures.manual_plan = true
  /\ plan_mode Fixtures.manual_plan = Some Manual
  /\ plan_ttl_minutes Fixtures.manual_plan = Some 180
  /\ option_map (fun e => (status e, Models.action e, dict_get "would_deny" (diff e)))
       (w_table Fixtures.w_planned !! "exec-u0")
     = Some (Planned, "attach_deny_policy", Some (str_list ["ec2:RunInstances"]))
  /\ (match fst (ApprovalWebhook.handle_approval iso_parse Fixtures.approval_handler
                   "exec-u0" Fixtures.link_signature Fixtures.link_timestamp "bob"
                   Fixtures.w_approval) with
      | inr response => ApprovalWebhook.statusCode response
      | inl _ => 0
      end) = 200
  /\ option_map
       (fun e => (status e, executed_by e, dict_get "before" (diff e),
                  dict_get "after" (diff e), ttl_expires_at e))
       (w_table (snd (ApprovalWebhook.handle_approval iso_parse
                        Fixtures.approval_handler "exec-u0" Fixtures.link_signature
                        Fixtures.link_timestamp "bob" Fixtures.w_approval))
        !! "exec-u0")
     = Some (Executed, "user:bob", Some (VList []),
             Some (VList [VStr "arn:aws:iam::123456789012:policy/guardrails-deny-ci-ec2-spike-8f7d5671"]),
             None).
Proof.
  split; [reflexivity |]. split; [reflexivity |]. split; [reflexivity |].
  split; [vm_compute; reflexivity |].
  split; [vm_compute; reflexivity |].
  vm_compute; reflexivity.
Qed.

(** ** Signatures *)

Lemma code_chr z : 0 <= z < 256 -> code (chr z) = z.
Proof.
  intros Hz. unfold code, chr.
  rewrite N_ascii_embedding by lia. lia.
Qed.

Lemma hex_digit_ascii z : 0 <= z < 16 -> code (hex_digit z) < 128.
Proof.
  intros Hz. unfold hex_digit.
  destruct (z <? 10) eqn:E.
  - apply Z.ltb_lt in E. rewrite code_chr; lia.
  - apply Z.ltb_ge in E. rewrite code_chr; lia.
Qed.

Lemma be_bytes_range n x : Forall (fun b => 0 <= b < 256) (Hashlib.be_bytes n x).
Proof.
  revert x. induction n as [| n IH]; intros x; simpl.
  - constructor.
  - apply Forall_app. split; [apply IH |].
    constructor; [| constructor].
    change 255 with (Z.ones 8). rewrite Z.land_ones by lia.
    apply Z.mod_pos_bound. lia.
Qed.

Lemma sha256_range msg : Forall (fun b => 0 <= b < 256) (Hashlib.sha256 msg).
Proof.
  unfold Hashlib.sha256.
  destruct (Hashlib.blocks _ _ _) as [[[[[[[a b] c] d] e] f] g] h].
  apply List.Forall_forall. intros x Hin.
  apply in_flat_map in Hin as (r & _ & Hx).
  exact (proj1 (List.Forall_forall _ _) (be_bytes_range 4 r) x Hx).
Qed.

Lemma hex_ascii bs :
  Forall (fun b => 0 <= b < 256) bs -> ApprovalWebhook.is_ascii (Hashlib.hex bs) = true.
Proof.
  induction 1 as [| b bs Hb _ IH]; simpl; [reflexivity |].
  rewrite IH, andb_true_r.
  apply andb_true_intro. split; apply Z.ltb_lt, hex_digit_ascii.
  - rewrite Z.shiftr_div_pow2 by lia. change (2 ^ 4) with 16.
    split; [apply Z.div_pos; lia | apply Z.div_lt_upper_bound; lia].
  - change 15 with (Z.ones 4). rewrite Z.land_ones by lia.
    apply Z.mod_pos_bound. lia.
Qed.

Lemma _generate_signature_ascii self execution_id timestamp :
  ApprovalWebhook.is_ascii
    (ApprovalWebhook._generate_signature self execution_id timestamp) = true.
Proof.
  unfold ApprovalWebhook._generate_signature, Hashlib.hmac_sha256_hexdigest.
  apply hex_ascii, sha256_range.
Qed.

(** The signature [_generate_signature] makes for an execution id and a
    timestamp is accepted by [_verify_signature] for that id and timestamp,
    whatever the secret: the comparison does not raise (the digest is
    ASCII) and answers true. *)
Theorem signature_round_trip self execution_id timestamp :
  ApprovalWebhook._verify_signature self execution_id timestamp
    (ApprovalWebhook._generate_signature self execution_id timestamp) = inr true.
Proof.
  unfold ApprovalWebhook._verify_signature, ApprovalWebhook.compare_digest.
  rewrite _generate_signature_ascii. simpl. f_equal. apply String.eqb_refl.
Qed.

(** X2. An ASCII signature other than the expected one is refused, and a
    signature that is not ASCII makes the comparison raise a TypeError. *)
Theorem signature_mismatch self execution_id timestamp signature :
  signature <> ApprovalWebhook._generate_signature self execution_id timestamp ->
  ApprovalWebhook._verify_signature self execution_id timestamp signature
  = if ApprovalWebhook.is_ascii signature then inr false
    else inl (TypeError "comparing strings with non-ASCII characters is not supported").
Proof.
  intros Hne. unfold ApprovalWebhook._verify_signature, ApprovalWebhook.compare_digest.
  rewrite _generate_signature_ascii. simpl.
  destruct (ApprovalWebhook.is_ascii signature); [| reflexivity].
  f_equal. unfold str_eqb. apply String.eqb_neq. congruence.
Qed.

Section LinkFacts.

Context {X : Type} `{Boto X}.
Implicit Types w : World X.

(** X1. The link [generate_approval_url] issues: its timestamp is the ISO text
    of the clock reading, its signature passes [_verify_signature] for the
    execution id and that timestamp, and the URL carries the three. *)
Theorem generate_approval_url_verifies self execution_id base_url w :
  exists link,
    ApprovalLink.generate_approval_url self execution_id base_url w
    = (inr link, set_clock_reads (S (w_clock_reads w)) w)
    /\ ApprovalLink.timestamp link = isoformat (w_clock w (w_clock_reads w))
    /\ ApprovalWebhook._verify_signature self execution_id
         (ApprovalLink.timestamp link) (ApprovalLink.signature link) = inr true
    /\ ApprovalLink.url link
       = base_url +:+ "/approve?id=" +:+ execution_id +:+ "&sig="
         +:+ ApprovalLink.signature link +:+ "&ts=" +:+ ApprovalLink.timestamp link.
Proof.
  eexists. split; [reflexivity |]. simpl.
  split; [reflexivity |]. split; [apply signature_round_trip | reflexivity].
Qed.

End LinkFacts.

(** ** What an execution made by the executor records *)

Section ExecutionRecord.

Context {X : Type} `{Boto X}.
Implicit Types w : World X.

Variable self : IAMExecutor.

(** The fields of the execution [_execute_single_action] returns. *)
Lemma _execute_single_action_fields action principal_arn policy_id event_id
    executed_by ttl :
  returns (fun e =>
             Models.action e = action_type_str (action_type action)
             /\ target e = principal_arn
             /\ exec_policy_id e = policy_id
             /\ exec_event_id e = event_id
             /\ Models.executed_by e = executed_by
             /\ rolled_back_at e = None
             /\ (status e = Executed \/ status e = Failed))
    (_execute_single_action self action principal_arn policy_id event_id
       executed_by ttl).
Proof.
  unfold _execute_single_action.
  repeat (first [returns_step
                | apply returns_ret; simpl; repeat split; auto; fail]).
Qed.

(** A plan with no TTL, or one that is not positive, leaves
    ttl_expires_at unset. *)
Lemma _execute_single_action_no_ttl action principal_arn policy_id event_id
    executed_by ttl w execution w' :
  _execute_single_action self action principal_arn policy_id event_id
    executed_by ttl w = (inr execution, w') ->
  (ttl = None \/ exists t, ttl = Some t /\ t <= 0) ->
  ttl_expires_at execution = None.
Proof.
  intros E Httl.
  assert (Hcond : match ttl with
                  | Some t => negb (t =? 0) && (0 <? t)
                  | None => false
                  end = false).
  { destruct Httl as [-> | (t & -> & Hle)]; [reflexivity |].
    destruct (Z.ltb_spec 0 t); [lia | apply andb_false_r]. }
  revert E.
  unfold _execute_single_action, bind, uuid4, try_except, utcnow, ret, raise.
  destruct (action_type action).
  - destruct (deny_falsy (deny action)); [discriminate |].
    destruct (dry_run self).
    + simpl. intros E. now inversion E.
    + destruct (_attach_deny_policy _ _ _ _) as [[e | result] w1]; simpl.
      * intros E. now inversion E.
      * destruct ttl as [t |]; [rewrite Hcond |]; simpl; intros E; now inversion E.
  - simpl. intros E. now inversion E.
Qed.

(** X8. The TTL of an execution.  [ttl_expires_at] is set only on an executed
    attach_deny_policy made by an executor that is not in dry-run mode,
    for a plan whose ttl_minutes is positive; and then it is set: it is a
    reading of the clock plus ttl_minutes minutes.  A failed execution, a
    notify_only one, a dry run and a plan with ttl_minutes 0 or None leave
    it unset. *)
Theorem _execute_single_action_ttl action principal_arn policy_id event_id
    executed_by ttl w execution w' :
  _execute_single_action self action principal_arn policy_id event_id
    executed_by ttl w = (inr execution, w') ->
  (ttl_expires_at execution <> None ->
   status execution = Executed /\ dry_run self = false
   /\ action_type action = AttachDenyPolicy
   /\ exists t, ttl = Some t /\ 0 < t)
  /\ (status execution = Executed -> dry_run self = false ->
      action_type action = AttachDenyPolicy ->
      forall t, ttl = Some t -> 0 < t ->
      ttl_expires_at execution
      = Some (w_clock w' (pred (w_clock_reads w')) + timedelta_minutes t)
      /\ executed_at execution = Some (w_clock w' (pred (pred (w_clock_reads w')))))
  /\ ((ttl = None \/ exists t, ttl = Some t /\ t <= 0) ->
      ttl_expires_at execution = None).
Proof.
  unfold _execute_single_action, bind, uuid4, try_except, utcnow, ret, raise.
  destruct (action_type action) eqn:Ht.
  - destruct (deny_falsy (deny action)); [discriminate |].
    destruct (dry_run self) eqn:Hd.
    + simpl. intros E. inversion E; subst. simpl.
      split; [congruence |]. split; [discriminate |]. reflexivity.
    + destruct (_attach_deny_policy _ _ _ _) as [[e | result] w1]; simpl.
      * intros E. inversion E; subst. simpl.
        split; [congruence |]. split; [discriminate |]. reflexivity.
      * destruct ttl as [t |].
        -- destruct (Z.eqb_spec t 0) as [-> | Hne]; simpl.
           ++ intros E. inversion E; subst. simpl.
              split; [congruence |].
              split; [intros _ _ _ t' Et' Hp; inversion Et'; subst; lia |].
              reflexivity.
           ++ destruct (Z.ltb_spec 0 t) as [Hpos | Hneg]; simpl.
              ** intros E. inversion E; subst. simpl.
                 split; [intros _; repeat split; eauto |].
                 split.
                 --- intros _ _ _ t' Et' _. inversion Et'; subst. now split.
                 --- intros [Hn | (t' & Et' & Hle)]; [discriminate |].
                     inversion Et'; subst. lia.
              ** intros E. inversion E; subst. simpl.
                 split; [congruence |].
                 split; [intros _ _ _ t' Et' Hp; inversion Et'; subst; lia |].
                 reflexivity.
        -- intros E. inversion E; subst. simpl.
           split; [congruence |]. split; [discriminate |]. reflexivity.
  - simpl. intros E. inversion E; subst. simpl.
    split; [congruence |]. split; [discriminate |]. reflexivity.
Qed.

End ExecutionRecord.

(** An attach over the role of the account with ttl_minutes = 180: the
    execution expires 180 minutes after the last reading of the clock. *)
Lemma _execute_single_action_ttl_witness :
  exists execution w',
    _execute_single_action Fixtures.real_executor
      {| action_type := AttachDenyPolicy; deny := Some ["ec2:RunInstances"] |}
      Fixtures.ci_role "ci-ec2-spike" "evt-800" "system:auto" (Some 180)
      Fixtures.w_10h00 = (inr execution, w')
    /\ status execution = Executed
    /\ 0 < 180
    /\ ttl_expires_at execution
       = Some (w_clock w' (pred (w_clock_reads w')) + timedelta_minutes 180).
Proof.
  destruct (_execute_single_action Fixtures.real_executor
              {| action_type := AttachDenyPolicy; deny := Some ["ec2:RunInstances"] |}
              Fixtures.ci_role "ci-ec2-spike" "evt-800" "system:auto" (Some 180)
              Fixtures.w_10h00) as [[e | execution] w'] eqn:E.
  - assert (Hok : match fst (_execute_single_action Fixtures.real_executor
                               {| action_type := AttachDenyPolicy;
                                  deny := Some ["ec2:RunInstances"] |}
                               Fixtures.ci_role "ci-ec2-spike" "evt-800" "system:auto"
                               (Some 180) Fixtures.w_10h00) with
                  | inr _ => true
                  | inl _ => false
                  end = true) by (vm_compute; reflexivity).
    rewrite E in Hok. discriminate Hok.
  - assert (Hst : match fst (_execute_single_action Fixtures.real_executor
                               {| action_type := AttachDenyPolicy;
                                  deny := Some ["ec2:RunInstances"] |}
                               Fixtures.ci_role "ci-ec2-spike" "evt-800" "system:auto"
                               (Some 180) Fixtures.w_10h00) with
                  | inr x => status x
                  | inl _ => Failed
                  end = Executed) by (vm_compute; reflexivity).
    rewrite E in Hst. simpl in Hst.
    exists execution, w'. split; [reflexivity |]. split; [exact Hst |].
    split; [lia |].
    destruct (_execute_single_action_ttl Fixtures.real_executor _ _ _ _ _ _ _ _ _ E)
      as (_ & Hset & _).
    exact (proj1 (Hset Hst eq_refl eq_refl 180 eq_refl ltac:(lia))).
Defined.

(** ** The gates of the approval handler *)

Section MonadInversion.

Context {X : Type}.
Implicit Types w : World X.

Lemma bind_inv {A B} (m : M X A) (k : A -> M X B) w b w' :
  bind m k w = (inr b, w') ->
  exists a w1, m w = (inr a, w1) /\ k a w1 = (inr b, w').
Proof.
  unfold bind. destruct (m w) as [[e | a] w1]; [discriminate |].
  intros E. now exists a, w1.
Qed.

Lemma try_except_inv {A} (m : M X A) c h w a w' :
  try_except m c h w = (inr a, w') ->
  m w = (inr a, w')
  \/ exists e w1, m w = (inl e, w1) /\ c e = true /\ h e w1 = (inr a, w').
Proof.
  unfold try_except. destruct (m w) as [[e | a'] w1].
  - destruct (c e) eqn:Hc; [| discriminate]. intros E. right. now exists e, w1.
  - intros E. now left.
Qed.

Lemma lift_inv {A} (r : Result A) w a w' :
  lift r w = (inr a, w') -> r = inr a /\ w' = w.
Proof. unfold lift. intros E. now inversion E. Qed.

Lemma ret_inv {A} (x : A) w a w' :
  ret x w = (inr a, w') -> a = x /\ w' = w.
Proof. unfold ret. intros E. now inversion E. Qed.

End MonadInversion.

Section ApprovalGates.

Context {X : Type} `{Boto X}.
Implicit Types w : World X.

Variable fromisoformat : string -> Result parsed.
Variable self : ApprovalWebhook.ApprovalWebhookHandler.

Lemma _is_expired_preserves timestamp :
  preserves (@but_clock_reads X)
    (ApprovalWebhook._is_expired fromisoformat self timestamp).
Proof.
  unfold ApprovalWebhook._is_expired. repeat preserves_step.
Qed.

Lemma get_execution_run execution_id w :
  get_execution execution_id w
  = let w1 := set_table_calls (S (w_table_calls w)) w in
    match w_table_fault w (w_table_calls w) with
    | Some e => if is_ClientError e then (inr None, w1) else (inl e, w1)
    | None => (inr (w_table w !! execution_id), set_table (w_table w) w1)
    end.
Proof.
  unfold get_execution, try_except, table_call.
  destruct (w_table_fault w (w_table_calls w)) as [e |]; [| reflexivity].
  now destruct (is_ClientError e).
Qed.

Lemma get_execution_preserves execution_id :
  preserves (fun w : World X => (w_ext w, w_table w, w_table_fault w, w_clock w))
    (get_execution execution_id).
Proof.
  intros w. rewrite get_execution_run. simpl.
  destruct (w_table_fault w (w_table_calls w)) as [e |]; [| reflexivity].
  now destruct (is_ClientError e).
Qed.

(** X3. A request the handler refuses (with a code other than 200 and 500)
    changes nothing: no IAM or Slack call is made and the audit table is as
    it was.  The refusals are 403 (signature), 410 (expired), 404 (no such
    execution) and 409 (not planned any more). *)
Theorem handle_approval_refusal_touches_nothing execution_id signature timestamp
    user w response w' :
  ApprovalWebhook.handle_approval fromisoformat self execution_id signature
    timestamp user w = (inr response, w') ->
  ApprovalWebhook.statusCode response <> 200 ->
  ApprovalWebhook.statusCode response <> 500 ->
  w_ext w' = w_ext w /\ w_table w' = w_table w
  /\ In (ApprovalWebhook.statusCode response) [403; 410; 404; 409].
Proof.
  intros Hrun H200 H500. unfold ApprovalWebhook.handle_approval in Hrun.
  apply bind_inv in Hrun as (valid & w0 & Hv & Hrun).
  apply lift_inv in Hv as [Hv ->].
  destruct valid; simpl in Hrun.
  2:{ apply ret_inv in Hrun as [-> ->]. simpl. auto. }
  apply bind_inv in Hrun as (expired & w1 & Hexp & Hrun).
  pose proof (_is_expired_preserves timestamp w) as Hp1. rewrite Hexp in Hp1.
  simpl in Hp1. unfold but_clock_reads in Hp1.
  assert (Hext1 : w_ext w1 = w_ext w) by now inversion Hp1.
  assert (Htab1 : w_table w1 = w_table w) by now inversion Hp1.
  destruct expired.
  { apply ret_inv in Hrun as [-> ->]. simpl. auto 6. }
  apply bind_inv in Hrun as (found & w2 & Hget & Hrun).
  pose proof (get_execution_preserves execution_id w1) as Hp2. rewrite Hget in Hp2.
  simpl in Hp2.
  assert (Hext2 : w_ext w2 = w_ext w) by (rewrite <- Hext1; now inversion Hp2).
  assert (Htab2 : w_table w2 = w_table w) by (rewrite <- Htab1; now inversion Hp2).
  destruct found as [execution |].
  2:{ apply ret_inv in Hrun as [-> ->]. simpl. auto 8. }
  destruct (negb (status_eqb (status execution) Planned)).
  { apply ret_inv in Hrun as [-> ->]. simpl. auto 8. }
  exfalso.
  assert (Hcodes : ApprovalWebhook.statusCode response = 200
                   \/ ApprovalWebhook.statusCode response = 500).
  { revert Hrun.
    match goal with
    | |- ?m w2 = _ -> _ =>
        assert (Hr : returns (fun r : ApprovalWebhook.Response =>
                                ApprovalWebhook.statusCode r = 200
                                \/ ApprovalWebhook.statusCode r = 500) m)
    end.
    { repeat (first [returns_step | apply returns_ret; simpl; auto; fail]). }
    intros Hrun. apply (Hr w2). now rewrite Hrun. }
  destruct Hcodes; contradiction.
Qed.

(** X4. The existence and idempotency gates.  For a request with a valid
    signature and a fresh timestamp, read from a table that answers: when
    no execution has the id the answer is 404; when the execution is not
    planned any more (executed, failed, rolled back, approved) the answer is
    409 with its status; either way no IAM or Slack call is made and the
    table is as it was. *)
Theorem handle_approval_not_planned execution_id signature timestamp user w :
  ApprovalWebhook._verify_signature self execution_id timestamp signature = inr true ->
  fst (ApprovalWebhook._is_expired fromisoformat self timestamp w) = inr false ->
  w_table_fault w (w_table_calls w) = None ->
  (w_table w !! execution_id = None ->
   exists w',
     ApprovalWebhook.handle_approval fromisoformat self execution_id signature
       timestamp user w
     = (inr {| ApprovalWebhook.statusCode := 404;
               ApprovalWebhook.body := "Execution not found" |}, w')
     /\ w_ext w' = w_ext w /\ w_table w' = w_table w)
  /\ (forall execution,
        w_table w !! execution_id = Some execution ->
        status execution <> Planned ->
        exists w',
          ApprovalWebhook.handle_approval fromisoformat self execution_id signature
            timestamp user w
          = (inr {| ApprovalWebhook.statusCode := 409;
                    ApprovalWebhook.body :=
                      "Already processed (status: "
                      +:+ status_str (status execution) +:+ ")" |}, w')
          /\ w_ext w' = w_ext w /\ w_table w' = w_table w).
Proof.
  intros Hv Hfresh Hnf.
  pose proof (_is_expired_preserves timestamp w) as Hp1.
  destruct (ApprovalWebhook._is_expired fromisoformat self timestamp w)
    as [[x | expired] w1] eqn:Hexp; simpl in Hfresh, Hp1; [discriminate |].
  inversion Hfresh; subst expired. unfold but_clock_reads in Hp1.
  assert (Hext1 : w_ext w1 = w_ext w) by now inversion Hp1.
  assert (Htab1 : w_table w1 = w_table w) by now inversion Hp1.
  assert (Hnf1 : w_table_fault w1 (w_table_calls w1) = None).
  { replace (w_table_fault w1) with (w_table_fault w) by now inversion Hp1.
    replace (w_table_calls w1) with (w_table_calls w) by now inversion Hp1.
    exact Hnf. }
  assert (Hstart : forall k : option ActionExecution -> M X ApprovalWebhook.Response,
             (valid <- lift (ApprovalWebhook._verify_signature self execution_id
                               timestamp signature) ;;
              if negb valid
              then ret {| ApprovalWebhook.statusCode := 403;
                          ApprovalWebhook.body := "Invalid signature" |}
              else
                expired <- ApprovalWebhook._is_expired fromisoformat self timestamp ;;
                if expired
                then ret {| ApprovalWebhook.statusCode := 410;
                            ApprovalWebhook.body := "Approval link expired" |}
                else found <- get_execution execution_id ;; k found) w
             = k (w_table w !! execution_id)
                 (set_table (w_table w1) (set_table_calls (S (w_table_calls w1)) w1))).
  { intros k. unfold bind at 1. unfold lift. rewrite Hv. simpl.
    unfold bind at 1. rewrite Hexp. unfold bind at 1.
    rewrite get_execution_run. simpl. rewrite Hnf1, Htab1. reflexivity. }
  split.
  - intros Hnone. unfold ApprovalWebhook.handle_approval.
    rewrite Hstart, Hnone. eexists. split; [reflexivity |]. simpl. now split.
  - intros execution Hsome Hst. unfold ApprovalWebhook.handle_approval.
    rewrite Hstart, Hsome.
    assert (Hneq : negb (status_eqb (status execution) Planned) = true)
      by (destruct (status execution); simpl; congruence).
    rewrite Hneq. eexists. split; [reflexivity |]. simpl. now split.
Qed.

End ApprovalGates.

(** ** An approved execution *)

Lemma PolicyAction_new_type t d a :
  PolicyAction_new t d = inr a -> action_type_str (action_type a) = t.
Proof.
  unfold PolicyAction_new, str_eqb.
  destruct (String.eqb_spec t "attach_deny_policy") as [-> | _].
  - destruct d as [[| | | | l |] |]; try discriminate;
      try (destruct (PolicyAction_valid _); [| discriminate];
           intros E; inversion E; reflexivity).
    destruct (as_strs l); [| discriminate].
    destruct (PolicyAction_valid _); [| discriminate].
    intros E; inversion E; reflexivity.
  - destruct (String.eqb_spec t "notify_only") as [-> | _]; [| discriminate].
    destruct d as [[| | | | l |] |]; try discriminate;
      try (destruct (PolicyAction_valid _); [| discriminate];
           intros E; inversion E; reflexivity).
    destruct (as_strs l); [| discriminate].
    destruct (PolicyAction_valid _); [| discriminate].
    intros E; inversion E; reflexivity.
Qed.

Section ApprovedExecution.

Context {X : Type} `{Boto X}.
Implicit Types w : World X.

Lemma _attach_deny_policy_preserves principal_arn deny_actions policy_id :
  preserves (@store_of X) (_attach_deny_policy principal_arn deny_actions policy_id).
Proof.
  unfold _attach_deny_policy, _get_account_id, _list_attached_policies.
  repeat preserves_step.
Qed.

Lemma _execute_single_action_preserves executor action principal_arn policy_id
    event_id executed_by ttl :
  preserves (@store_of X)
    (_execute_single_action executor action principal_arn policy_id event_id
       executed_by ttl).
Proof.
  unfold _execute_single_action.
  repeat (first [apply _attach_deny_policy_preserves | preserves_step]).
Qed.

Lemma execute_action_plan_preserves executor plan event_id executed_by :
  preserves (@store_of X) (execute_action_plan executor plan event_id executed_by).
Proof.
  unfold execute_action_plan.
  repeat (first [apply _execute_single_action_preserves | preserves_step]).
Qed.

(** A plan of one action and one target. *)
Lemma execute_action_plan_single executor plan a p pid event_id executed_by w :
  matched plan = true -> matched_policy_id plan = Some pid -> pid <> EmptyString ->
  plan_actions plan = [a] -> target_principals plan = [p] ->
  execute_action_plan executor plan event_id executed_by w
  = match _execute_single_action executor a p pid event_id executed_by
            (plan_ttl_minutes plan) w with
    | (inr e, w') => (inr [e], w')
    | (inl x, w') => (inl x, w')
    end.
Proof.
  intros Hm Hid Hne Ha Hp. unfold execute_action_plan.
  rewrite Hm, Hid, Ha, Hp. simpl.
  unfold str_eqb. destruct (String.eqb_spec pid EmptyString); [contradiction |].
  simpl. unfold bind, ret.
  now destruct (_execute_single_action _ _ _ _ _ _ _ w) as [[x | e] w'].
Qed.

Variable fromisoformat : string -> Result parsed.
Variable self : ApprovalWebhook.ApprovalWebhookHandler.

(** X5. When the handler answers 200 (the table taking the write), the
    execution was planned and is overwritten under its own id by the
    execution the executor made of it: same policy, event, target and
    action, executed_by the approving user, no ttl_expires_at whatever the
    policy, and a status that is executed or failed (a failure of the
    attach is answered with 200 too); the body carries that status. *)
Theorem handle_approval_ok_record execution_id signature timestamp user w
    response w' :
  no_table_fault w ->
  ApprovalWebhook.handle_approval fromisoformat self execution_id signature
    timestamp user w = (inr response, w') ->
  ApprovalWebhook.statusCode response = 200 ->
  exists old new,
    w_table w !! execution_id = Some old /\ status old = Planned
    /\ w_table w' = <[execution_id := new]> (w_table w)
    /\ Models.execution_id new = execution_id
    /\ exec_policy_id new = exec_policy_id old
    /\ exec_event_id new = exec_event_id old
    /\ target new = target old
    /\ Models.action new = Models.action old
    /\ executed_by new = "user:" +:+ user
    /\ ttl_expires_at new = None
    /\ (status new = Executed \/ status new = Failed)
    /\ ApprovalWebhook.body response = ApprovalWebhook.ok_body execution_id (status new).
Proof.
  intros Hnf Hrun H200. unfold ApprovalWebhook.handle_approval in Hrun.
  apply bind_inv in Hrun as (valid & w0 & Hv & Hrun).
  apply lift_inv in Hv as [Hv ->].
  destruct valid; simpl in Hrun.
  2:{ apply ret_inv in Hrun as [-> ->]. discriminate H200. }
  apply bind_inv in Hrun as (expired & w1 & Hexp & Hrun).
  pose proof (_is_expired_preserves fromisoformat self timestamp w) as Hp1.
  rewrite Hexp in Hp1. simpl in Hp1. unfold but_clock_reads in Hp1.
  assert (Htab1 : w_table w1 = w_table w) by now inversion Hp1.
  assert (Hnf1 : no_table_fault w1).
  { intros n. replace (w_table_fault w1) with (w_table_fault w) by now inversion Hp1.
    apply Hnf. }
  destruct expired.
  { apply ret_inv in Hrun as [-> ->]. discriminate H200. }
  apply bind_inv in Hrun as (found & w2 & Hget & Hrun).
  rewrite get_execution_run in Hget. simpl in Hget. rewrite Hnf1 in Hget.
  inversion Hget; subst found w2. clear Hget.
  set (w2 := set_table _ _) in Hrun.
  assert (Htab2 : w_table w2 = w_table w) by exact Htab1.
  assert (Hnf2 : no_table_fault w2) by exact Hnf1.
  rewrite Htab1 in Hrun.
  destruct (w_table w !! execution_id) as [old |] eqn:Hold.
  2:{ apply ret_inv in Hrun as [-> ->]. discriminate H200. }
  destruct (status_eqb (status old) Planned) eqn:Hst; simpl in Hrun.
  2:{ apply ret_inv in Hrun as [-> ->]. discriminate H200. }
  assert (Hplanned : status old = Planned) by (destruct (status old); now try discriminate).
  apply try_except_inv in Hrun as [Hrun | (e & wx & _ & _ & Hrun)].
  2:{ apply bind_inv in Hrun as (b & wy & _ & Hrun).
      apply ret_inv in Hrun as [-> ->]. discriminate H200. }
  apply bind_inv in Hrun as (deny_actions & w3 & Hdeny & Hrun).
  apply lift_inv in Hdeny as [Hdeny ->].
  destruct (negb (truthy deny_actions) && str_eqb (Models.action old) "attach_deny_policy").
  { apply ret_inv in Hrun as [-> ->]. discriminate H200. }
  apply bind_inv in Hrun as (policy_action & w3 & Hpa & Hrun).
  apply lift_inv in Hpa as [Hpa ->].
  apply bind_inv in Hrun as (action_plan & w3 & Hplan & Hrun).
  apply lift_inv in Hplan as [Hplan ->].
  unfold ActionPlan_new in Hplan.
  destruct (ActionPlan_valid _) eqn:Hvalid; [| discriminate].
  inversion Hplan; subst action_plan. clear Hplan.
  unfold ActionPlan_valid in Hvalid. simpl in Hvalid.
  apply andb_prop in Hvalid as [Hvalid _]. apply andb_prop in Hvalid as [Hid _].
  apply negb_true_iff in Hid. unfold str_eqb in Hid. apply String.eqb_neq in Hid.
  apply bind_inv in Hrun as (executions & w3 & Hexec & Hrun).
  rewrite (execute_action_plan_single _ _ policy_action (target old)
             (exec_policy_id old)) in Hexec; try reflexivity; [| exact Hid].
  simpl in Hexec.
  pose proof (_execute_single_action_preserves
                (ApprovalWebhook.executor self) policy_action (target old)
                (exec_policy_id old) (exec_event_id old) ("user:" +:+ user) (Some 0) w2)
    as Hp3.
  pose proof (_execute_single_action_fields
                (ApprovalWebhook.executor self) policy_action (target old)
                (exec_policy_id old) (exec_event_id old) ("user:" +:+ user) (Some 0) w2)
    as Hfields.
  destruct (_execute_single_action _ _ _ _ _ _ _ w2) as [[x | made] w3'] eqn:Esingle;
    [discriminate |].
  inversion Hexec; subst executions w3'. clear Hexec.
  specialize (Hfields made eq_refl).
  destruct Hfields as (Hact & Htgt & Hpol & Hev & Hby & _ & Hstatus).
  pose proof (_execute_single_action_no_ttl _ _ _ _ _ _ _ _ _ _ Esingle) as Hnottl.
  assert (Httl : ttl_expires_at made = None).
  { apply Hnottl. right. exists 0. split; [reflexivity | lia]. }
  simpl in Hp3.
  assert (Hnf3 : no_table_fault w3).
  { apply (no_table_fault_env w2); [now apply store_env | exact Hnf2]. }
  assert (Htab3 : w_table w3 = w_table w).
  { rewrite <- Htab2. unfold store_of in Hp3. now inversion Hp3. }
  apply bind_inv in Hrun as (saved & w4 & Hupd & Hrun).
  rewrite (update_execution_ok _ _ Hnf3) in Hupd.
  inversion Hupd; subst saved w4. clear Hupd.
  apply bind_inv in Hrun as (u & w5 & Hnotify & Hrun).
  apply ret_inv in Hrun as [-> ->].
  assert (Hp5 : forall ex,
             preserves (@store_of X)
               (try_except (call (send_execution_confirmation ex) ;;; ret tt)
                  any_exception (fun _ => ret tt)))
    by (intros; repeat preserves_step).
  assert (Htab5 : w_table w5 = <[execution_id := set_execution_id execution_id made]>
                                 (w_table w3)).
  { match type of Hnotify with
    | ?m ?wq = _ =>
        assert (Hq : store_of (snd (m wq)) = store_of wq) by apply Hp5
    end.
    rewrite Hnotify in Hq. simpl in Hq. unfold store_of in Hq. now inversion Hq. }
  exists old, (set_execution_id execution_id made).
  rewrite Htab5, Htab3. simpl.
  rewrite (PolicyAction_new_type _ _ _ Hpa) in Hact.
  repeat split; auto.
Qed.

End ApprovedExecution.

(** The approval of the scenario. *)
Lemma handle_approval_ok_record_witness :
  no_table_fault Fixtures.w_approval
  /\ exists response w' old new,
       ApprovalWebhook.handle_approval iso_parse Fixtures.approval_handler
         "exec-u0" Fixtures.link_signature Fixtures.link_timestamp "bob"
         Fixtures.w_approval = (inr response, w')
       /\ ApprovalWebhook.statusCode response = 200
       /\ w_table Fixtures.w_approval !! "exec-u0" = Some old
       /\ w_table w' = <["exec-u0" := new]> (w_table Fixtures.w_approval)
       /\ executed_by new = "user:bob"
       /\ ttl_expires_at new = None.
Proof.
  assert (Hnf : no_table_fault Fixtures.w_approval) by (intros n; reflexivity).
  split; [exact Hnf |].
  destruct (ApprovalWebhook.handle_approval iso_parse Fixtures.approval_handler
              "exec-u0" Fixtures.link_signature Fixtures.link_timestamp "bob"
              Fixtures.w_approval) as [[e | response] w'] eqn:E.
  - assert (Hok : match fst (ApprovalWebhook.handle_approval iso_parse
                               Fixtures.approval_handler "exec-u0"
                               Fixtures.link_signature Fixtures.link_timestamp "bob"
                               Fixtures.w_approval) with
                  | inr r => ApprovalWebhook.statusCode r
                  | inl _ => 0
                  end = 200) by (vm_compute; reflexivity).
    rewrite E in Hok. discriminate Hok.
  - assert (Hok : match fst (ApprovalWebhook.handle_approval iso_parse
                               Fixtures.approval_handler "exec-u0"
                               Fixtures.link_signature Fixtures.link_timestamp "bob"
                               Fixtures.w_approval) with
                  | inr r => ApprovalWebhook.statusCode r
                  | inl _ => 0
                  end = 200) by (vm_compute; reflexivity).
    rewrite E in Hok. simpl in Hok.
    destruct (handle_approval_ok_record iso_parse Fixtures.approval_handler
                "exec-u0" Fixtures.link_signature Fixtures.link_timestamp "bob"
                Fixtures.w_approval response w' Hnf E Hok)
      as (old & new & Hold & _ & Htab & _ & _ & _ & _ & _ & Hby & Httl & _).
    exists response, w', old, new. repeat split; assumption.
Defined.

(** The attach fails (the role does not exist): the answer is 200 all the
    same, and the execution is stored as failed. *)
Example handle_approval_ok_though_failed :
  (match fst (ApprovalWebhook.handle_approval iso_parse Fixtures.approval_handler
                "exec-ghost" Fixtures.ghost_signature Fixtures.link_timestamp "bob"
                Fixtures.w_planned_ghost) with
   | inr response => ApprovalWebhook.statusCode response
   | inl _ => 0
   end) = 200
  /\ option_map status
       (w_table (snd (ApprovalWebhook.handle_approval iso_parse
                        Fixtures.approval_handler "exec-ghost" Fixtures.ghost_signature
                        Fixtures.link_timestamp "bob" Fixtures.w_planned_ghost))
        !! "exec-ghost") = Some Failed.
Proof. split; vm_compute; reflexivity. Qed.

(** The same link used a second time: the execution is executed, the
    answer is 409. *)
Lemma handle_approval_not_planned_witness :
  ApprovalWebhook._verify_signature Fixtures.approval_handler "exec-u0"
    Fixtures.link_timestamp Fixtures.link_signature = inr true
  /\ fst (ApprovalWebhook._is_expired iso_parse Fixtures.approval_handler
            Fixtures.link_timestamp Fixtures.w_approved) = inr false
  /\ w_table_fault Fixtures.w_approved (w_table_calls Fixtures.w_approved) = None
  /\ option_map status (w_table Fixtures.w_approved !! "exec-u0") = Some Executed
  /\ exists w',
       ApprovalWebhook.handle_approval iso_parse Fixtures.approval_handler "exec-u0"
         Fixtures.link_signature Fixtures.link_timestamp "bob" Fixtures.w_approved
       = (inr {| ApprovalWebhook.statusCode := 409;
                 ApprovalWebhook.body := "Already processed (status: executed)" |}, w')
       /\ w_ext w' = w_ext Fixtures.w_approved
       /\ w_table w' = w_table Fixtures.w_approved.
Proof.
  assert (Hv : ApprovalWebhook._verify_signature Fixtures.approval_handler "exec-u0"
                 Fixtures.link_timestamp Fixtures.link_signature = inr true)
    by apply signature_round_trip.
  assert (Hfresh : fst (ApprovalWebhook._is_expired iso_parse Fixtures.approval_handler
                          Fixtures.link_timestamp Fixtures.w_approved) = inr false)
    by (vm_compute; reflexivity).
  assert (Hst : option_map status (w_table Fixtures.w_approved !! "exec-u0")
                = Some Executed) by (vm_compute; reflexivity).
  split; [exact Hv |]. split; [exact Hfresh |]. split; [reflexivity |].
  split; [exact Hst |].
  destruct (w_table Fixtures.w_approved !! "exec-u0") as [execution |] eqn:Hlook;
    [| discriminate Hst].
  simpl in Hst. inversion Hst as [Hst'].
  destruct (proj2 (handle_approval_not_planned iso_parse Fixtures.approval_handler
                     "exec-u0" Fixtures.link_signature Fixtures.link_timestamp "bob"
                     Fixtures.w_approved Hv Hfresh eq_refl) execution Hlook)
    as (w' & Hrun & Hext & Htab).
  - rewrite Hst'. discriminate.
  - rewrite Hst' in Hrun. exists w'.
    split; [exact Hrun | split; [exact Hext | exact Htab]].
Defined.

(** A forged signature: 403, and nothing is touched. *)
Lemma handle_approval_refusal_witness :
  exists w',
    ApprovalWebhook.handle_approval iso_parse Fixtures.approval_handler "exec-u0"
      "deadbeef" Fixtures.link_timestamp "mallory" Fixtures.w_approval
    = (inr {| ApprovalWebhook.statusCode := 403;
              ApprovalWebhook.body := "Invalid signature" |}, w')
    /\ w_ext w' = w_ext Fixtures.w_approval
    /\ w_table w' = w_table Fixtures.w_approval.
Proof.
  assert (Hv : ApprovalWebhook._verify_signature Fixtures.approval_handler "exec-u0"
                 Fixtures.link_timestamp "deadbeef" = inr false)
    by (vm_compute; reflexivity).
  assert (Hrun : ApprovalWebhook.handle_approval iso_parse Fixtures.approval_handler
                   "exec-u0" "deadbeef" Fixtures.link_timestamp "mallory"
                   Fixtures.w_approval
                 = (inr {| ApprovalWebhook.statusCode := 403;
                           ApprovalWebhook.body := "Invalid signature" |},
                    Fixtures.w_approval)).
  { unfold ApprovalWebhook.handle_approval, bind, lift. now rewrite Hv. }
  exists Fixtures.w_approval. split; [exact Hrun |].
  destruct (handle_approval_refusal_touches_nothing iso_parse Fixtures.approval_handler
              "exec-u0" "deadbeef" Fixtures.link_timestamp "mallory"
              Fixtures.w_approval _ _ Hrun) as (Hext & Htab & _);
    [discriminate | discriminate |].
  split; [exact Hext | exact Htab].
Defined.

Lemma signature_mismatch_witness :
  "deadbeef" <> ApprovalWebhook._generate_signature Fixtures.approval_handler
                  "exec-u0" Fixtures.link_timestamp
  /\ ApprovalWebhook._verify_signature Fixtures.approval_handler "exec-u0"
       Fixtures.link_timestamp "deadbeef" = inr false.
Proof.
  assert (Hne : "deadbeef" <> ApprovalWebhook._generate_signature
                                Fixtures.approval_handler "exec-u0"
                                Fixtures.link_timestamp)
    by (vm_compute; discriminate).
  split; [exact Hne |].
  exact (signature_mismatch Fixtures.approval_handler "exec-u0"
           Fixtures.link_timestamp "deadbeef" Hne).
Defined.

(** ** The audit store *)

Section AuditStoreFacts.

Context {X : Type}.
Implicit Types w : World X.

Lemma save_execution_run execution w :
  save_execution execution w
  = let w1 := set_table_calls (S (w_table_calls w)) w in
    match w_table_fault w (w_table_calls w) with
    | Some e => if is_ClientError e then (inr false, w1) else (inl e, w1)
    | None => (inr true, set_table (<[execution_id execution := execution]> (w_table w)) w1)
    end.
Proof.
  unfold save_execution, put_item, try_except, bind, table_call.
  destruct (w_table_fault w (w_table_calls w)) as [e |]; [| reflexivity].
  now destruct (is_ClientError e).
Qed.

Lemma query_expired_executions_run current_time w :
  query_expired_executions current_time w
  = let w1 := set_table_calls (S (w_table_calls w)) w in
    match w_table_fault w (w_table_calls w) with
    | Some e => if is_ClientError e then (inr [], w1) else (inl e, w1)
    | None => (inr (scan_expired current_time (w_table w)), set_table (w_table w) w1)
    end.
Proof.
  unfold query_expired_executions, try_except, table_call.
  destruct (w_table_fault w (w_table_calls w)) as [e |]; [| reflexivity].
  now destruct (is_ClientError e).
Qed.

(** X15. What is saved is what is read back: while the table answers, an
    execution saved (or updated) is the one [get_execution] returns for its
    id, whatever was stored under that id before, and the executions stored
    under the other ids are read back as they were. *)
Theorem save_then_get_execution execution w :
  no_table_fault w ->
  exists w1 w2,
    save_execution execution w = (inr true, w1)
    /\ update_execution execution w = (inr true, w1)
    /\ get_execution (execution_id execution) w1 = (inr (Some execution), w2)
    /\ (forall other, other <> execution_id execution ->
          fst (get_execution other w1) = inr (w_table w !! other))
    /\ w_ext w2 = w_ext w.
Proof.
  intros Hnf.
  exists (set_table (<[execution_id execution := execution]> (w_table w))
            (set_table_calls (S (w_table_calls w)) w)).
  eexists. split; [| split; [| split; [| split]]].
  - rewrite save_execution_run, Hnf. reflexivity.
  - change (@update_execution X execution) with (@save_execution X execution).
    rewrite save_execution_run, Hnf. reflexivity.
  - rewrite get_execution_run. simpl. rewrite Hnf, lookup_insert_eq. reflexivity.
  - intros other Hother. rewrite get_execution_run. simpl.
    rewrite Hnf. simpl. now rewrite lookup_insert_ne.
  - reflexivity.
Qed.

(** X16. A [ClientError] of the table is swallowed by every method of the
    store: saving and updating answer [False], [get_execution] answers
    [None] as for an id that is not stored, the query of the expired
    executions answers the empty list, and nothing is written.  Any other
    exception goes through to the caller. *)
Theorem audit_store_faults e execution execution_id current_time w :
  w_table_fault w (w_table_calls w) = Some e ->
  let w1 := set_table_calls (S (w_table_calls w)) w in
  (is_ClientError e = true ->
     save_execution execution w = (inr false, w1)
     /\ update_execution execution w = (inr false, w1)
     /\ get_execution execution_id w = (inr None, w1)
     /\ query_expired_executions current_time w = (inr [], w1))
  /\ (is_ClientError e = false ->
        save_execution execution w = (inl e, w1)
        /\ update_execution execution w = (inl e, w1)
        /\ get_execution execution_id w = (inl e, w1)
        /\ query_expired_executions current_time w = (inl e, w1))
  /\ w_table w1 = w_table w.
Proof.
  intros Hf w1. subst w1.
  change (@update_execution X execution) with (@save_execution X execution).
  rewrite save_execution_run, get_execution_run, query_expired_executions_run.
  cbv zeta. rewrite Hf.
  split; [| split; [| reflexivity]]; intros ->; now repeat split.
Qed.


End AuditStoreFacts.

(** ** The cleanup when the query fails *)

Section CleanupQueryFault.

Context {X : Type} `{Boto X}.
Implicit Types w : World X.

Variable self : TTLCleanup.TTLCleanupHandler.

(** X20. The scan of the cleanup fails.  A [ClientError] is swallowed by the
    store, so the run reports that nothing was found, with no error
    entry; any other exception is caught by the run, which reports zeros
    and one error entry of type cleanup_run_failure holding [str(e)].  In
    both cases no IAM or Slack call is made and the table is as it was. *)
Theorem cleanup_query_fault e w :
  w_table_fault w (w_table_calls w) = Some e ->
  exists w',
    TTLCleanup.cleanup_expired_executions self w
    = (inr (if is_ClientError e then nothing_found
            else {| TTLCleanup.total_found := 0; TTLCleanup.rolled_back := 0;
                    TTLCleanup.failed := 0; TTLCleanup.skipped := 0;
                    TTLCleanup.errors :=
                      [{| TTLCleanup.err_execution_id := None;
                          TTLCleanup.err_error := exn_str e;
                          TTLCleanup.err_type := "cleanup_run_failure" |}] |}),
       w')
    /\ w_ext w' = w_ext w /\ w_table w' = w_table w.
Proof.
  intros Hf. unfold TTLCleanup.cleanup_expired_executions.
  unfold try_except at 1. unfold bind at 1. unfold utcnow at 1.
  unfold bind at 1. rewrite query_expired_executions_run. cbv zeta.
  cbn [w_table_fault w_table_calls set_clock_reads]. rewrite Hf.
  destruct (is_ClientError e); simpl; eexists; (split; [reflexivity |]);
    split; reflexivity.
Qed.

End CleanupQueryFault.

(** ** The executor in dry-run mode *)

Lemma Forall2_right {A B} (P : A -> B -> Prop) (Q : B -> Prop) l k :
  Forall2 P l k -> (forall x y, P x y -> Q y) -> Forall Q k.
Proof.
  intros H2 HPQ. induction H2 as [| x y l k Hxy _ IH]; constructor; eauto.
Qed.

Section DryRun.

Context {X : Type} `{Boto X}.
Implicit Types w : World X.

Variable self : IAMExecutor.
Hypothesis Hdry : dry_run self = true.

Lemma _execute_single_action_dry_run_preserves action principal_arn policy_id
    event_id executed_by ttl :
  preserves (fun w => (w_ext w, w_table w))
    (_execute_single_action self action principal_arn policy_id event_id
       executed_by ttl).
Proof.
  unfold _execute_single_action. rewrite Hdry.
  repeat preserves_step.
Qed.

Lemma _execute_single_action_dry_run_returns action principal_arn policy_id
    event_id executed_by ttl :
  returns (fun e => status e = Executed /\ ttl_expires_at e = None
                    /\ rolled_back_at e = None
                    /\ (action_type action = AttachDenyPolicy ->
                        diff e = [("dry_run", VBool true);
                                  ("would_deny", str_list (default [] (deny action)));
                                  ("target", VStr principal_arn)]))
    (_execute_single_action self action principal_arn policy_id event_id
       executed_by ttl).
Proof.
  unfold _execute_single_action. rewrite Hdry.
  apply returns_bind. intros u.
  destruct (action_type action).
  - destruct (deny_falsy (deny action)); [apply returns_raise |].
    intros w e. unfold try_except, bind, utcnow, ret. simpl.
    intros E. inversion E; subst. now repeat split.
  - apply returns_bind. intros now. apply returns_ret.
    repeat split; try reflexivity. discriminate.
Qed.

Lemma execute_action_plan_dry_run_preserves plan event_id executed_by :
  preserves (fun w : World X => (w_ext w, w_table w))
    (execute_action_plan self plan event_id executed_by).
Proof.
  unfold execute_action_plan.
  repeat (first [apply _execute_single_action_dry_run_preserves | preserves_step]).
Qed.

Lemma execute_action_plan_dry_run_returns plan event_id executed_by :
  returns (Forall (fun e => status e = Executed /\ ttl_expires_at e = None
                            /\ (action e = "attach_deny_policy" ->
                                dict_get "dry_run" (diff e) = Some (VBool true))))
    (execute_action_plan self plan event_id executed_by).
Proof.
  intros w executions E.
  destruct (execute_action_plan self plan event_id executed_by w) as [r w'] eqn:Erun.
  simpl in E. subst r. revert Erun. unfold execute_action_plan.
  destruct (negb (matched plan)); [discriminate |].
  destruct (_ || _); [discriminate |].
  intros E. apply bind_inv in E as (ls & w1 & Els & Eret).
  apply ret_inv in Eret as [-> _].
  set (ok := fun e : ActionExecution =>
               status e = Executed /\ ttl_expires_at e = None
               /\ (Models.action e = "attach_deny_policy" ->
                   dict_get "dry_run" (diff e) = Some (VBool true))).
  assert (Hall : Forall2 (fun (a : PolicyAction) l => Forall ok l)
                   (plan_actions plan) ls).
  { match type of Els with
    | mapM ?f _ _ = _ =>
        apply (mapM_returns (fun (a : PolicyAction) l => Forall ok l) f
                 (plan_actions plan)) with (w := w); [| now rewrite Els]
    end.
    intros a w0 l El.
    set (ok2 := fun (p : string) (e : ActionExecution) =>
                  status e = Executed /\ ttl_expires_at e = None
                  /\ (action_type a = AttachDenyPolicy ->
                      diff e = [("dry_run", VBool true);
                                ("would_deny", str_list (default [] (deny a)));
                                ("target", VStr p)])
                  /\ Models.action e = action_type_str (action_type a)).
    assert (H2 : Forall2 ok2 (target_principals plan) l).
    { match type of El with
      | fst (mapM ?f _ _) = _ =>
          apply (mapM_returns ok2 f (target_principals plan)) with (w := w0);
            [| exact El]
      end.
      intros p w3 e Ee.
      destruct (_execute_single_action_dry_run_returns _ _ _ _ _ _ w3 e Ee)
        as (Hs & Ht' & Hr & Hd).
      destruct (_execute_single_action_returns self _ _ _ _ _ _ w3 e Ee)
        as (Ha & _).
      unfold ok2. now repeat split. }
    apply (Forall2_right ok2 ok _ _ H2).
    intros p e (Hs & Ht' & Hd & Ha).
    split; [exact Hs |]. split; [exact Ht' |].
    intros Hact. rewrite Ha in Hact.
    destruct (action_type a); [| discriminate].
    now rewrite Hd. }
  apply Forall_concat.
  apply (Forall2_right (fun (a : PolicyAction) l => Forall ok l) (Forall ok) _ _ Hall).
  auto.
Qed.

(** X11. An executor in dry-run mode calls no client: whatever the plan, the
    state of IAM and Slack and the audit table are after
    [execute_action_plan] what they were before (and after
    [rollback_execution] too).  Every execution it returns is marked
    executed, carries no ttl_expires_at even when the plan has a TTL, and
    an attach_deny_policy one has the diff
    [{dry_run: True, would_deny: ..., target: ...}]. *)
Theorem dry_run_calls_nothing plan event_id executed_by execution w :
  w_ext (snd (execute_action_plan self plan event_id executed_by w)) = w_ext w
  /\ w_table (snd (execute_action_plan self plan event_id executed_by w)) = w_table w
  /\ (forall executions,
        fst (execute_action_plan self plan event_id executed_by w) = inr executions ->
        Forall (fun e => status e = Executed /\ ttl_expires_at e = None
                         /\ (action e = "attach_deny_policy" ->
                             dict_get "dry_run" (diff e) = Some (VBool true)))
          executions)
  /\ w_ext (snd (rollback_execution self execution w)) = w_ext w
  /\ w_table (snd (rollback_execution self execution w)) = w_table w.
Proof.
  pose proof (execute_action_plan_dry_run_preserves plan event_id executed_by w) as Hp.
  inversion Hp as [[Hx Ht]].
  split; [reflexivity |]. split; [reflexivity |]. split.
  - intros executions E.
    exact (execute_action_plan_dry_run_returns plan event_id executed_by w executions E).
  - unfold rollback_execution. rewrite Hdry.
    destruct (negb _); now split.
Qed.

End DryRun.

(** An execution saved in the empty table and read back. *)
Lemma save_then_get_execution_witness :
  no_table_fault Fixtures.w_10h00
  /\ exists w1 w2,
       save_execution Fixtures.executed_notify Fixtures.w_10h00 = (inr true, w1)
       /\ get_execution "exec-9" w1 = (inr (Some Fixtures.executed_notify), w2).
Proof.
  assert (Hnf : no_table_fault Fixtures.w_10h00) by (intros n; reflexivity).
  split; [exact Hnf |].
  destruct (save_then_get_execution Fixtures.executed_notify Fixtures.w_10h00 Hnf)
    as (w1 & w2 & E1 & _ & E2 & _).
  exists w1, w2. split; [exact E1 | exact E2].
Defined.

(** A throttled table and a table that cannot be reached. *)
Lemma audit_store_faults_witness :
  (exists w1, save_execution Fixtures.executed_notify
                (Fixtures.with_table_fault Fixtures.throttled Fixtures.w_14h00)
              = (inr false, w1)
              /\ w_table w1
                 = w_table (Fixtures.with_table_fault Fixtures.throttled
                              Fixtures.w_14h00))
  /\ (exists w1, get_execution "exec-u0"
                   (Fixtures.with_table_fault Fixtures.connection_lost Fixtures.w_14h00)
                 = (inl Fixtures.connection_lost, w1)).
Proof.
  split.
  - destruct (audit_store_faults Fixtures.throttled Fixtures.executed_notify "exec-u0" 0
                (Fixtures.with_table_fault Fixtures.throttled Fixtures.w_14h00) eq_refl)
      as (Hc & _ & Ht).
    destruct (Hc eq_refl) as (E & _).
    eexists. split; [exact E | exact Ht].
  - destruct (audit_store_faults Fixtures.connection_lost Fixtures.executed_notify
                "exec-u0" 0
                (Fixtures.with_table_fault Fixtures.connection_lost Fixtures.w_14h00)
                eq_refl)
      as (_ & Ho & _).
    destruct (Ho eq_refl) as (_ & _ & E & _).
    eexists. exact E.
Defined.


(** The cleanup over a throttled table and over one that cannot be
    reached. *)
Lemma cleanup_query_fault_witness :
  fst (TTLCleanup.cleanup_expired_executions (Fixtures.cleanup_handler 100)
         (Fixtures.with_table_fault Fixtures.throttled Fixtures.w_14h00))
  = inr nothing_found
  /\ exists r,
       fst (TTLCleanup.cleanup_expired_executions (Fixtures.cleanup_handler 100)
              (Fixtures.with_table_fault Fixtures.connection_lost Fixtures.w_14h00))
       = inr r
       /\ TTLCleanup.total_found r = 0
       /\ map TTLCleanup.err_type (TTLCleanup.errors r) = ["cleanup_run_failure"].
Proof.
  split.
  - destruct (cleanup_query_fault (Fixtures.cleanup_handler 100) Fixtures.throttled
                (Fixtures.with_table_fault Fixtures.throttled Fixtures.w_14h00) eq_refl)
      as (w' & E & _).
    rewrite E. reflexivity.
  - destruct (cleanup_query_fault (Fixtures.cleanup_handler 100)
                Fixtures.connection_lost
                (Fixtures.with_table_fault Fixtures.connection_lost Fixtures.w_14h00)
                eq_refl)
      as (w' & E & _).
    rewrite E. eexists. split; [reflexivity |]. split; reflexivity.
Defined.

(** The plan over two targets, by the executor in dry-run mode. *)
Lemma dry_run_calls_nothing_witness :
  dry_run Fixtures.dry_executor = true
  /\ w_ext (snd (execute_action_plan Fixtures.dry_executor Fixtures.auto_plan
                   "evt-800" "system:budgets_event" Fixtures.w_10h00))
     = w_ext Fixtures.w_10h00.
Proof.
  split; [reflexivity |].
  exact (proj1 (dry_run_calls_nothing Fixtures.dry_executor eq_refl
                  Fixtures.auto_plan "evt-800" "system:budgets_event"
                  Fixtures.executed_notify Fixtures.w_10h00)).
Defined.

(** The cleanup of the two expired executions with a batch of 100. *)
Lemma cleanup_counts_add_up_witness :
  0 <= TTLCleanup.batch_size (Fixtures.cleanup_handler 100)
  /\ exists r w',
       TTLCleanup.cleanup_expired_executions (Fixtures.cleanup_handler 100)
         Fixtures.w_14h00 = (inr r, w')
       /\ TTLCleanup.rolled_back r + TTLCleanup.failed r + TTLCleanup.skipped r
          = TTLCleanup.total_found r
       /\ TTLCleanup.total_found r <= 100.
Proof.
  assert (Hb : 0 <= TTLCleanup.batch_size (Fixtures.cleanup_handler 100))
    by (simpl; lia).
  split; [exact Hb |].
  exact (cleanup_counts_add_up (Fixtures.cleanup_handler 100) Fixtures.w_14h00 Hb).
Defined.

(** ** Splitting and joining strings *)

Section Splitting.

Variable c : ascii.

(** The separator does not occur in the string. *)
#[local] Abbreviation free s := (~ In c (list_ascii_of_string s)).

Lemma split_cons s : exists hd tl, split c s = hd :: tl.
Proof.
  destruct s as [| a s]; simpl; [now eexists; eexists |].
  destruct (Ascii.eqb a c); [now eexists; eexists |].
  destruct (split c s); now eexists; eexists.
Qed.

Lemma join_cons sep x y l : join sep (x :: y :: l) = x +:+ sep +:+ join sep (y :: l).
Proof. reflexivity. Qed.

Lemma split_join s : join (String c EmptyString) (split c s) = s.
Proof.
  induction s as [| a s IH]; [reflexivity |].
  simpl split. destruct (split_cons s) as (hd & tl & E). rewrite E in *.
  destruct (Ascii.eqb_spec a c) as [-> | _].
  - rewrite join_cons, IH. reflexivity.
  - destruct tl as [| y tl].
    + simpl in *. now rewrite IH.
    + rewrite join_cons. rewrite join_cons in IH. rewrite <- IH. reflexivity.
Qed.

Lemma split_free s : Forall (fun p => free p) (split c s).
Proof.
  induction s as [| a s IH]; simpl.
  - constructor; [intros [] | constructor].
  - destruct (Ascii.eqb_spec a c) as [-> | Hne].
    + constructor; [intros [] | exact IH].
    + destruct (split c s) as [| hd tl].
      * constructor; [| constructor]. simpl. intros [E | []]. now apply Hne.
      * inversion IH as [| ? ? Hhd Htl]; subst.
        constructor; [| exact Htl]. simpl. intros [E | Hin]; [now apply Hne | now apply Hhd].
Qed.

Lemma split_of_free s : free s -> split c s = [s].
Proof.
  induction s as [| a s IH]; [reflexivity |].
  simpl. intros Hf. destruct (Ascii.eqb_spec a c) as [-> | _].
  - exfalso. apply Hf. now left.
  - rewrite IH; [reflexivity |]. intros Hin. apply Hf. now right.
Qed.

Lemma split_app s rest :
  free s ->
  split c (s +:+ String c rest) = s :: split c rest.
Proof.
  induction s as [| a s IH]; simpl; intros Hf.
  - now rewrite Ascii.eqb_refl.
  - destruct (Ascii.eqb_spec a c) as [-> | _].
    + exfalso. apply Hf. now left.
    + rewrite IH; [reflexivity |]. intros Hin. apply Hf. now right.
Qed.

Lemma split_of_join x l :
  Forall (fun p => free p) (x :: l) ->
  split c (join (String c EmptyString) (x :: l)) = x :: l.
Proof.
  revert x. induction l as [| y l IH]; intros x Hall.
  - simpl. apply split_of_free. now inversion Hall.
  - rewrite join_cons. inversion Hall as [| ? ? Hx Hrest]; subst.
    change (x +:+ String c EmptyString +:+ join (String c EmptyString) (y :: l))
      with (x +:+ (String c (join (String c EmptyString) (y :: l)))).
    rewrite split_app by exact Hx. now rewrite IH.
Qed.

Lemma split_once_some s l r :
  split_once c s = Some (l, r) <-> s = l +:+ String c r /\ free l.
Proof.
  revert l. induction s as [| a s IH]; intros l; simpl.
  - split; [discriminate |]. intros [E _]. destruct l; discriminate.
  - destruct (Ascii.eqb_spec a c) as [-> | Hne].
    + split.
      * intros E. inversion E; subst. split; [reflexivity | intros []].
      * intros [E Hf]. destruct l as [| b l]; simpl in E.
        -- now inversion E.
        -- inversion E; subst. exfalso. apply Hf. now left.
    + destruct (split_once c s) as [[l' r'] |] eqn:Es.
      * split.
        -- intros E. inversion E; subst.
           destruct (proj1 (IH l') eq_refl) as [-> Hf].
           split; [reflexivity |]. simpl. intros [E' | Hin]; [now apply Hne | now apply Hf].
        -- intros [E Hf]. destruct l as [| b l]; simpl in E; inversion E; subst.
           ++ now contradiction Hne.
           ++ assert (Hs : Some (l', r') = Some (l, r)).
              { apply IH. split; [reflexivity |]. intros Hin. apply Hf. now right. }
              now inversion Hs.
      * split; [discriminate |].
        intros [E Hf]. destruct l as [| b l]; simpl in E; inversion E; subst.
        -- now contradiction Hne.
        -- assert (Hs : None = Some (l, r)).
           { apply IH. split; [reflexivity |]. intros Hin. apply Hf. now right. }
           discriminate.
Qed.

Lemma free_app_r l r : free (l +:+ String c r) -> False.
Proof.
  intros Hf. apply Hf. induction l as [| a l IH]; simpl; [now left | right].
  apply IH. intros Hin. apply Hf. now right.
Qed.

End Splitting.

Lemma free_append c l r :
  ~ In c (list_ascii_of_string l) -> ~ In c (list_ascii_of_string r) ->
  ~ In c (list_ascii_of_string (l +:+ r)).
Proof.
  intros Hl Hr. induction l as [| a l IH]; simpl in *; [exact Hr |].
  intros [E | Hin]; [apply Hl; now left |].
  apply IH; [| exact Hin]. intros H. apply Hl. now right.
Qed.

Lemma free_append_inv_r c l r :
  ~ In c (list_ascii_of_string (l +:+ r)) -> ~ In c (list_ascii_of_string r).
Proof.
  intros Hlr Hr. apply Hlr. induction l as [| a l IH]; simpl; [exact Hr |].
  right. apply IH. intros Hin. apply Hlr. now right.
Qed.

(** ** The ARN of a principal *)

(** X12. [_parse_principal_arn] returns a type and a name for the ARNs of six
    fields separated by colons whose third field is [iam] and whose sixth
    is [role/<name>] or [user/<name>], and for no other string (it raises
    [ValueError] for them).  The first, second, fourth and fifth field are
    not looked at, and the name is all that follows the first slash: the
    path of a role is part of it. *)
Theorem _parse_principal_arn_spec arn principal_type principal_name :
  _parse_principal_arn arn = inr (principal_type, principal_name)
  <-> (principal_type = "role" \/ principal_type = "user")
      /\ exists a b region account,
           arn = join ":" [a; b; "iam"; region; account;
                           principal_type +:+ "/" +:+ principal_name]
           /\ Forall (fun p => ~ In ":"%char (list_ascii_of_string p))
                [a; b; region; account; principal_name].
Proof.
  unfold _parse_principal_arn. split.
  - pose proof (split_join ":"%char arn) as Hj.
    pose proof (split_free ":"%char arn) as Hf.
    destruct (split ":"%char arn) as [| p0 [| p1 [| p2 [| p3 [| p4 [| p5 [| p6 l]]]]]]];
      simpl; try discriminate.
    unfold str_eqb. destruct (String.eqb_spec p2 "iam") as [-> | _]; [| discriminate].
    simpl.
    destruct (split_once "/"%char p5) as [[t n] |] eqn:Es; [| discriminate].
    apply split_once_some in Es as [-> _].
    unfold str_in. simpl. unfold str_eqb.
    destruct (String.eqb_spec t "role") as [-> | _]; simpl.
    + intros E. inversion E; subst. split; [now left |].
      exists p0, p1, p3, p4. split; [reflexivity |].
      repeat (inversion Hf as [| ? ? ? Hf']; subst; clear Hf; rename Hf' into Hf).
      repeat (constructor; [assumption |]).
      constructor; [| constructor].
      match goal with
      | Hn : ~ In _ (list_ascii_of_string ("role" +:+ ?x)) |- _ =>
          exact (free_append_inv_r _ "role/" _ Hn)
      end.
    + destruct (String.eqb_spec t "user") as [-> | _]; simpl; [| discriminate].
      intros E. inversion E; subst. split; [now right |].
      exists p0, p1, p3, p4. split; [reflexivity |].
      repeat (inversion Hf as [| ? ? ? Hf']; subst; clear Hf; rename Hf' into Hf).
      repeat (constructor; [assumption |]).
      constructor; [| constructor].
      match goal with
      | Hn : ~ In _ (list_ascii_of_string ("user" +:+ ?x)) |- _ =>
          exact (free_append_inv_r _ "user/" _ Hn)
      end.
  - intros (Ht & a & b & region & account & -> & Hf).
    repeat (inversion Hf as [| ? ? ? Hf']; subst; clear Hf; rename Hf' into Hf).
    assert (Hlast : ~ In ":"%char
                      (list_ascii_of_string (principal_type +:+ "/" +:+ principal_name))).
    { apply free_append.
      - destruct Ht as [-> | ->]; simpl; intros Hin;
          repeat (destruct Hin as [Hin | Hin]; [discriminate Hin |]); exact Hin.
      - apply (free_append _ "/"); [| assumption].
        simpl. intros [Hin | []]. discriminate Hin. }
    rewrite split_of_join.
    2:{ repeat (constructor; [assumption |]).
        constructor; [simpl; intros Hin;
                      repeat (destruct Hin as [Hin | Hin]; [discriminate Hin |]);
                      exact Hin |].
        repeat (constructor; [assumption |]). constructor. }
    simpl.
    assert (Hs : split_once "/"%char (principal_type +:+ "/" +:+ principal_name)
                 = Some (principal_type, principal_name)).
    { apply split_once_some. split; [reflexivity |].
      destruct Ht as [-> | ->]; simpl; intros Hin;
        repeat (destruct Hin as [Hin | Hin]; [discriminate Hin |]); exact Hin. }
    rewrite Hs. destruct Ht as [-> | ->]; reflexivity.
Qed.

(** ** The allowlist of principals *)

Lemma startswith_spec p s : startswith p s = true <-> exists rest, s = p +:+ rest.
Proof.
  revert s. induction p as [| a p IH]; intros s; simpl.
  - split; [intros _; now exists s | reflexivity].
  - destruct s as [| b s].
    + split; [discriminate | intros [rest E]; discriminate].
    + rewrite andb_true_iff, IH. split.
      * intros [Hab [rest ->]]. apply Ascii.eqb_eq in Hab as ->. now exists rest.
      * intros [rest E]. inversion E; subst. split; [apply Ascii.eqb_refl | now exists rest].
Qed.

Lemma endswith_char_spec c p :
  endswith_char c p = true <-> p = drop_last p +:+ String c EmptyString.
Proof.
  induction p as [| a p IH]; [simpl; split; discriminate |].
  destruct p as [| b p].
  - simpl. rewrite Ascii.eqb_eq. split; [now intros -> | intros E; now inversion E].
  - change (endswith_char c (String a (String b p)))
      with (endswith_char c (String b p)).
    change (drop_last (String a (String b p)) +:+ String c EmptyString)
      with (String a (drop_last (String b p) +:+ String c EmptyString)).
    rewrite IH. split; [intros E; now rewrite <- E | intros E; now injection E].
Qed.

Lemma drop_last_app c p : drop_last (p +:+ String c EmptyString) = p.
Proof.
  induction p as [| a p IH]; [reflexivity |].
  simpl. destruct (p +:+ String c EmptyString) eqn:E.
  - destruct p; discriminate.
  - now rewrite IH.
Qed.

(** X22. For a principal that is a string, [_principal_matches_allowlist]
    raises nothing, and answers [True] exactly when the allowlist holds the
    principal itself or a pattern [<prefix>*] whose prefix the principal
    starts with: a star is a wildcard at the end of a pattern only, and the
    pattern [*] alone matches every principal. *)
Theorem _principal_matches_allowlist_spec s allowlist :
  (exists b, PolicyEngine._principal_matches_allowlist (VStr s) allowlist = inr b)
  /\ (PolicyEngine._principal_matches_allowlist (VStr s) allowlist = inr true
      <-> exists pattern,
            In pattern allowlist
            /\ (pattern = s
                \/ exists prefix rest, pattern = prefix +:+ "*" /\ s = prefix +:+ rest)).
Proof.
  induction allowlist as [| p l [[b IHb] IH]]; simpl.
  - split; [now exists false |]. split; [discriminate | intros (p & [] & _)].
  - destruct (endswith_char "*"%char p) eqn:Hw.
    + destruct (startswith (drop_last p) s) eqn:Hs.
      * split; [now exists true |]. split; [intros _ | reflexivity].
        exists p. split; [now left |]. right.
        apply startswith_spec in Hs as [rest ->].
        apply endswith_char_spec in Hw.
        exists (drop_last p), rest. split; [exact Hw | reflexivity].
      * split; [now exists b |]. rewrite IH. split.
        -- intros (q & Hq & Hm). exists q. split; [now right | exact Hm].
        -- intros (q & [<- | Hq] & Hm); [| exists q; now split].
           exfalso. destruct Hm as [E | (prefix & rest & -> & ->)].
           ++ subst s. apply endswith_char_spec in Hw.
              assert (Hs' : startswith (drop_last p) p = true)
                by (apply startswith_spec; exists "*"; exact Hw).
              congruence.
           ++ rewrite drop_last_app in Hs.
              assert (Hs' : startswith prefix (prefix +:+ rest) = true)
                by (apply startswith_spec; now eexists).
              congruence.
    + unfold str_eqb. destruct (String.eqb_spec s p) as [-> | Hne].
      * split; [now exists true |]. split; [intros _ | reflexivity].
        exists p. split; [now left | now left].
      * split; [now exists b |]. rewrite IH. split.
        -- intros (q & Hq & Hm). exists q. split; [now right | exact Hm].
        -- intros (q & [<- | Hq] & Hm); [| exists q; now split].
           exfalso. destruct Hm as [E | (prefix & rest & -> & ->)]; [now apply Hne |].
           assert (Hw' : endswith_char "*"%char (prefix +:+ "*") = true).
           { apply endswith_char_spec. now rewrite drop_last_app. }
           congruence.
Qed.

(** ** The exempted time windows *)

(** X23. When [_in_exempted_time_window] finds the time in a window, the window
    names the day of the week of the time and the time of day is between
    the start and the end of the window, both at second 0: the minute of
    the end is outside but for its first instant, and a window whose end is
    before its start (one that runs over midnight) exempts no time. *)
Theorem in_windows_sound now time_windows :
  PolicyEngine.in_windows now time_windows = inr true ->
  exists window start_hour start_min end_hour end_min,
    In window time_windows
    /\ str_in (weekday_abbr now) (tw_days window) = true
    /\ PolicyEngine.parse_hh_mm (tw_start window) = inr (start_hour, start_min)
    /\ PolicyEngine.parse_hh_mm (tw_end window) = inr (end_hour, end_min)
    /\ (start_hour * 3600 + start_min * 60) * 1000000 <= now mod day_micros
    /\ now mod day_micros <= (end_hour * 3600 + end_min * 60) * 1000000
    /\ start_hour * 60 + start_min <= end_hour * 60 + end_min.
Proof.
  induction time_windows as [| window rest IH]; simpl; [discriminate |].
  destruct (negb (str_in (weekday_abbr now) (tw_days window))) eqn:Hday.
  { intros E. destruct (IH E) as (w0 & sh & sm & eh & em & Hin & Hrest).
    exists w0, sh, sm, eh, em. split; [now right | exact Hrest]. }
  apply negb_false_iff in Hday.
  destruct (PolicyEngine.parse_hh_mm (tw_start window)) as [e | [sh sm]] eqn:Es;
    [discriminate |].
  destruct (PolicyEngine.parse_hh_mm (tw_end window)) as [e | [eh em]] eqn:Ee;
    [discriminate |].
  unfold replace_hm.
  destruct (negb ((0 <=? sh) && (sh <=? 23))); [discriminate |].
  destruct (negb ((0 <=? sm) && (sm <=? 59))); [discriminate |].
  destruct (negb ((0 <=? eh) && (eh <=? 23))); [discriminate |].
  destruct (negb ((0 <=? em) && (em <=? 59))); [discriminate |].
  destruct (_ && _) eqn:Hin.
  - intros _. exists window, sh, sm, eh, em.
    split; [now left |]. split; [exact Hday |]. split; [exact Es |].
    split; [exact Ee |].
    apply andb_prop in Hin as [H1 H2]. apply Z.leb_le in H1, H2.
    assert (Hd : 0 < day_micros) by (unfold day_micros; lia).
    pose proof (Z.div_mod now day_micros ltac:(lia)) as Hdm.
    lia.
  - intros E. destruct (IH E) as (w0 & sh' & sm' & eh' & em' & Hin' & Hrest).
    exists w0, sh', sm', eh', em'. split; [now right | exact Hrest].
Qed.

(** Wednesday at 10:00, in the office hours of Wednesdays. *)
Lemma in_windows_sound_witness :
  PolicyEngine.in_windows Fixtures.t_10h00 [Fixtures.office_window] = inr true
  /\ exists window start_hour start_min end_hour end_min,
       In window [Fixtures.office_window]
       /\ str_in (weekday_abbr Fixtures.t_10h00) (tw_days window) = true
       /\ PolicyEngine.parse_hh_mm (tw_start window) = inr (start_hour, start_min)
       /\ PolicyEngine.parse_hh_mm (tw_end window) = inr (end_hour, end_min)
       /\ (start_hour * 3600 + start_min * 60) * 1000000
          <= Fixtures.t_10h00 mod day_micros
       /\ Fixtures.t_10h00 mod day_micros <= (end_hour * 3600 + end_min * 60) * 1000000
       /\ start_hour * 60 + start_min <= end_hour * 60 + end_min.
Proof.
  assert (Hin : PolicyEngine.in_windows Fixtures.t_10h00 [Fixtures.office_window]
                = inr true) by (vm_compute; reflexivity).
  split; [exact Hin |].
  exact (in_windows_sound Fixtures.t_10h00 [Fixtures.office_window] Hin).
Defined.

(** At 17:00 and one microsecond the office hours are over, and at 23:00
    and at 03:00 the window from 22:00 to 06:00 exempts nothing. *)
Example in_windows_edges :
  PolicyEngine.in_windows (Fixtures.t_10h00 + 7 * 3600 * 1000000)
    [Fixtures.office_window] = inr true
  /\ PolicyEngine.in_windows (Fixtures.t_10h00 + 7 * 3600 * 1000000 + 1)
       [Fixtures.office_window] = inr false
  /\ PolicyEngine.in_windows (Fixtures.t_10h00 + 13 * 3600 * 1000000)
       [Fixtures.night_window] = inr false
  /\ PolicyEngine.in_windows (Fixtures.t_10h00 + 17 * 3600 * 1000000)
       [Fixtures.night_window] = inr false.
Proof. repeat split; vm_compute; reflexivity. Qed.

(** A role with a path: the path is part of the name. *)
Example _parse_principal_arn_path :
  _parse_principal_arn "arn:aws:iam::123456789012:role/service-role/builder"
  = inr ("role", "service-role/builder")
  /\ _parse_principal_arn "arn:aws:sts::123456789012:assumed-role/builder/session"
     = inl (ValueError
              "Invalid IAM ARN: arn:aws:sts::123456789012:assumed-role/builder/session")
  /\ _parse_principal_arn "arn:aws:iam::123456789012:group/admins"
     = inl (ValueError "Unsupported principal type: group").
Proof. repeat split; vm_compute; reflexivity. Qed.

(** ** What a matched plan says of the policies *)

Section EvaluateSound.

Context {X : Type}.
Implicit Types w : World X.

(** X21. The plan [evaluate] returns is the unmatched plan, or the plan of an
    enabled policy of the list that the event satisfies: its source and
    account are listed by the policy, its amount is not below the minimum
    (nor above the maximum, when there is one), and the policy has an id
    and at least one action.  The plan carries the id, the mode, the
    actions, the TTL and the scope of that policy. *)
Theorem evaluate_sound event policies w plan w' :
  PolicyEngine.evaluate event policies w = (inr plan, w') ->
  (matched plan = false /\ plan = unmatched_plan)
  \/ (matched plan = true
      /\ exists policy,
           In policy policies /\ enabled policy = true
           /\ str_in (source event) (match_source (match_ policy)) = true
           /\ str_in (account_id event) (match_account_ids (match_ policy)) = true
           /\ PrimFloat.ltb (amount event) (min_amount_usd (match_ policy)) = false
           /\ (forall mx, max_amount_usd (match_ policy) = Some mx ->
                          PrimFloat.ltb mx (amount event) = false)
           /\ policy_id policy <> EmptyString /\ actions policy <> []
           /\ plan = {| matched := true;
                        matched_policy_id := Some (policy_id policy);
                        plan_mode := Some (mode policy);
                        plan_actions := actions policy;
                        plan_ttl_minutes := Some (ttl_minutes policy);
                        target_principals := map arn (principals (scope policy)) |}).
Proof.
  revert w. induction policies as [| policy rest IH]; intros w; simpl.
  - intros E. apply ret_inv in E as [-> _]. now left.
  - destruct (enabled policy) eqn:Hen; simpl.
    2:{ intros E. destruct (IH _ E) as [Hu | (Hm & p & Hin & Hp)]; [now left |].
        right. split; [exact Hm |]. exists p. split; [now right | exact Hp]. }
    intros E. apply bind_inv in E as (hit & w1 & Ehit & E).
    destruct hit.
    + apply lift_inv in E as [E _]. right.
      unfold PolicyEngine._build_action_plan, ActionPlan_new in E.
      destruct (ActionPlan_valid _) eqn:Hv; [| discriminate].
      inversion E; subst plan. clear E. split; [reflexivity |].
      exists policy. split; [now left |]. split; [exact Hen |].
      unfold ActionPlan_valid in Hv. simpl in Hv.
      apply andb_prop in Hv as [Hv Hacts]. apply andb_prop in Hv as [Hid _].
      unfold PolicyEngine.match_event in Ehit.
      destruct (PolicyEngine.conditions_hold event policy) eqn:Hc; simpl in Ehit;
        [| apply ret_inv in Ehit as [Ehit _]; discriminate].
      unfold PolicyEngine.conditions_hold in Hc.
      destruct (str_in (source event) _) eqn:H1; simpl in Hc; [| discriminate].
      destruct (str_in (account_id event) _) eqn:H2; simpl in Hc; [| discriminate].
      destruct (PrimFloat.ltb (amount event) _) eqn:H3; [discriminate |].
      repeat split; try reflexivity.
      * intros mx Hmx. rewrite Hmx in Hc.
        destruct (PrimFloat.ltb mx (amount event)); [discriminate | reflexivity].
      * intros Hempty. rewrite Hempty in Hid. discriminate.
      * intros Hempty. rewrite Hempty in Hacts. discriminate.
    + destruct (IH _ E) as [Hu | (Hm & p & Hin & Hp)]; [now left |].
      right. split; [exact Hm |]. exists p. split; [now right | exact Hp].
Qed.

End EvaluateSound.

(** The event of 800 USD against a disabled policy, a policy over 1000 USD
    and the manual policy. *)
Lemma evaluate_sound_witness :
  exists plan w',
    PolicyEngine.evaluate Fixtures.event_800
      [Fixtures.disabled_policy; Fixtures.high_policy; Fixtures.manual_policy]
      Fixtures.w_10h00 = (inr plan, w')
    /\ matched_policy_id plan = Some "ci-ec2-spike"
    /\ exists policy,
         In policy [Fixtures.disabled_policy; Fixtures.high_policy;
                    Fixtures.manual_policy]
         /\ enabled policy = true
         /\ matched_policy_id plan = Some (policy_id policy).
Proof.
  assert (Hid : match fst (PolicyEngine.evaluate Fixtures.event_800
                             [Fixtures.disabled_policy; Fixtures.high_policy;
                              Fixtures.manual_policy] Fixtures.w_10h00) with
                | inr plan => matched_policy_id plan
                | inl _ => None
                end = Some "ci-ec2-spike") by (vm_compute; reflexivity).
  destruct (PolicyEngine.evaluate Fixtures.event_800
              [Fixtures.disabled_policy; Fixtures.high_policy; Fixtures.manual_policy]
              Fixtures.w_10h00) as [[e | plan] w'] eqn:E; simpl in Hid;
    [discriminate Hid |].
  exists plan, w'. split; [reflexivity |]. split; [exact Hid |].
  destruct (evaluate_sound Fixtures.event_800
              [Fixtures.disabled_policy; Fixtures.high_policy; Fixtures.manual_policy]
              Fixtures.w_10h00 plan w' E)
    as [[_ Hu] | (_ & policy & Hin & Hen & _ & _ & _ & _ & _ & _ & Hplan)].
  - rewrite Hu in Hid. discriminate Hid.
  - exists policy. split; [exact Hin |]. split; [exact Hen |].
    rewrite Hplan. reflexivity.
Defined.

(** ** The executor against the in-memory account *)

Lemma _parse_principal_arn_type arn t n :
  _parse_principal_arn arn = inr (t, n) -> t = "role" \/ t = "user".
Proof.
  unfold _parse_principal_arn.
  destruct (_ || _); [discriminate |].
  destruct (split_once _ _) as [[t' n'] |]; [| discriminate].
  unfold str_in. simpl. unfold str_eqb.
  destruct (String.eqb_spec t' "role") as [-> | _]; simpl.
  - intros E. inversion E. now left.
  - destruct (String.eqb_spec t' "user") as [-> | _]; simpl; [| discriminate].
    intros E. inversion E. now right.
Qed.

Lemma str_in_last x l : str_in x (l ++ [x]) = true.
Proof.
  unfold str_in. rewrite existsb_app. simpl. unfold str_eqb.
  rewrite String.eqb_refl. now rewrite orb_true_r.
Qed.

Lemma pair_eqb_refl p : MockAWS.pair_eqb p p = true.
Proof. unfold MockAWS.pair_eqb, str_eqb. now rewrite !String.eqb_refl. Qed.

Lemma pair_eqb_eq p q : MockAWS.pair_eqb p q = true <-> p = q.
Proof.
  unfold MockAWS.pair_eqb, str_eqb. destruct p, q. simpl.
  rewrite andb_true_iff, !String.eqb_eq.
  split; [intros [-> ->] | intros E; inversion E]; auto.
Qed.

Lemma existsb_last {A} (f : A -> bool) l x : f x = true -> existsb f (l ++ [x]) = true.
Proof. intros Hx. rewrite existsb_app. simpl. rewrite Hx. now rewrite orb_true_r. Qed.

Ltac mock_run2 :=
  unfold bind, call, try_except, ret, raise;
  cbn -[String.append str_in existsb contains List.filter MockAWS.entities_of
        length Nat.add Nat.eqb str_eqb].

(** One run through a handler over the in-memory account. *)
Ltac mock_run :=
  unfold bind, call, try_except, ret, raise;
  cbn -[String.append str_in existsb policy_name_of policy_document_json].

Section MockAttach.

Implicit Types w : World MockAWS.State.

Lemma mock_attach_run arn deny pid t n w :
  _parse_principal_arn arn = inr (t, n) ->
  str_in n (known t (w_ext w)) = true ->
  let s := w_ext w in
  let a := deny_policy_arn s deny pid in
  exists w',
    _attach_deny_policy arn deny pid w
    = (inr [("policy_arn", VStr a);
            ("policy_name", VStr (policy_name_of deny pid));
            ("principal_arn", VStr arn);
            ("principal_type", VStr t);
            ("principal_name", VStr n);
            ("before", str_list (MockAWS.attached_to n (attachments t s)));
            ("after", str_list (MockAWS.attached_to n
                                  (if existsb (MockAWS.pair_eqb (n, a)) (attachments t s)
                                   then attachments t s
                                   else attachments t s ++ [(n, a)])));
            ("denied_actions", str_list deny)], w')
    /\ MockAWS.account (w_ext w') = MockAWS.account s
    /\ MockAWS.roles (w_ext w') = MockAWS.roles s
    /\ MockAWS.users (w_ext w') = MockAWS.users s
    /\ MockAWS.policies (w_ext w')
       = (if str_in a (MockAWS.policies s) then MockAWS.policies s
          else MockAWS.policies s ++ [a])
    /\ attachments t (w_ext w')
       = (if existsb (MockAWS.pair_eqb (n, a)) (attachments t s)
          then attachments t s
          else attachments t s ++ [(n, a)])
    /\ other_attachments t (w_ext w') = other_attachments t s
    /\ store_of w' = store_of w
    /\ (str_in a (MockAWS.policies s) = true ->
        calls_of "iam:CreatePolicy" (w_ext w') = calls_of "iam:CreatePolicy" s).
Proof.
  intros Hp Hk s a. subst s. unfold deny_policy_arn in a.
  unfold _attach_deny_policy, _get_account_id, _list_attached_policies.
  unfold bind at 1. unfold lift. rewrite Hp.
  destruct (_parse_principal_arn_type _ _ _ Hp) as [-> | ->];
    unfold known, attachments, other_attachments in *; simpl in Hk;
    mock_run; fold a;
    (destruct (str_in a (MockAWS.policies (w_ext w))) eqn:Hpol; mock_run;
     [ rewrite Hk; mock_run; unfold MockAWS.attach; mock_run;
       rewrite Hk, Hpol; mock_run
     | fold a; rewrite Hpol; mock_run; rewrite Hk; mock_run;
       unfold MockAWS.attach; mock_run; rewrite Hk, str_in_last; mock_run ]);
    match goal with
    | |- context [existsb ?f ?l] => destruct (existsb f l) eqn:Hatt
    end;
    mock_run; rewrite Hk; mock_run;
    (eexists; split; [reflexivity |]); mock_run;
    repeat (split; [reflexivity |]);
    intros Hin; try discriminate Hin; reflexivity.
Qed.

Lemma mock_attach_inv arn deny pid w d w' :
  _attach_deny_policy arn deny pid w = (inr d, w') ->
  exists t n, _parse_principal_arn arn = inr (t, n)
              /\ str_in n (known t (w_ext w)) = true.
Proof.
  destruct (_parse_principal_arn arn) as [e | [t n]] eqn:Hp.
  { unfold _attach_deny_policy. unfold bind at 1. unfold lift. rewrite Hp.
    discriminate. }
  intros E. exists t, n. split; [reflexivity |].
  destruct (str_in n (known t (w_ext w))) eqn:Hk; [reflexivity | exfalso].
  revert E.
  unfold _attach_deny_policy, _get_account_id, _list_attached_policies.
  unfold bind at 1. unfold lift. rewrite Hp.
  destruct (_parse_principal_arn_type _ _ _ Hp) as [-> | ->];
    unfold known in Hk; simpl in Hk; mock_run;
    match goal with
    | |- context [str_in ?a (MockAWS.policies (w_ext w))] =>
        destruct (str_in a (MockAWS.policies (w_ext w))) eqn:Hpol
    end;
    mock_run; try rewrite Hpol; mock_run; rewrite Hk; mock_run; discriminate.
Qed.

(** X13. Attaching the same deny list for the same policy a second time: the
    deny policy of the first run is found and attached again, none is
    created, and the policies and attachments of the account are after the
    second run what they were after the first. *)
Theorem _attach_deny_policy_reuses principal_arn deny_actions policy_id w d1 w1 :
  _attach_deny_policy principal_arn deny_actions policy_id w = (inr d1, w1) ->
  exists d2 w2,
    _attach_deny_policy principal_arn deny_actions policy_id w1 = (inr d2, w2)
    /\ dict_get "policy_arn" d2 = dict_get "policy_arn" d1
    /\ MockAWS.policies (w_ext w2) = MockAWS.policies (w_ext w1)
    /\ MockAWS.role_attachments (w_ext w2) = MockAWS.role_attachments (w_ext w1)
    /\ MockAWS.user_attachments (w_ext w2) = MockAWS.user_attachments (w_ext w1)
    /\ dict_get "before" d2 = dict_get "after" d1
    /\ dict_get "after" d2 = dict_get "after" d1
    /\ calls_of "iam:CreatePolicy" (w_ext w2) = calls_of "iam:CreatePolicy" (w_ext w1).
Proof.
  intros E1.
  destruct (mock_attach_inv _ _ _ _ _ _ E1) as (t & n & Hp & Hk).
  destruct (mock_attach_run _ deny_actions policy_id _ _ w Hp Hk)
    as (w' & E & Hacc & Hroles & Husers & Hpol & Hatt & Hoth & _ & _).
  rewrite E in E1. inversion E1; subst d1 w1. clear E1.
  assert (Hk1 : str_in n (known t (w_ext w')) = true).
  { unfold known in *. now rewrite Hroles, Husers. }
  destruct (mock_attach_run _ deny_actions policy_id _ _ w' Hp Hk1)
    as (w2 & E2 & _ & _ & _ & Hpol2 & Hatt2 & Hoth2 & _ & Hcalls).
  assert (Ha : deny_policy_arn (w_ext w') deny_actions policy_id
               = deny_policy_arn (w_ext w) deny_actions policy_id).
  { unfold deny_policy_arn. now rewrite Hacc. }
  rewrite Ha in *.
  set (a := deny_policy_arn (w_ext w) deny_actions policy_id) in *.
  assert (Hin : str_in a (MockAWS.policies (w_ext w')) = true).
  { rewrite Hpol. destruct (str_in a (MockAWS.policies (w_ext w))) eqn:Hq;
      [exact Hq | apply str_in_last]. }
  assert (Hex : existsb (MockAWS.pair_eqb (n, a)) (attachments t (w_ext w')) = true).
  { rewrite Hatt.
    destruct (existsb (MockAWS.pair_eqb (n, a)) (attachments t (w_ext w))) eqn:Hq;
      [exact Hq | apply existsb_last, pair_eqb_refl]. }
  rewrite Hin in Hpol2. rewrite Hex in Hatt2, E2.
  eexists. exists w2. split; [exact E2 |].
  split; [reflexivity |]. split; [exact Hpol2 |].
  assert (Hboth : MockAWS.role_attachments (w_ext w2) = MockAWS.role_attachments (w_ext w')
                  /\ MockAWS.user_attachments (w_ext w2)
                     = MockAWS.user_attachments (w_ext w')).
  { unfold attachments, other_attachments in Hatt2, Hoth2.
    destruct (str_eqb t "role"); now split. }
  split; [apply Hboth |]. split; [apply Hboth |].
  split; [| split; [| now apply Hcalls]].
  - cbn [dict_get]. simpl. now rewrite <- Hatt.
  - cbn [dict_get]. simpl. now rewrite <- Hatt.
Qed.

Lemma contains_prefix p rest : contains p (p +:+ rest) = true.
Proof.
  assert (Hs : startswith p (p +:+ rest) = true)
    by (apply startswith_spec; now eexists).
  destruct (p +:+ rest); simpl in *; now rewrite Hs.
Qed.

Lemma contains_append p pre s : contains p s = true -> contains p (pre +:+ s) = true.
Proof.
  intros Hs. induction pre as [| c pre IH]; [exact Hs |].
  simpl. rewrite IH. apply orb_true_r.
Qed.

Lemma unreferenced a n l :
  existsb (fun p : string * string => str_eqb (snd p) a) l = false ->
  existsb (MockAWS.pair_eqb (n, a)) l = false
  /\ List.filter (fun p => negb (MockAWS.pair_eqb (n, a) p)) l = l
  /\ MockAWS.entities_of a l = [].
Proof.
  induction l as [| [x y] l IH]; [now repeat split |].
  cbn [existsb snd]. intros Hex. apply orb_false_elim in Hex as [Hy Hl].
  destruct (IH Hl) as (H1 & H2 & H3).
  assert (Hp : MockAWS.pair_eqb (n, a) (x, y) = false).
  { unfold MockAWS.pair_eqb, str_eqb in *. simpl.
    rewrite (String.eqb_sym a y), Hy. apply andb_false_r. }
  split; [| split].
  - cbn [existsb]. now rewrite Hp, H1.
  - cbn [List.filter]. rewrite Hp. cbn [negb]. now rewrite H2.
  - unfold MockAWS.entities_of in *. cbn [List.filter snd]. rewrite Hy. exact H3.
Qed.

Lemma filter_last q l :
  List.filter (fun p => negb (MockAWS.pair_eqb q p)) (l ++ [q])
  = List.filter (fun p => negb (MockAWS.pair_eqb q p)) l.
Proof.
  rewrite List.filter_app. simpl. rewrite pair_eqb_refl. simpl. apply app_nil_r.
Qed.

Lemma filter_absent_last a l :
  str_in a l = false -> List.filter (fun x => negb (str_eqb x a)) (l ++ [a]) = l.
Proof.
  intros Hl. rewrite List.filter_app. simpl. unfold str_eqb at 2.
  rewrite String.eqb_refl. simpl. rewrite app_nil_r.
  unfold str_in in Hl. induction l as [| x l IH]; simpl in *; [reflexivity |].
  apply orb_false_elim in Hl as [Hx Hl].
  unfold str_eqb in *. rewrite (String.eqb_sym x a), Hx. simpl. now rewrite IH.
Qed.

Lemma filter_absent a l :
  str_in a l = false -> List.filter (fun x => negb (str_eqb x a)) l = l.
Proof.
  unfold str_in. induction l as [| x l IH]; simpl; [reflexivity |].
  intros Hex. apply orb_false_elim in Hex as [Hx Hl].
  unfold str_eqb in *. rewrite (String.eqb_sym x a), Hx. simpl. now rewrite IH.
Qed.

(** X14. Attach, then roll back.  When the deny policy is new to the account
    (it does not exist and nothing is attached under its ARN), rolling back
    the execution whose diff the attach returned detaches the policy and
    deletes it: the policies and the attachments of the account are again
    what they were before the attach. *)
Theorem attach_then_rollback_restores principal_arn deny_actions policy_id execution
    w d w1 :
  _attach_deny_policy principal_arn deny_actions policy_id w = (inr d, w1) ->
  diff execution = d ->
  str_in EmptyString (MockAWS.roles (w_ext w) ++ MockAWS.users (w_ext w)) = false ->
  str_in (deny_policy_arn (w_ext w) deny_actions policy_id)
    (MockAWS.policies (w_ext w)) = false ->
  existsb (fun p => str_eqb (snd p)
                      (deny_policy_arn (w_ext w) deny_actions policy_id))
    (MockAWS.role_attachments (w_ext w) ++ MockAWS.user_attachments (w_ext w)) = false ->
  exists w2,
    _rollback_attach_deny_policy execution w1 = (inr tt, w2)
    /\ MockAWS.policies (w_ext w2) = MockAWS.policies (w_ext w)
    /\ MockAWS.role_attachments (w_ext w2) = MockAWS.role_attachments (w_ext w)
    /\ MockAWS.user_attachments (w_ext w2) = MockAWS.user_attachments (w_ext w).
Proof.
  intros E1 Hdiff Hnames Hnew Hunref.
  destruct (mock_attach_inv _ _ _ _ _ _ E1) as (t & n & Hp & Hk).
  destruct (mock_attach_run _ deny_actions policy_id _ _ w Hp Hk)
    as (w' & E & Hacc & Hroles & Husers & Hpol & Hatt & Hoth & _ & _).
  rewrite E in E1. injection E1 as Hd Hw. subst w1. rewrite <- Hd in Hdiff. clear Hd.
  set (a := deny_policy_arn (w_ext w) deny_actions policy_id) in *.
  rewrite Hnew in Hpol.
  rewrite existsb_app in Hunref. apply orb_false_elim in Hunref as [Hur Huu].
  destruct (unreferenced a n _ Hur) as (Hr1 & Hr2 & Hr3).
  destruct (unreferenced a n _ Huu) as (Hu1 & Hu2 & Hu3).
  assert (Hn : str_eqb n EmptyString = false).
  { unfold str_eqb. destruct (String.eqb_spec n EmptyString) as [-> | _]; [| reflexivity].
    unfold str_in in Hnames, Hk. rewrite existsb_app in Hnames.
    apply orb_false_elim in Hnames as [H1 H2].
    unfold known in Hk. unfold str_in in Hk.
    destruct (str_eqb t "role"); congruence. }
  assert (Ha : str_eqb a EmptyString = false) by reflexivity.
  assert (Hg : contains "guardrails-deny-" a = true).
  { unfold a, deny_policy_arn, policy_name_of.
    do 3 apply contains_append. apply contains_prefix. }
  unfold _rollback_attach_deny_policy. rewrite Hdiff. clear Hdiff E.
  clearbody a.
  destruct (_parse_principal_arn_type _ _ _ Hp) as [-> | ->];
    unfold known, attachments, other_attachments in *; simpl in Hk, Hatt, Hoth;
    [rewrite Hr1 in Hatt | rewrite Hu1 in Hatt];
    unfold str_param, lift;
    cbn -[String.append str_in existsb contains];
    rewrite Ha, Hn; mock_run2; unfold MockAWS.detach;
    first [rewrite Hroles | rewrite Husers]; rewrite Hk, Hatt;
    rewrite (existsb_last _ _ _ (pair_eqb_refl _)); mock_run2;
    rewrite Hg; mock_run2;
    rewrite filter_last; first [rewrite Hr2 | rewrite Hu2];
    rewrite Hpol, str_in_last, Hoth, Hr3, Hu3;
    cbn -[String.append str_in existsb contains List.filter str_eqb];
    rewrite Hpol, str_in_last, ?Hoth; mock_run2;
    rewrite existsb_app, Hur, Huu; mock_run2;
    rewrite (filter_absent_last _ _ Hnew);
    (eexists; split; [reflexivity |]); mock_run2;
    repeat split; first [reflexivity | exact Hoth].
Qed.

End MockAttach.

(** The deny policy of the scenario attached twice to the role. *)
Lemma _attach_deny_policy_reuses_witness :
  exists d1 w1 d2 w2,
    _attach_deny_policy Fixtures.ci_role ["ec2:RunInstances"] "ci-ec2-spike"
      Fixtures.w_10h00 = (inr d1, w1)
    /\ _attach_deny_policy Fixtures.ci_role ["ec2:RunInstances"] "ci-ec2-spike" w1
       = (inr d2, w2)
    /\ MockAWS.policies (w_ext w2) = MockAWS.policies (w_ext w1)
    /\ MockAWS.role_attachments (w_ext w2) = MockAWS.role_attachments (w_ext w1)
    /\ calls_of "iam:CreatePolicy" (w_ext w2) = calls_of "iam:CreatePolicy" (w_ext w1).
Proof.
  assert (Hok : match fst (_attach_deny_policy Fixtures.ci_role ["ec2:RunInstances"]
                             "ci-ec2-spike" Fixtures.w_10h00) with
                | inr _ => true
                | inl _ => false
                end = true) by (vm_compute; reflexivity).
  destruct (_attach_deny_policy Fixtures.ci_role ["ec2:RunInstances"] "ci-ec2-spike"
              Fixtures.w_10h00) as [[e | d1] w1] eqn:E; simpl in Hok;
    [discriminate Hok |].
  destruct (_attach_deny_policy_reuses Fixtures.ci_role ["ec2:RunInstances"]
              "ci-ec2-spike" Fixtures.w_10h00 d1 w1 E)
    as (d2 & w2 & E2 & _ & Hpol & Hr & _ & _ & _ & Hc).
  exists d1, w1, d2, w2.
  split; [reflexivity |]. split; [exact E2 |]. split; [exact Hpol |].
  split; [exact Hr | exact Hc].
Defined.

(** The same actions in another order give another name: the list is
    hashed as it is given. *)
Example policy_name_of_order :
  policy_name_of ["ec2:RunInstances"; "ec2:StartInstances"] "ci-ec2-spike"
  <> policy_name_of ["ec2:StartInstances"; "ec2:RunInstances"] "ci-ec2-spike".
Proof. vm_compute. discriminate. Qed.

(** The deny policy of the scenario attached to the role of the fresh
    account, and rolled back. *)
Lemma attach_then_rollback_restores_witness :
  exists d w1 w2,
    _attach_deny_policy Fixtures.ci_role ["ec2:RunInstances"] "ci-ec2-spike"
      Fixtures.w_10h00 = (inr d, w1)
    /\ _rollback_attach_deny_policy (set_diff d Fixtures.executed_notify) w1
       = (inr tt, w2)
    /\ MockAWS.policies (w_ext w2) = MockAWS.policies (w_ext Fixtures.w_10h00)
    /\ MockAWS.role_attachments (w_ext w2)
       = MockAWS.role_attachments (w_ext Fixtures.w_10h00).
Proof.
  assert (Hok : match fst (_attach_deny_policy Fixtures.ci_role ["ec2:RunInstances"]
                             "ci-ec2-spike" Fixtures.w_10h00) with
                | inr _ => true
                | inl _ => false
                end = true) by (vm_compute; reflexivity).
  destruct (_attach_deny_policy Fixtures.ci_role ["ec2:RunInstances"] "ci-ec2-spike"
              Fixtures.w_10h00) as [[e | d] w1] eqn:E; simpl in Hok;
    [discriminate Hok |].
  destruct (attach_then_rollback_restores Fixtures.ci_role ["ec2:RunInstances"]
              "ci-ec2-spike" (set_diff d Fixtures.executed_notify)
              Fixtures.w_10h00 d w1 E eq_refl eq_refl eq_refl eq_refl)
    as (w2 & E2 & Hpol & Hr & _).
  exists d, w1, w2.
  split; [reflexivity |]. split; [exact E2 |]. split; [exact Hpol | exact Hr].
Defined.

(** ** The budgets handler: executing a plan by its mode *)

Section SavingExecutions.

Context {X : Type}.
Implicit Types w : World X.

Lemma snd_bind_ret {A B} (m : M X A) (g : A -> B) w :
  snd (bind m (fun a => ret (g a)) w) = snd (m w).
Proof. unfold bind, ret. now destruct (m w) as [[e | a] w']. Qed.

Lemma mapM_cons_snd {A B} (g : A -> M X B) x l w :
  snd (mapM g (x :: l) w)
  = match g x w with
    | (inr _, w1) => snd (mapM g l w1)
    | (inl _, w1) => w1
    end.
Proof.
  cbn [mapM]. unfold bind at 1.
  destruct (g x w) as [[e | y] w1]; [reflexivity | apply snd_bind_ret].
Qed.

(** Saving a list of executions: the external services are not called, and
    an entry of the table after is an entry of the table before or one of
    the executions saved. *)
Lemma mapM_save_entries (f : ActionExecution -> ActionExecution) l w :
  w_ext (snd (mapM (fun e => save_execution (f e)) l w)) = w_ext w
  /\ forall k e,
       w_table (snd (mapM (fun e => save_execution (f e)) l w)) !! k = Some e ->
       w_table w !! k = Some e \/ In e (map f l).
Proof.
  revert w. induction l as [| x l IH]; intros w.
  - simpl. split; [reflexivity | auto].
  - rewrite mapM_cons_snd, save_execution_run. cbv zeta.
    destruct (w_table_fault w (w_table_calls w)) as [e |].
    + destruct (is_ClientError e).
      * destruct (IH (set_table_calls (S (w_table_calls w)) w)) as [Hx Ht].
        split; [exact Hx |].
        intros k e' Hk. destruct (Ht k e' Hk) as [Ho | Hin]; [now left |].
        right. now right.
      * simpl. split; [reflexivity | auto].
    + destruct (IH (set_table (<[execution_id (f x) := f x]> (w_table w))
                      (set_table_calls (S (w_table_calls w)) w))) as [Hx Ht].
      split; [exact Hx |].
      intros k e' Hk. destruct (Ht k e' Hk) as [Ho | Hin].
      * simpl in Ho. destruct (decide (k = execution_id (f x))) as [-> | Hne].
        -- rewrite lookup_insert_eq in Ho. inversion Ho. right. now left.
        -- rewrite lookup_insert_ne in Ho by congruence. now left.
      * right. now right.
Qed.

(** While the table answers, every execution of the list is saved: the
    loop returns, and the table then holds, under the id of each, an
    execution of the list. *)
Lemma mapM_save_all (f : ActionExecution -> ActionExecution) l w :
  no_table_fault w ->
  (forall e, execution_id (f e) = execution_id e) ->
  exists saved w',
    mapM (fun e => save_execution (f e)) l w = (inr saved, w')
    /\ no_table_fault w' /\ w_ext w' = w_ext w
    /\ w_clock w' = w_clock w /\ w_clock_reads w' = w_clock_reads w
    /\ (forall x, In x l ->
          exists e, w_table w' !! execution_id x = Some e /\ In e (map f l))
    /\ (forall k, ~ In k (map execution_id l) -> w_table w' !! k = w_table w !! k).
Proof.
  intros Hnf Hid. revert w Hnf. induction l as [| x l IH]; intros w Hnf.
  - exists [], w. simpl. repeat split; auto. intros x [].
  - cbn [mapM]. unfold bind at 1. rewrite save_execution_run. cbv zeta.
    rewrite Hnf.
    set (w1 := set_table (<[execution_id (f x) := f x]> (w_table w))
                 (set_table_calls (S (w_table_calls w)) w)).
    destruct (IH w1) as (saved & w' & E & Hnf' & Hx & Hc & Hr & Hin & Hout).
    { intros n. apply Hnf. }
    exists (true :: saved), w'. unfold bind, ret. rewrite E.
    split; [reflexivity |]. split; [exact Hnf' |]. split; [exact Hx |].
    split; [exact Hc |]. split; [exact Hr |]. split.
    + intros y [<- | Hy].
      * destruct (in_dec string_dec (execution_id x) (map execution_id l)) as [Hl | Hl].
        -- apply in_map_iff in Hl as (z & Hz & Hzl).
           destruct (Hin z Hzl) as (e & He & Hel).
           exists e. rewrite <- Hz. split; [exact He | now right].
        -- rewrite (Hout _ Hl). subst w1. simpl.
           rewrite <- (Hid x), lookup_insert_eq. exists (f x). split; [reflexivity | now left].
      * destruct (Hin y Hy) as (e & He & Hel). exists e. split; [exact He | now right].
    + intros k Hk. simpl in Hk.
      rewrite Hout by tauto. subst w1. simpl.
      rewrite lookup_insert_ne; [reflexivity |]. rewrite Hid. tauto.
Qed.

End SavingExecutions.

Section PlanExecutions.

Context {X : Type} `{Boto X}.
Implicit Types w : World X.

(** What holds of every execution one action on one principal gives holds
    of every execution of the plan. *)
Lemma execute_action_plan_forall self (P : ActionExecution -> Prop) plan event_id
    executed_by :
  (forall action principal_arn,
     returns P (_execute_single_action self action principal_arn
                  (default EmptyString (matched_policy_id plan)) event_id
                  executed_by (plan_ttl_minutes plan))) ->
  returns (Forall P) (execute_action_plan self plan event_id executed_by).
Proof.
  intros Hone. unfold execute_action_plan.
  destruct (negb (matched plan)); [apply returns_raise |].
  destruct (_ || _); [apply returns_raise |].
  apply returns_bind_post with (Q := Forall (Forall P)).
  - intros w ls Els.
    match type of Els with
    | fst (mapM ?f _ _) = _ =>
        pose proof (mapM_returns (fun (a : PolicyAction) l => Forall P l) f
                      (plan_actions plan)) as Hall
    end.
    eapply Forall2_right; [apply (Hall ltac:(
      intros a w0 l El;
      match type of El with
      | fst (mapM ?g _ _) = _ =>
          pose proof (mapM_returns (fun (p : string) e => P e) g
                        (target_principals plan)
                        ltac:(intros p; apply Hone) w0 l El) as H2
      end;
      eapply Forall2_right; [exact H2 | auto]) w ls Els) | auto].
  - intros ls Hls. apply returns_ret. now apply Forall_concat.
Qed.

(** A matched plan that is valid gives one execution for each pair of an
    action and a target. *)
Lemma execute_action_plan_runs self plan event_id executed_by w :
  matched plan = true ->
  ActionPlan_valid plan = true ->
  Forall (fun a => PolicyAction_valid a = true) (plan_actions plan) ->
  exists executions w',
    execute_action_plan self plan event_id executed_by w = (inr executions, w')
    /\ map (fun e => (Models.action e, target e)) executions = plan_pairs plan.
Proof.
  intros Hm Hv Hacts. unfold execute_action_plan. rewrite Hm. simpl.
  unfold ActionPlan_valid in Hv. rewrite Hm in Hv.
  apply andb_prop in Hv as [Hv Hne]. apply andb_prop in Hv as [Hid _].
  apply negb_true_iff in Hid. rewrite Hid. simpl.
  destruct (plan_actions plan) as [| a0 acts] eqn:Eacts; [discriminate |].
  rewrite <- Eacts in *. clear Hne.
  set (body := fun action => mapM (fun principal_arn => _ ) (target_principals plan)).
  assert (Hnr : no_raise (mapM body (plan_actions plan))).
  { clear Eacts. induction Hacts as [| a l Ha _ IH]; simpl.
    - apply no_raise_ret.
    - apply no_raise_bind.
      + apply no_raise_mapM. intros p.
        now apply _execute_single_action_no_raise.
      + intros y. apply no_raise_bind; [exact IH | intros; apply no_raise_ret]. }
  destruct (no_raise_run _ w Hnr) as (ls & w' & Els).
  exists (concat ls), w'. unfold bind. rewrite Els. simpl.
  split; [reflexivity |].
  apply outcomes_concat.
  apply (mapM_returns (fun a l => Forall2 (outcome_of a) (target_principals plan) l)
           body (plan_actions plan)) with (w := w); [| now rewrite Els].
  intros a. apply mapM_returns. intros p.
  apply _execute_single_action_returns.
Qed.

Lemma plan_pairs_nonempty plan :
  ActionPlan_valid plan = true -> matched plan = true ->
  target_principals plan <> [] -> plan_pairs plan <> [].
Proof.
  unfold ActionPlan_valid, plan_pairs. intros Hv Hm Ht. rewrite Hm in Hv.
  apply andb_prop in Hv as [_ Ha].
  destruct (plan_actions plan) as [| a acts]; [discriminate |].
  destruct (target_principals plan) as [| p ps]; [contradiction |].
  simpl. discriminate.
Qed.

End PlanExecutions.

Section BudgetsFacts.

Context {X : Type} `{Boto X}.
Implicit Types w : World X.

Variable getenv : string -> option string.
Variable send_dry_run_alert : CostEvent -> ActionPlan -> string -> X -> Result bool * X.
Variable send_approval_request :
  CostEvent -> ActionPlan -> string -> string -> X -> Result bool * X.

(** What the executor in dry-run mode returns for the budgets handler. *)
Lemma planned_executions action_plan event_id w :
  w_ext (snd (execute_action_plan {| dry_run := true |} action_plan event_id
                "system:budgets_event" w)) = w_ext w
  /\ w_table (snd (execute_action_plan {| dry_run := true |} action_plan event_id
                     "system:budgets_event" w)) = w_table w
  /\ forall executions,
       fst (execute_action_plan {| dry_run := true |} action_plan event_id
              "system:budgets_event" w) = inr executions ->
       Forall (fun e => ttl_expires_at e = None
                        /\ executed_by e = "system:budgets_event"
                        /\ exec_event_id e = event_id) executions.
Proof.
  pose proof (execute_action_plan_dry_run_preserves {| dry_run := true |} eq_refl
                action_plan event_id "system:budgets_event" w) as Hp.
  inversion Hp as [[Hx Ht]].
  split; [reflexivity |]. split; [reflexivity |].
  intros executions E.
  pose proof (execute_action_plan_dry_run_returns {| dry_run := true |} eq_refl
                action_plan event_id "system:budgets_event" w executions E) as Hall.
  assert (Hby : Forall (fun e => executed_by e = "system:budgets_event"
                                 /\ exec_event_id e = event_id) executions).
  { apply (execute_action_plan_forall {| dry_run := true |}
             (fun e => executed_by e = "system:budgets_event"
                       /\ exec_event_id e = event_id)
             action_plan event_id "system:budgets_event") with (w := w); [| exact E].
    intros action principal_arn.
    eapply returns_weaken; [apply _execute_single_action_fields |].
    intros e (_ & _ & _ & Hev & Hex & _). now split. }
  rewrite Forall_forall in *. intros e He.
  destruct (Hall e He) as (_ & Httl & _). destruct (Hby e He) as [H1 H2].
  now repeat split.
Qed.

(** X24. In manual mode nothing is done to IAM: the external services are
    after the run what they were before, or what the one call of
    [send_approval_request] made of them; and an execution the run has
    written to the audit table is planned, carries no ttl_expires_at, and
    is recorded as made by system:budgets_event for the event. *)
Theorem manual_mode_changes_no_permission cost_event action_plan w :
  plan_mode action_plan = Some Manual ->
  (w_ext (snd (BudgetsEvent.execute_action_plan getenv send_dry_run_alert
                    send_approval_request cost_event action_plan w)) = w_ext w
   \/ exists execution_id approve_url,
        w_ext (snd (BudgetsEvent.execute_action_plan getenv send_dry_run_alert
                    send_approval_request cost_event action_plan w))
        = snd (send_approval_request cost_event action_plan execution_id
                 approve_url (w_ext w)))
  /\ forall k e,
       w_table (snd (BudgetsEvent.execute_action_plan getenv send_dry_run_alert
                    send_approval_request cost_event action_plan w)) !! k = Some e ->
       w_table w !! k = Some e
       \/ (status e = Planned /\ ttl_expires_at e = None
           /\ executed_by e = "system:budgets_event"
           /\ exec_event_id e = event_id cost_event).
Proof.
  intros Hmode.
  remember (snd (BudgetsEvent.execute_action_plan getenv send_dry_run_alert
                    send_approval_request cost_event action_plan w)) as w' eqn:Hw'. revert Hw'.
  unfold BudgetsEvent.execute_action_plan.
  destruct (getenv "SLACK_WEBHOOK_URL") as [slack_webhook |];
    [| intros ->; simpl; split; [now left | auto]].
  destruct (str_eqb slack_webhook EmptyString);
    [intros ->; simpl; split; [now left | auto] |].
  unfold bind at 1, lift.
  destruct (BudgetsEvent.SlackNotifier_new slack_webhook) as [e | []];
    [intros ->; simpl; split; [now left | auto] |].
  rewrite Hmode.
  destruct (planned_executions action_plan (event_id cost_event) w) as (Hx1 & Ht1 & Hall).
  unfold bind at 1.
  destruct (execute_action_plan _ action_plan _ _ w) as [[e | executions] w1] eqn:E1;
    simpl in Hx1, Ht1.
  { intros ->. simpl. rewrite Hx1, Ht1. split; [now left | auto]. }
  specialize (Hall executions eq_refl).
  destruct executions as [| primary_execution rest].
  { intros ->. simpl. rewrite Hx1, Ht1. split; [now left | auto]. }
  destruct (mapM_save_entries (set_status Planned) (primary_execution :: rest) w1)
    as [Hx2 Ht2].
  assert (Htable : forall k e,
             w_table (snd (mapM (fun e => save_execution (set_status Planned e))
                             (primary_execution :: rest) w1)) !! k = Some e ->
             w_table w !! k = Some e
             \/ (status e = Planned /\ ttl_expires_at e = None
                 /\ executed_by e = "system:budgets_event"
                 /\ exec_event_id e = event_id cost_event)).
  { intros k e Hk. destruct (Ht2 k e Hk) as [Ho | Hin].
    - left. now rewrite <- Ht1.
    - right. apply in_map_iff in Hin as (e0 & <- & Hin0).
      rewrite List.Forall_forall in Hall. destruct (Hall e0 Hin0) as (A & B & C).
      now repeat split. }
  clear Ht2. unfold bind at 1.
  destruct (mapM _ (primary_execution :: rest) w1) as [[e | saved] w2] eqn:E2;
    simpl in Hx2, Htable.
  { intros ->. simpl. split; [left; congruence | exact Htable]. }
  unfold bind at 1, lift.
  destruct (BudgetsEvent.ApprovalWebhookHandler_new getenv) as [e | webhook_handler].
  { intros ->. simpl. split; [left; congruence | exact Htable]. }
  unfold bind at 1. unfold ApprovalLink.generate_approval_url at 1.
  unfold bind at 1, utcnow, ret. unfold bind, call. simpl.
  rewrite Hx2, Hx1.
  match goal with
  | |- context [send_approval_request ?a ?b ?c ?d (w_ext w)] =>
      destruct (send_approval_request a b c d (w_ext w)) as [r x] eqn:Es;
        assert (Hsnd : x = snd (send_approval_request a b c d (w_ext w)))
          by now rewrite Es
  end.
  destruct r as [e | success]; intros ->; simpl;
    (split; [right; eexists; eexists; exact Hsnd | exact Htable]).
Qed.

Lemma SlackNotifier_new_ok slack_webhook :
  BudgetsEvent.SlackNotifier_new slack_webhook = inr tt ->
  str_eqb slack_webhook EmptyString = false.
Proof.
  unfold BudgetsEvent.SlackNotifier_new.
  destruct (str_eqb slack_webhook EmptyString); [discriminate | reflexivity].
Qed.

(** X25. Manual mode on a valid matched plan with a target, the webhook URL set
    and the table answering.  Every execution of the plan is in the audit
    table as planned; the link handed to [send_approval_request] is for the
    first execution and carries a timestamp and a signature that
    [_verify_signature] of the approval handler accepts for it; the answer
    is approval_requested, with as many executions as the plan has pairs
    of an action and a target. *)
Theorem manual_mode_asks_for_approval cost_event action_plan slack_webhook w :
  getenv "SLACK_WEBHOOK_URL" = Some slack_webhook ->
  BudgetsEvent.SlackNotifier_new slack_webhook = inr tt ->
  plan_mode action_plan = Some Manual ->
  matched action_plan = true ->
  ActionPlan_valid action_plan = true ->
  Forall (fun a => PolicyAction_valid a = true) (plan_actions action_plan) ->
  target_principals action_plan <> [] ->
  no_table_fault w ->
  exists webhook_handler primary_execution signature timestamp,
    BudgetsEvent.ApprovalWebhookHandler_new getenv = inr webhook_handler
    /\ ApprovalWebhook._verify_signature webhook_handler
         (execution_id primary_execution) timestamp signature = inr true
    /\ (exists e, w_table (snd (BudgetsEvent.execute_action_plan getenv send_dry_run_alert
                    send_approval_request cost_event action_plan w))
                  !! execution_id primary_execution = Some e
                  /\ status e = Planned)
    /\ fst (BudgetsEvent.execute_action_plan getenv send_dry_run_alert
                    send_approval_request cost_event action_plan w)
       = match fst (send_approval_request cost_event action_plan
                      (execution_id primary_execution)
                      (default "https://api.autoguardrails.example.com"
                         (getenv "APPROVAL_API_BASE_URL")
                       +:+ "/approve?id=" +:+ execution_id primary_execution
                       +:+ "&sig=" +:+ signature +:+ "&ts=" +:+ timestamp)
                      (w_ext w)) with
         | inr success =>
             inr {| BudgetsEvent.notification_sent := success;
                    BudgetsEvent.outcome_action := "approval_requested";
                    BudgetsEvent.outcome_execution_id :=
                      Some (execution_id primary_execution);
                    BudgetsEvent.executions_created :=
                      Some (length (plan_pairs action_plan));
                    BudgetsEvent.outcome_ttl_expires_at := None;
                    BudgetsEvent.outcome_error := None |}
         | inl e => inl e
         end.
Proof.
  intros Henv Hslack Hmode Hm Hv Hacts Htargets Hnf.
  assert (Hhandler : exists webhook_handler,
             BudgetsEvent.ApprovalWebhookHandler_new getenv = inr webhook_handler).
  { unfold BudgetsEvent.ApprovalWebhookHandler_new. rewrite Henv. simpl.
    rewrite Hslack. now eexists. }
  destruct Hhandler as [webhook_handler Hhandler].
  destruct (execute_action_plan_runs {| dry_run := true |} action_plan
              (event_id cost_event) "system:budgets_event" w Hm Hv Hacts)
    as (executions & w1 & E1 & Hpairs).
  destruct (planned_executions action_plan (event_id cost_event) w) as (Hx1 & _ & _).
  rewrite E1 in Hx1. simpl in Hx1.
  pose proof (execute_action_plan_preserves {| dry_run := true |} action_plan
                (event_id cost_event) "system:budgets_event" w) as Hstore.
  rewrite E1 in Hstore. simpl in Hstore.
  assert (Hnf1 : no_table_fault w1).
  { apply (no_table_fault_env w); [now apply store_env | exact Hnf]. }
  destruct executions as [| primary_execution rest].
  { exfalso. apply (plan_pairs_nonempty action_plan Hv Hm Htargets).
    now rewrite <- Hpairs. }
  destruct (mapM_save_all (set_status Planned) (primary_execution :: rest) w1 Hnf1)
    as (saved & w2 & E2 & _ & Hx2 & _ & _ & Hin & _); [reflexivity |].
  destruct (Hin primary_execution (or_introl eq_refl)) as (e & He & Hplanned).
  apply in_map_iff in Hplanned as (e0 & <- & _).
  exists webhook_handler, primary_execution,
    (ApprovalWebhook._generate_signature webhook_handler
       (execution_id primary_execution)
       (isoformat (w_clock w2 (w_clock_reads w2)))),
    (isoformat (w_clock w2 (w_clock_reads w2))).
  split; [exact Hhandler |]. split; [apply signature_round_trip |].
  assert (Hlen : length (plan_pairs action_plan) = length (primary_execution :: rest)).
  { rewrite <- Hpairs. now rewrite length_map. }
  remember (BudgetsEvent.execute_action_plan getenv send_dry_run_alert
                    send_approval_request cost_event action_plan w) as r eqn:Hr. revert Hr.
  unfold BudgetsEvent.execute_action_plan. rewrite Henv, (SlackNotifier_new_ok _ Hslack).
  unfold bind at 1, lift. rewrite Hslack, Hmode.
  unfold bind at 1. rewrite E1. unfold bind at 1. rewrite E2.
  unfold bind at 1, lift. rewrite Hhandler.
  unfold bind at 1. unfold ApprovalLink.generate_approval_url at 1.
  unfold bind at 1, utcnow, ret. unfold bind, call. simpl.
  rewrite Hx2, Hx1, Hlen.
  match goal with
  | |- context [send_approval_request ?a ?b ?c ?d (w_ext w)] =>
      destruct (send_approval_request a b c d (w_ext w)) as [[x | success] x']
  end; intros ->; simpl; (split; [exists (set_status Planned e0); now split | reflexivity]).
Qed.

(** X26. Auto mode on a valid matched plan with a target, the webhook URL set
    and the table answering.  The executor is run for real, every
    execution it returns is saved as it is, executed or failed, and the
    answer is executed whatever their statuses: the confirmation sent, the
    execution id and the ttl_expires_at of the answer are those of the
    first execution. *)
Theorem auto_mode_reports_first cost_event action_plan slack_webhook w :
  getenv "SLACK_WEBHOOK_URL" = Some slack_webhook ->
  BudgetsEvent.SlackNotifier_new slack_webhook = inr tt ->
  plan_mode action_plan = Some Auto ->
  matched action_plan = true ->
  ActionPlan_valid action_plan = true ->
  Forall (fun a => PolicyAction_valid a = true) (plan_actions action_plan) ->
  target_principals action_plan <> [] ->
  no_table_fault w ->
  exists primary_execution rest w1,
    execute_action_plan {| dry_run := false |} action_plan (event_id cost_event)
      "system:auto" w = (inr (primary_execution :: rest), w1)
    /\ (forall x, In x (primary_execution :: rest) ->
          exists e, w_table (snd (BudgetsEvent.execute_action_plan getenv send_dry_run_alert
                    send_approval_request cost_event action_plan w)) !! execution_id x
                    = Some e
                    /\ In e (primary_execution :: rest))
    /\ fst (BudgetsEvent.execute_action_plan getenv send_dry_run_alert
                    send_approval_request cost_event action_plan w)
       = match fst (send_execution_confirmation primary_execution (w_ext w1)) with
         | inr success =>
             inr {| BudgetsEvent.notification_sent := success;
                    BudgetsEvent.outcome_action := "executed";
                    BudgetsEvent.outcome_execution_id :=
                      Some (execution_id primary_execution);
                    BudgetsEvent.executions_created :=
                      Some (length (plan_pairs action_plan));
                    BudgetsEvent.outcome_ttl_expires_at :=
                      Some (option_map isoformat (ttl_expires_at primary_execution));
                    BudgetsEvent.outcome_error := None |}
         | inl e => inl e
         end.
Proof.
  intros Henv Hslack Hmode Hm Hv Hacts Htargets Hnf.
  destruct (execute_action_plan_runs {| dry_run := false |} action_plan
              (event_id cost_event) "system:auto" w Hm Hv Hacts)
    as (executions & w1 & E1 & Hpairs).
  pose proof (execute_action_plan_preserves {| dry_run := false |} action_plan
                (event_id cost_event) "system:auto" w) as Hstore.
  rewrite E1 in Hstore. simpl in Hstore.
  assert (Hnf1 : no_table_fault w1).
  { apply (no_table_fault_env w); [now apply store_env | exact Hnf]. }
  destruct executions as [| primary_execution rest].
  { exfalso. apply (plan_pairs_nonempty action_plan Hv Hm Htargets).
    now rewrite <- Hpairs. }
  destruct (mapM_save_all (fun e => e) (primary_execution :: rest) w1 Hnf1)
    as (saved & w2 & E2 & _ & Hx2 & _ & _ & Hin & _); [reflexivity |].
  rewrite map_id in Hin.
  exists primary_execution, rest, w1. split; [exact E1 |].
  assert (Hlen : length (plan_pairs action_plan) = length (primary_execution :: rest)).
  { rewrite <- Hpairs. now rewrite length_map. }
  remember (BudgetsEvent.execute_action_plan getenv send_dry_run_alert
                    send_approval_request cost_event action_plan w) as r eqn:Hr. revert Hr.
  unfold BudgetsEvent.execute_action_plan. rewrite Henv, (SlackNotifier_new_ok _ Hslack).
  unfold bind at 1, lift. rewrite Hslack, Hmode.
  unfold bind at 1. rewrite E1. unfold bind at 1.
  change (@mapM X _ _ save_execution (primary_execution :: rest))
    with (@mapM X _ _ (fun e => save_execution e) (primary_execution :: rest)).
  rewrite E2. unfold bind, call, ret. simpl. rewrite Hx2, Hlen.
  destruct (send_execution_confirmation primary_execution (w_ext w1))
    as [[x | success] x'];
    intros ->; simpl; (split; [exact Hin | reflexivity]).
Qed.

End BudgetsFacts.

(** The manual plan over two targets: two planned executions, one call of
    Slack, nothing attached. *)
Lemma manual_mode_changes_no_permission_witness :
  plan_mode Fixtures.manual_two_targets_plan = Some Manual
  /\ (forall k e,
        w_table (snd (BudgetsEvent.execute_action_plan Fixtures.env
                        Fixtures.slack_dry_run_alert Fixtures.slack_approval_request
                        Fixtures.event_800 Fixtures.manual_two_targets_plan
                        Fixtures.w_10h00)) !! k = Some e ->
        w_table Fixtures.w_10h00 !! k = Some e
        \/ (status e = Planned /\ ttl_expires_at e = None
            /\ executed_by e = "system:budgets_event"
            /\ exec_event_id e = event_id Fixtures.event_800))
  /\ MockAWS.role_attachments
       (w_ext (snd (BudgetsEvent.execute_action_plan Fixtures.env
                      Fixtures.slack_dry_run_alert Fixtures.slack_approval_request
                      Fixtures.event_800 Fixtures.manual_two_targets_plan
                      Fixtures.w_10h00))) = []
  /\ size (w_table (snd (BudgetsEvent.execute_action_plan Fixtures.env
                           Fixtures.slack_dry_run_alert Fixtures.slack_approval_request
                           Fixtures.event_800 Fixtures.manual_two_targets_plan
                           Fixtures.w_10h00))) = 2%nat.
Proof.
  split; [reflexivity |]. split; [| split; vm_compute; reflexivity].
  exact (proj2 (manual_mode_changes_no_permission Fixtures.env
                  Fixtures.slack_dry_run_alert Fixtures.slack_approval_request
                  Fixtures.event_800 Fixtures.manual_two_targets_plan
                  Fixtures.w_10h00 eq_refl)).
Defined.

Lemma manual_mode_asks_for_approval_witness :
  exists webhook_handler primary_execution signature timestamp,
    BudgetsEvent.ApprovalWebhookHandler_new Fixtures.env = inr webhook_handler
    /\ ApprovalWebhook._verify_signature webhook_handler
         (execution_id primary_execution) timestamp signature = inr true
    /\ exists e,
         w_table (snd (BudgetsEvent.execute_action_plan Fixtures.env
                         Fixtures.slack_dry_run_alert Fixtures.slack_approval_request
                         Fixtures.event_800 Fixtures.manual_two_targets_plan
                         Fixtures.w_10h00)) !! execution_id primary_execution = Some e
         /\ status e = Planned.
Proof.
  assert (Hslack : BudgetsEvent.SlackNotifier_new
                     "https://hooks.slack.com/services/T0/B0/XXXX" = inr tt)
    by (vm_compute; reflexivity).
  assert (Hacts : Forall (fun a => PolicyAction_valid a = true)
                    (plan_actions Fixtures.manual_two_targets_plan))
    by (repeat constructor).
  assert (Htargets : target_principals Fixtures.manual_two_targets_plan <> [])
    by discriminate.
  assert (Hnf : no_table_fault Fixtures.w_10h00) by (intros n; reflexivity).
  destruct (manual_mode_asks_for_approval Fixtures.env Fixtures.slack_dry_run_alert
              Fixtures.slack_approval_request Fixtures.event_800
              Fixtures.manual_two_targets_plan
              "https://hooks.slack.com/services/T0/B0/XXXX" Fixtures.w_10h00
              eq_refl Hslack eq_refl eq_refl eq_refl Hacts Htargets Hnf)
    as (webhook_handler & primary_execution & signature & timestamp
        & Hh & Hsig & Hplanned & _).
  exists webhook_handler, primary_execution, signature, timestamp.
  split; [exact Hh |]. split; [exact Hsig | exact Hplanned].
Defined.

(** The auto plan whose first target is a role the account does not have:
    the answer is executed. *)
Lemma auto_mode_reports_first_witness :
  exists primary_execution rest w1,
    execute_action_plan {| dry_run := false |} Fixtures.two_targets_plan
      (event_id Fixtures.event_800) "system:auto" Fixtures.w_10h00
    = (inr (primary_execution :: rest), w1)
    /\ fst (BudgetsEvent.execute_action_plan Fixtures.env
              Fixtures.slack_dry_run_alert Fixtures.slack_approval_request
              Fixtures.event_800 Fixtures.two_targets_plan Fixtures.w_10h00)
       = match fst (send_execution_confirmation primary_execution (w_ext w1)) with
         | inr success =>
             inr {| BudgetsEvent.notification_sent := success;
                    BudgetsEvent.outcome_action := "executed";
                    BudgetsEvent.outcome_execution_id :=
                      Some (execution_id primary_execution);
                    BudgetsEvent.executions_created :=
                      Some (length (plan_pairs Fixtures.two_targets_plan));
                    BudgetsEvent.outcome_ttl_expires_at :=
                      Some (option_map isoformat (ttl_expires_at primary_execution));
                    BudgetsEvent.outcome_error := None |}
         | inl e => inl e
         end.
Proof.
  assert (Hslack : BudgetsEvent.SlackNotifier_new
                     "https://hooks.slack.com/services/T0/B0/XXXX" = inr tt)
    by (vm_compute; reflexivity).
  assert (Hacts : Forall (fun a => PolicyAction_valid a = true)
                    (plan_actions Fixtures.two_targets_plan))
    by (repeat constructor).
  assert (Htargets : target_principals Fixtures.two_targets_plan <> [])
    by discriminate.
  assert (Hnf : no_table_fault Fixtures.w_10h00) by (intros n; reflexivity).
  destruct (auto_mode_reports_first Fixtures.env Fixtures.slack_dry_run_alert
              Fixtures.slack_approval_request Fixtures.event_800
              Fixtures.two_targets_plan
              "https://hooks.slack.com/services/T0/B0/XXXX" Fixtures.w_10h00
              eq_refl Hslack eq_refl eq_refl eq_refl Hacts Htargets Hnf)
    as (primary_execution & rest & w1 & E1 & _ & Hout).
  exists primary_execution, rest, w1. split; [exact E1 | exact Hout].
Defined.

(** In that run the first execution failed and the second was executed;
    the answer says executed and names the first, with no
    ttl_expires_at. *)
Example auto_mode_first_failed :
  match fst (BudgetsEvent.execute_action_plan Fixtures.env
               Fixtures.slack_dry_run_alert Fixtures.slack_approval_request
               Fixtures.event_800 Fixtures.two_targets_plan Fixtures.w_10h00) with
  | inr outcome =>
      (BudgetsEvent.outcome_action outcome, BudgetsEvent.outcome_execution_id outcome,
       BudgetsEvent.outcome_ttl_expires_at outcome)
  | inl _ => (EmptyString, None, None)
  end = ("executed", Some "exec-u0", Some None)
  /\ option_map status
       (w_table (snd (BudgetsEvent.execute_action_plan Fixtures.env
                        Fixtures.slack_dry_run_alert Fixtures.slack_approval_request
                        Fixtures.event_800 Fixtures.two_targets_plan Fixtures.w_10h00))
        !! "exec-u0") = Some Failed
  /\ option_map status
       (w_table (snd (BudgetsEvent.execute_action_plan Fixtures.env
                        Fixtures.slack_dry_run_alert Fixtures.slack_approval_request
                        Fixtures.event_800 Fixtures.two_targets_plan Fixtures.w_10h00))
        !! "exec-u1") = Some Executed.
Proof. repeat split; vm_compute; reflexivity. Qed.

(** ** The approval of an execution planned in manual mode *)

Lemma as_strs_map l : as_strs (map VStr l) = Some l.
Proof. induction l as [| x l IH]; simpl; [reflexivity | now rewrite IH]. Qed.

Section Approves.

Context {X : Type} `{Boto X}.
Implicit Types w : World X.

Variable fromisoformat : string -> Result parsed.
Variable self : ApprovalWebhook.ApprovalWebhookHandler.

(** X6. The approval goes through.  A request with the right signature, in
    time, for an execution that is stored as planned with the diff the
    executor in dry-run mode gave it (a deny list the model accepts) and a
    policy id, is answered 200 while the table answers, whatever IAM and
    Slack do: the attach is tried, and its outcome, executed or failed, is
    what the body reports. *)
Theorem handle_approval_approves execution_id signature timestamp user old deny
    principal_arn w :
  ApprovalWebhook._verify_signature self execution_id timestamp signature = inr true ->
  fst (ApprovalWebhook._is_expired fromisoformat self timestamp w) = inr false ->
  no_table_fault w ->
  w_table w !! execution_id = Some old ->
  status old = Planned ->
  Models.action old = "attach_deny_policy" ->
  diff old = [("dry_run", VBool true); ("would_deny", str_list deny);
              ("target", VStr principal_arn)] ->
  PolicyAction_valid {| action_type := AttachDenyPolicy; deny := Some deny |} = true ->
  exec_policy_id old <> EmptyString ->
  exists st w',
    ApprovalWebhook.handle_approval fromisoformat self execution_id signature
      timestamp user w
    = (inr {| ApprovalWebhook.statusCode := 200;
              ApprovalWebhook.body := ApprovalWebhook.ok_body execution_id st |}, w')
    /\ (st = Executed \/ st = Failed)
    /\ option_map status (w_table w' !! execution_id) = Some st.
Proof.
  intros Hv Hfresh Hnf Hold Hst Hact Hdiff Hvalid Hid.
  pose proof (_is_expired_preserves fromisoformat self timestamp w) as Hp1.
  destruct (ApprovalWebhook._is_expired fromisoformat self timestamp w)
    as [[x | expired] w1] eqn:Hexp; simpl in Hfresh, Hp1; [discriminate |].
  inversion Hfresh; subst expired. unfold but_clock_reads in Hp1.
  assert (Htab1 : w_table w1 = w_table w) by now inversion Hp1.
  assert (Hnf1 : no_table_fault w1).
  { intros n. replace (w_table_fault w1) with (w_table_fault w) by now inversion Hp1.
    apply Hnf. }
  unfold ApprovalWebhook.handle_approval.
  unfold bind at 1. unfold lift at 1. rewrite Hv. simpl.
  unfold bind at 1. rewrite Hexp. unfold bind at 1.
  rewrite get_execution_run. cbv zeta. rewrite Hnf1, Htab1, Hold, Hst. simpl.
  set (w2 := set_table (w_table w) (set_table_calls (S (w_table_calls w1)) w1)).
  assert (Hnf2 : no_table_fault w2) by (intros n; apply Hnf1).
  assert (Hdeny : ApprovalWebhook.deny_actions_of (diff old) = inr (str_list deny)).
  { rewrite Hdiff. unfold ApprovalWebhook.deny_actions_of. simpl.
    unfold PolicyAction_valid in Hvalid. simpl in Hvalid.
    destruct deny; [now rewrite andb_false_r in Hvalid | reflexivity]. }
  assert (Htruthy : truthy (str_list deny) = true).
  { unfold PolicyAction_valid in Hvalid. simpl in Hvalid.
    destruct deny; [now rewrite andb_false_r in Hvalid | reflexivity]. }
  assert (Hpa : PolicyAction_new (Models.action old) (Some (str_list deny))
                = inr {| action_type := AttachDenyPolicy; Models.deny := Some deny |}).
  { rewrite Hact. unfold PolicyAction_new, str_list. simpl.
    rewrite as_strs_map, Hvalid. reflexivity. }
  assert (Hplan : forall p,
             p = {| matched := true;
                    matched_policy_id := Some (exec_policy_id old);
                    plan_mode := Some Manual;
                    plan_actions := [{| action_type := AttachDenyPolicy;
                                        Models.deny := Some deny |}];
                    plan_ttl_minutes := Some 0;
                    target_principals := [target old] |} ->
             ActionPlan_new p = inr p).
  { intros p ->. unfold ActionPlan_new, ActionPlan_valid. simpl. unfold str_eqb.
    destruct (String.eqb_spec (exec_policy_id old) EmptyString); [contradiction |].
    reflexivity. }
  destruct (no_raise_run
              (_execute_single_action (ApprovalWebhook.executor self)
                 {| action_type := AttachDenyPolicy; Models.deny := Some deny |}
                 (target old) (exec_policy_id old) (exec_event_id old)
                 ("user:" +:+ user) (Some 0)) w2) as (made & w3 & Esingle).
  { now apply _execute_single_action_no_raise. }
  pose proof (_execute_single_action_preserves
                (ApprovalWebhook.executor self)
                {| action_type := AttachDenyPolicy; Models.deny := Some deny |}
                (target old) (exec_policy_id old) (exec_event_id old)
                ("user:" +:+ user) (Some 0) w2) as Hp3.
  rewrite Esingle in Hp3. simpl in Hp3.
  assert (Hnf3 : no_table_fault w3).
  { apply (no_table_fault_env w2); [now apply store_env | exact Hnf2]. }
  pose proof (_execute_single_action_fields
                (ApprovalWebhook.executor self)
                {| action_type := AttachDenyPolicy; Models.deny := Some deny |}
                (target old) (exec_policy_id old) (exec_event_id old)
                ("user:" +:+ user) (Some 0) w2 made) as Hfields.
  rewrite Esingle in Hfields. specialize (Hfields eq_refl).
  destruct Hfields as (_ & _ & _ & _ & _ & _ & Hstatus).
  exists (status made).
  unfold try_except at 1.
  unfold bind at 1. unfold lift at 1. rewrite Hdeny. rewrite Htruthy. simpl.
  unfold bind at 1. unfold lift at 1. rewrite Hpa.
  unfold bind at 1. unfold lift at 1. rewrite (Hplan _ eq_refl).
  unfold bind at 1.
  rewrite (execute_action_plan_single _ _
             {| action_type := AttachDenyPolicy; Models.deny := Some deny |}
             (target old) (exec_policy_id old)); try reflexivity; [| exact Hid].
  simpl. rewrite Esingle.
  unfold bind at 1. rewrite (update_execution_ok _ w3 Hnf3).
  unfold bind, try_except, call, ret. simpl.
  destruct (send_execution_confirmation (set_execution_id execution_id made) (w_ext w3))
    as [[e | b] x']; simpl;
    (eexists; split; [reflexivity |]; split; [exact Hstatus |]);
    simpl; now rewrite lookup_insert_eq.
Qed.

End Approves.

(** The link of the planned execution of the scenario, used at 10:10. *)
Lemma handle_approval_approves_witness :
  exists st w',
    ApprovalWebhook.handle_approval iso_parse Fixtures.approval_handler "exec-u0"
      Fixtures.link_signature Fixtures.link_timestamp "bob" Fixtures.w_approval
    = (inr {| ApprovalWebhook.statusCode := 200;
              ApprovalWebhook.body := ApprovalWebhook.ok_body "exec-u0" st |}, w')
    /\ (st = Executed \/ st = Failed).
Proof.
  assert (Hv : ApprovalWebhook._verify_signature Fixtures.approval_handler "exec-u0"
                 Fixtures.link_timestamp Fixtures.link_signature = inr true)
    by (vm_compute; reflexivity).
  assert (Hfresh : fst (ApprovalWebhook._is_expired iso_parse Fixtures.approval_handler
                          Fixtures.link_timestamp Fixtures.w_approval) = inr false)
    by (vm_compute; reflexivity).
  assert (Hnf : no_table_fault Fixtures.w_approval) by (intros n; reflexivity).
  assert (Hfacts : option_map (fun e => (status e, Models.action e, diff e,
                                         exec_policy_id e))
                     (w_table Fixtures.w_approval !! "exec-u0")
                   = Some (Planned, "attach_deny_policy",
                           [("dry_run", VBool true);
                            ("would_deny", str_list ["ec2:RunInstances"]);
                            ("target", VStr Fixtures.ci_role)],
                           "ci-ec2-spike"))
    by (vm_compute; reflexivity).
  destruct (w_table Fixtures.w_approval !! "exec-u0") as [old |] eqn:Hold;
    [| discriminate Hfacts].
  simpl in Hfacts. injection Hfacts as Hst Hact Hdiff Hid.
  destruct (handle_approval_approves iso_parse Fixtures.approval_handler "exec-u0"
              Fixtures.link_signature Fixtures.link_timestamp "bob" old
              ["ec2:RunInstances"] Fixtures.ci_role Fixtures.w_approval
              Hv Hfresh Hnf Hold Hst Hact Hdiff eq_refl)
    as (st & w' & E & Hs & _).
  - rewrite Hid. discriminate.
  - exists st, w'. split; [exact E | exact Hs].
Defined.

(** ** What the cleanup records of one rollback *)

Lemma dict_get_set k v d : dict_get k (dict_set k v d) = Some v.
Proof.
  induction d as [| [k' v'] d IH]; simpl.
  - unfold str_eqb. now rewrite String.eqb_refl.
  - destruct (str_eqb k k') eqn:E; simpl; rewrite E; [reflexivity | exact IH].
Qed.

Section RollbackOutcome.

Context {X : Type} `{Boto X}.
Implicit Types w : World X.

Variable self : TTLCleanup.TTLCleanupHandler.

(** X27. The answer of [_rollback_execution] and the record it leaves, while the
    table answers.  An execution that is not executed is skipped and
    nothing is touched.  An executed one is overwritten under its own id:
    when the executor returned True, by a record with status rolled_back
    and rolled_back_at set to the reading of the clock the handler takes
    after the rollback, and the answer is rolled_back whatever Slack does;
    when the executor returned False, by a record with status failed and a
    rollback_error in its diff, and the answer is failed. *)
Theorem _rollback_execution_outcome execution w :
  no_table_fault w ->
  exists r w',
    TTLCleanup._rollback_execution self execution w = (inr r, w')
    /\ (status execution <> Executed -> r = "skipped" /\ w' = w)
    /\ (status execution = Executed ->
        exists success after wa stored,
          rollback_execution (TTLCleanup.executor self) execution w
          = (inr (success, after), wa)
          /\ w_table w' = <[execution_id execution := stored]> (w_table w)
          /\ if success
             then r = "rolled_back"
                  /\ stored = set_rolled_back_at (Some (w_clock wa (w_clock_reads wa)))
                                (set_status RolledBack after)
             else r = "failed"
                  /\ status stored = Failed
                  /\ dict_get "rollback_error" (diff stored)
                     = Some (VStr "Rollback returned False")).
Proof.
  intros Hnf. unfold TTLCleanup._rollback_execution.
  destruct (status_eqb (status execution) Executed) eqn:Hs; simpl.
  2:{ exists "skipped", w. split; [reflexivity |].
      split; [auto |]. intros E. rewrite E in Hs. discriminate. }
  assert (Hexec : status execution = Executed) by (now destruct (status execution)).
  assert (Hnr : no_raise (rollback_execution (TTLCleanup.executor self) execution)).
  { unfold rollback_execution.
    destruct (negb _); [apply no_raise_ret |].
    destruct (dry_run _); [apply no_raise_ret |].
    apply no_raise_try_except. intros e. apply no_raise_ret. }
  destruct (no_raise_run _ w Hnr) as ([success after] & wa & Erun).
  pose proof (rollback_execution_preserves (TTLCleanup.executor self) execution w) as Hp.
  pose proof (rollback_execution_keeps_id (TTLCleanup.executor self) execution w) as Hid.
  rewrite Erun in Hp, Hid. simpl in Hp, Hid. specialize (Hid _ eq_refl). simpl in Hid.
  assert (Hnfa : no_table_fault wa)
    by exact (no_table_fault_env w wa (store_env _ _ Hp) Hnf).
  assert (Hta : w_table wa = w_table w) by (unfold store_of in Hp; now inversion Hp).
  unfold bind at 1. unfold try_except at 1. unfold bind at 1. rewrite Erun. simpl.
  destruct success.
  - unfold bind at 1. unfold utcnow at 1.
    set (wb := set_clock_reads _ wa).
    assert (Hnfb : no_table_fault wb) by exact Hnfa.
    unfold try_except at 1. unfold bind at 1.
    rewrite (update_execution_ok _ _ Hnfb).
    unfold bind at 1. unfold try_except at 1. unfold bind at 1.
    unfold call at 1.
    destruct (send_rollback_confirmation _ _) as [[e | b] x]; simpl;
      (eexists; eexists; split; [reflexivity |]; split; [congruence |]);
      intros _; exists true, after, wa; eexists;
      (split; [reflexivity |]); simpl; rewrite Hta, <- Hid;
      (split; [reflexivity |]); split; reflexivity.
  - unfold try_except, bind. rewrite (update_execution_ok _ _ Hnfa). simpl.
    eexists; eexists. split; [reflexivity |]. split; [congruence |].
    intros _. exists false, after, wa. eexists.
    split; [reflexivity |]. simpl. rewrite Hta, <- Hid.
    split; [reflexivity |]. split; [reflexivity |]. split; [reflexivity |].
    apply dict_get_set.
Qed.

End RollbackOutcome.

(** The executed notify_only execution, rolled back by the cleanup. *)
Lemma _rollback_execution_outcome_witness :
  no_table_fault Fixtures.w_10h00
  /\ exists r w' stored,
       TTLCleanup._rollback_execution (Fixtures.cleanup_handler 100)
         Fixtures.executed_notify Fixtures.w_10h00 = (inr r, w')
       /\ w_table w' = <["exec-9" := stored]> (w_table Fixtures.w_10h00).
Proof.
  assert (Hnf : no_table_fault Fixtures.w_10h00) by (intros n; reflexivity).
  split; [exact Hnf |].
  destruct (_rollback_execution_outcome (Fixtures.cleanup_handler 100)
              Fixtures.executed_notify Fixtures.w_10h00 Hnf)
    as (r & w' & E & _ & Hexec).
  destruct (Hexec eq_refl) as (success & after & wa & stored & _ & Htab & _).
  exists r, w', stored. split; [exact E | exact Htab].
Defined.

(** With an executor in dry-run mode the cleanup marks the execution
    rolled_back although nothing was detached. *)
Example _rollback_execution_dry_run :
  fst (TTLCleanup._rollback_execution
         {| TTLCleanup.executor := Fixtures.dry_executor; TTLCleanup.batch_size := 100 |}
         Fixtures.executed_notify Fixtures.w_10h00) = inr "rolled_back"
  /\ option_map status
       (w_table (snd (TTLCleanup._rollback_execution
                        {| TTLCleanup.executor := Fixtures.dry_executor;
                           TTLCleanup.batch_size := 100 |}
                        Fixtures.executed_notify Fixtures.w_10h00)) !! "exec-9")
     = Some RolledBack.
Proof. split; vm_compute; reflexivity. Qed.
